(** * Android Workbench: a shallow embedding of the three menu programs

    The repository holds three iterations of one interactive console:
    [android_workbench.py] (banner "v0.1"), [android-workbench-v1.2.py]
    and [android_workbench_ai.py].  They are embedded below as the modules
    [V01], [V12] and [Ai], over a common model of the Python builtins and
    of the process, terminal, clock and file-system boundary.

    Strings.  A Python [str] is modelled as a [string] whose characters are
    code points below 256; the character classes below are those of
    CPython on that range.

    Effects.  A handler is a computation that reads an environment (what
    child processes, the clock and the [re] module answer), threads a
    state (the session context, the lines the operator will type, the
    trace of what has happened) and may raise.  The session context lives
    in the state: the menu reads it there at each use and the dry-run
    toggle writes it there. *)

From Stdlib Require Import String Ascii List NArith ZArith Lia Bool Arith.
From Stdlib Require Import DecimalString.
Import ListNotations.
Open Scope list_scope.
Open Scope string_scope.

Set Implicit Arguments.

(* ================================================================== *)
(** ** Python builtins on strings *)
(* ================================================================== *)

Module Py.

Definition ord (c : ascii) : nat := nat_of_ascii c.

Definition between (lo hi n : nat) : bool := ((lo <=? n) && (n <=? hi))%nat.

(** [str.isspace] on one character: TAB..CR, FS..US, SPACE, NEL, NBSP. *)
Definition isspace (c : ascii) : bool :=
  let n := ord c in
  between 9 13 n || between 28 32 n || (n =? 133)%nat || (n =? 160)%nat.

(** The line boundaries of [str.splitlines]: LF VT FF CR FS GS RS NEL. *)
Definition is_linebreak (c : ascii) : bool :=
  let n := ord c in
  between 10 13 n || between 28 30 n || (n =? 133)%nat.

(** [str.isdigit] on one character: 0-9 and the superscripts 2, 3, 1. *)
Definition isdigit_char (c : ascii) : bool :=
  let n := ord c in
  between 48 57 n || (n =? 178)%nat || (n =? 179)%nat || (n =? 185)%nat.

(** Decimal digits, the only ones [int] converts. *)
Definition isdecimal_char (c : ascii) : bool := between 48 57 (ord c).

Definition digit_value (c : ascii) : Z := Z.of_nat (ord c - 48).

(** [str.lower] on one character. *)
Definition lower_char (c : ascii) : ascii :=
  let n := ord c in
  if between 65 90 n || (between 192 222 n && negb (n =? 215)%nat)
  then ascii_of_nat (n + 32) else c.

Fixpoint lower (s : string) : string :=
  match s with
  | EmptyString => EmptyString
  | String c r => String (lower_char c) (lower r)
  end.

(** Truth value of a string: non-empty. *)
Definition truthy (s : string) : bool :=
  match s with EmptyString => false | _ => true end.

Fixpoint lstrip (s : string) : string :=
  match s with
  | EmptyString => EmptyString
  | String c r => if isspace c then lstrip r else s
  end.

Fixpoint rstrip (s : string) : string :=
  match s with
  | EmptyString => EmptyString
  | String c r =>
      let r' := rstrip r in
      if isspace c && negb (truthy r') then EmptyString else String c r'
  end.

Definition strip (s : string) : string := lstrip (rstrip s).

(** [str.split()] without argument: the maximal runs of non-space
    characters, in order. *)
Fixpoint split (s : string) : list string :=
  match s with
  | EmptyString => []
  | String c r =>
      if isspace c then split r
      else match r with
           | EmptyString => [String c EmptyString]
           | String c' _ =>
               if isspace c' then String c EmptyString :: split r
               else match split r with
                    | w :: ws => String c w :: ws
                    | [] => [String c EmptyString]
                    end
           end
  end.

Definition is_cr (c : ascii) : bool := (ord c =? 13)%nat.
Definition is_lf (c : ascii) : bool := (ord c =? 10)%nat.

(** [str.splitlines()]: CR LF counts once, and a final line break opens
    no further line. *)
Fixpoint splitlines (s : string) : list string :=
  match s with
  | EmptyString => []
  | String c r =>
      if is_linebreak c then
        match r with
        | String c' r' =>
            if is_cr c && is_lf c' then EmptyString :: splitlines r'
            else EmptyString :: splitlines r
        | EmptyString => [EmptyString]
        end
      else match splitlines r with
           | l :: ls => String c l :: ls
           | [] => [String c EmptyString]
           end
  end.

(** [xs.append(x)]. *)
Definition append {A} (xs : list A) (x : A) : list A := (xs ++ [x])%list.

(** [sep.join(xs)]. *)
Definition join (sep : string) (xs : list string) : string :=
  String.concat sep xs.

(** [s * n]. *)
Fixpoint mul (s : string) (n : nat) : string :=
  match n with
  | O => EmptyString
  | S k => s ++ mul s k
  end.

(** [s.ljust(width, fill)]. *)
Definition ljust (s : string) (width : nat) (fill : ascii) : string :=
  s ++ mul (String fill EmptyString) (width - String.length s).

(** [max] of a list of lengths (never called on an empty list). *)
Definition max_list (l : list nat) : nat := fold_right Nat.max 0 l.

(** [needle in hay]. *)
Fixpoint contains (needle hay : string) : bool :=
  String.prefix needle hay ||
  match hay with
  | EmptyString => false
  | String _ r => contains needle r
  end.

(** [str.isdigit]: non-empty and every character a digit. *)
Fixpoint all_chars (p : ascii -> bool) (s : string) : bool :=
  match s with
  | EmptyString => true
  | String c r => p c && all_chars p r
  end.

Definition isdigit (s : string) : bool := truthy s && all_chars isdigit_char s.

(** The digit part of an integer literal: decimal digits, single
    underscores allowed between two digits. *)
Inductive lit_state := AtStart | AfterDigit | AfterUnderscore.

Fixpoint int_digits (st : lit_state) (acc : Z) (s : string) : option Z :=
  match s with
  | EmptyString =>
      match st with AfterDigit => Some acc | _ => None end
  | String c r =>
      if isdecimal_char c then int_digits AfterDigit (acc * 10 + digit_value c) r
      else if (ord c =? 95)%nat then
        match st with
        | AfterDigit => int_digits AfterUnderscore acc r
        | _ => None
        end
      else None
  end.

(** The digit characters of a literal, underscores not counted, and the
    interpreter's default limit on their number
    ([sys.int_info.default_max_str_digits]). *)
Fixpoint digit_count (s : string) : N :=
  match s with
  | EmptyString => 0%N
  | String c r => if isdecimal_char c then N.succ (digit_count r) else digit_count r
  end.

Definition max_str_digits : N := 4300%N.

(** The literal after the sign: refused when it holds more digits than
    the limit, read otherwise. *)
Definition int_literal (body : string) : option Z :=
  if (max_str_digits <? digit_count body)%N then None
  else int_digits AtStart 0 body.

(** [int(s)] in base ten; [None] stands for [ValueError]. *)
Definition int (s : string) : option Z :=
  match strip s with
  | String c r =>
      if (ord c =? 45)%nat then option_map Z.opp (int_literal r)
      else if (ord c =? 43)%nat then int_literal r
      else int_literal (String c r)
  | EmptyString => None
  end.

(** [str(n)] for an integer. *)
Definition str_of_Z (n : Z) : string := NilZero.string_of_int (Z.to_int n).

Definition str_of_nat (n : nat) : string := str_of_Z (Z.of_nat n).

End Py.

(* ================================================================== *)
(** ** The boundary: terminal, child processes, clock, files *)
(* ================================================================== *)

(** The session context, a mutable object shared by the menu and every
    handler. *)
Record Ctx := mkCtx {
  serial : option string;
  dry_run : bool;
  verbose : bool
}.

(** [subprocess.CompletedProcess]. *)
Record CompletedProcess := mkCP {
  returncode : Z;
  stdout : string;
  stderr : string
}.

(** What a started child process does: it ends with a result, or it is
    still running when the time allowed (if any) is over. *)
Inductive proc_outcome :=
| Exited (cp : CompletedProcess)
| Hung.

Inductive exn :=
| TimeoutExpired (cmd : list string) (timeout : Z)
| CalledProcessError (rc : Z) (cmd : list string) (out err : string)
| ValueError
| EOFError
| KeyboardInterrupt.

(** A reading of [datetime.now()], through the three renderings the
    programs take of it. *)
Record datetime := mkDT {
  stamp : string;   (* strftime("%Y%m%d-%H%M%S") *)
  hms : string;     (* strftime("%H:%M:%S") *)
  iso : string      (* isoformat() *)
}.

(** A compiled pattern is known through [search]. *)
Definition regex := string -> bool.

(** What the programs do not decide: the behaviour of the n-th child
    process started, the n-th clock reading, the [re] module, the home
    directory, the files that exist and the decoding of bytes. *)
Record env := mkEnv {
  proc : nat -> list string -> proc_outcome;
  clock : nat -> datetime;
  re_compile : string -> string + regex;   (* [inl msg] is [re.error] *)
  home : string;
  expanduser : string -> string;
  path_exists : string -> bool;
  decode_ignore : string -> string         (* bytes.decode(errors="ignore") *)
}.

(** What can be observed of a run, in the order it happens. *)
Inductive event :=
| EvPrint (text : string)
| EvInput (prompt line : string)
| EvExec (cmd : list string) (timeout : option Z)
| EvMkdir (dir : string)
| EvWrite (path content : string).

Record state := mkState {
  ctx : Ctx;
  stdin : list string;       (* the lines the operator will type *)
  clock_reads : nat;
  trace : list event
}.

Definition is_exec (ev : event) : bool :=
  match ev with EvExec _ _ => true | _ => false end.

Definition is_write (ev : event) : bool :=
  match ev with EvWrite _ _ => true | _ => false end.

(** The child processes started, and the files written, along a trace. *)
Definition execs (t : list event) : list event := filter is_exec t.
Definition writes (t : list event) : list event := filter is_write t.

Inductive outcome (A : Type) :=
| Ok (a : A)
| Raise (e : exn).
Arguments Ok {A} a.
Arguments Raise {A} e.

(** Computations: read the environment, thread the state, may raise. *)
Definition M (A : Type) : Type := env -> state -> outcome A * state.

Definition ret {A} (a : A) : M A := fun _ s => (Ok a, s).

Definition bind {A B} (m : M A) (k : A -> M B) : M B :=
  fun e s =>
    match m e s with
    | (Ok a, s') => k a e s'
    | (Raise x, s') => (Raise x, s')
    end.

Definition raise {A} (x : exn) : M A := fun _ s => (Raise x, s).

Declare Scope monad_scope.
Delimit Scope monad_scope with monad.
Notation "x <- m ;; k" := (bind m (fun x => k))
  (at level 61, m at next level, right associativity) : monad_scope.
Notation "m ;; k" := (bind m (fun _ => k))
  (at level 61, right associativity) : monad_scope.
Open Scope monad_scope.

(** [try: m except ...: h], for the exceptions [h] is defined on. *)
Definition try_except {A} (m : M A) (h : exn -> option (M A)) : M A :=
  fun e s =>
    match m e s with
    | (Ok a, s') => (Ok a, s')
    | (Raise x, s') =>
        match h x with
        | Some k => k e s'
        | None => (Raise x, s')
        end
    end.

Definition log (ev : event) (s : state) : state :=
  mkState (ctx s) (stdin s) (clock_reads s) (trace s ++ [ev]).

Definition emit (ev : event) : M unit := fun _ s => (Ok tt, log ev s).

Definition get_ctx : M Ctx := fun _ s => (Ok (ctx s), s).

Definition set_dry_run (b : bool) : M unit :=
  fun _ s =>
    (Ok tt, mkState (mkCtx (serial (ctx s)) b (verbose (ctx s)))
                    (stdin s) (clock_reads s) (trace s)).

(** [ctx = Ctx(serial=...)]: the context is created once, before the loop. *)
Definition new_ctx (c : Ctx) : M unit :=
  fun _ s => (Ok tt, mkState c (stdin s) (clock_reads s) (trace s)).

(** [ctx.serial = ...], used once, on the fresh context. *)
Definition set_serial (o : option string) : M unit :=
  fun _ s =>
    (Ok tt, mkState (mkCtx o (dry_run (ctx s)) (verbose (ctx s)))
                    (stdin s) (clock_reads s) (trace s)).

Definition ask {A} (f : env -> A) : M A := fun e s => (Ok (f e), s).

Definition LF : string := String "010" EmptyString.
Definition ESC : string := String "027" EmptyString.
Definition TAB : string := String "009" EmptyString.

(** [print] of its arguments, and [print] with another line end. *)
Definition print (args : list string) : M unit :=
  emit (EvPrint (Py.join " " args ++ LF)).

Definition print_end (args : list string) (end_ : string) : M unit :=
  emit (EvPrint (Py.join " " args ++ end_)).

(** [input(prompt)]: the prompt is shown, then a line is read; a closed
    standard input raises [EOFError]. *)
Definition input (prompt : string) : M string :=
  fun _ s =>
    match stdin s with
    | line :: rest =>
        (Ok line, mkState (ctx s) rest (clock_reads s)
                          (trace s ++ [EvInput prompt line]))
    | [] => (Raise EOFError, log (EvPrint prompt) s)
    end.

(** [datetime.now()]. *)
Definition now : M datetime :=
  fun e s =>
    (Ok (clock e (clock_reads s)),
     mkState (ctx s) (stdin s) (S (clock_reads s)) (trace s)).

(** [subprocess.run(cmd, text=True, capture_output=True, check=check,
    timeout=timeout)].  The executable is taken to be on the search
    path. *)
Definition subprocess_run (cmd : list string) (check : bool)
    (timeout : option Z) : M CompletedProcess :=
  fun e s =>
    let n := List.length (execs (trace s)) in
    let s' := log (EvExec cmd timeout) s in
    match proc e n cmd with
    | Exited cp =>
        if check && negb (returncode cp =? 0)%Z
        then (Raise (CalledProcessError (returncode cp) cmd (stdout cp) (stderr cp)), s')
        else (Ok cp, s')
    | Hung =>
        match timeout with
        | Some t => (Raise (TimeoutExpired cmd t), s')
        | None => (Raise KeyboardInterrupt, s')   (* only the operator ends it *)
        end
    end.

(** Paths are kept as text; [d / name] is [d], a slash, [name]. *)
Definition path_join (d name : string) : string := d ++ "/" ++ name.

(** [p.mkdir(parents=True, exist_ok=True)] and [p.write_text(content)] on
    a file system that accepts them. *)
Definition mkdir (p : string) : M unit := emit (EvMkdir p).
Definition write_text (p content : string) : M unit := emit (EvWrite p content).

(** [for i, x in enumerate(xs, start=i0): body(i, x)]. *)
Fixpoint for_enumerate {A} (i0 : nat) (xs : list A) (body : nat -> A -> M unit) : M unit :=
  match xs with
  | [] => ret tt
  | x :: r => body i0 x ;; for_enumerate (S i0) r body
  end.

Definition truthy_opt (o : option string) : bool :=
  match o with Some s => Py.truthy s | None => false end.

(** An optional string inside an f-string. *)
Definition fmt_opt (o : option string) : string :=
  match o with Some s => s | None => "None" end.

(* ================================================================== *)
(** ** What the three files have in common *)
(* ================================================================== *)

Module Common.

Definition RESET : string := ESC ++ "[0m".
Definition BOLD : string := ESC ++ "[1m".
Definition DIM : string := ESC ++ "[2m".
Definition NEON_PINK : string := ESC ++ "[38;5;213m".
Definition NEON_CYAN : string := ESC ++ "[38;5;51m".
Definition NEON_GREEN : string := ESC ++ "[38;5;46m".
Definition NEON_PURPLE : string := ESC ++ "[38;5;141m".
Definition NEON_YELLOW : string := ESC ++ "[38;5;226m".
Definition NEON_RED : string := ESC ++ "[38;5;196m".
Definition GRAY : string := ESC ++ "[38;5;245m".

Definition REPORT_DIR (e : env) : string :=
  path_join (path_join (home e) "scripts") "android-reports".
Definition LOG_DIR (e : env) : string :=
  path_join (path_join (home e) "scripts") "android_logs".

Definition clear : M unit :=
  print_end [ESC ++ "[2j" ++ ESC ++ "[H"] "".

(** [box]: the width of the frame, its rows, and the rows joined. *)
Definition box_width (lines : list string) (title : string) : nat :=
  if negb (Nat.eqb (List.length lines) 0) || Py.truthy title
  then Py.max_list (map String.length lines ++ [String.length title])
  else 0.

Definition box_rows (lines : list string) (title : string) : list string :=
  let width := box_width lines title in
  let top := "+" ++ Py.mul "-" (width + 2) ++ "+" in
  let top :=
    if Py.truthy title then
      let t := " " ++ title in
      "+" ++ Py.ljust t (width + 2) "-" ++ "+"
    else top in
  let out := [top] in
  let out :=
    fold_left (fun out s => Py.append out ("| " ++ Py.ljust s width " " ++ " |"))
              lines out in
  Py.append out ("+" ++ Py.mul "-" (width + 2) ++ "+").

Definition box (lines : list string) (title : string) : string :=
  Py.join LF (box_rows lines title).

Definition run_capture (cmd : list string) (check : bool) (timeout : Z)
  : M CompletedProcess :=
  subprocess_run cmd check (Some timeout).

Definition run (cmd : list string) (check : bool) (timeout : Z) : M string :=
  cp <- run_capture cmd check timeout ;; ret (stdout cp).

Definition run_stream (cmd : list string) : M Z :=
  p <- subprocess_run cmd false None ;; ret (returncode p).

Definition adb_base (c : Ctx) : list string :=
  if truthy_opt (serial c) then ["adb"; "-s"; fmt_opt (serial c)] else ["adb"].

Definition fastboot_base (c : Ctx) : list string :=
  if truthy_opt (serial c) then ["fastboot"; "-s"; fmt_opt (serial c)]
  else ["fastboot"].

(** The two parts of [status_line] that are the same in the three files. *)
Definition run_state (dry : bool) : string :=
  if dry then NEON_YELLOW ++ "DRY" ++ RESET else NEON_GREEN ++ "LIVE" ++ RESET.

Definition serial_or_none (o : option string) : string :=
  if truthy_opt o then fmt_opt o else "(none)".

(** [pick_adb_serial] after the parsing; [indent] is the text printed
    before each index, which differs from file to file.  Both subscripts
    fall inside the list, so [nth_error] finds the element. *)
Definition pick_among (indent : string) (serials : list string)
  : M (option string) :=
  if Nat.eqb (List.length serials) 0 then ret None
  else if Nat.eqb (List.length serials) 1 then ret (nth_error serials 0)
  else
    print ["Multiple ADB devices detected:"] ;;
    for_enumerate 1 serials
      (fun i s => print [indent ++ Py.str_of_nat i ++ ") " ++ s]) ;;
    raw <- input "Pick one: " ;;
    let choice := Py.strip raw in
    if negb (Py.isdigit choice) then ret None
    else
      match Py.int choice with
      | None => raise ValueError
      | Some idx =>
          if ((1 <=? idx) && (idx <=? Z.of_nat (List.length serials)))%Z
          then ret (nth_error serials (Z.to_nat (idx - 1)))
          else ret None
      end.

Definition action_status (c : Ctx) : M unit :=
  print [] ;;
  print ["ADB devices:"] ;;
  out <- run ["adb"; "devices"; "-l"] true 10 ;;
  print [out] ;;
  print ["Fastboot devices:"] ;;
  out <- run ["fastboot"; "devices"] true 10 ;;
  print [out].

End Common.

(** List concatenation, kept apart from the concatenation of strings. *)
Infix "+++" := (@app _) (at level 60, right associativity).

(** Shorthands used by every handler. *)
Definition pause (prompt : string) : M unit := input prompt ;; ret tt.

Definition avc_filter (out : string) : string :=
  Py.join LF (filter (fun ln => Py.contains "avc:" (Py.lower ln)) (Py.splitlines out)).

Definition regex_filter (rx : regex) (out : string) : string :=
  Py.join LF (filter rx (Py.splitlines out)).

(* ================================================================== *)
(** ** android_workbench.py *)
(* ================================================================== *)

Module V01.
Import Common.

Definition banner : string :=
  box [NEON_CYAN ++ BOLD ++ "ANDROID WORKBENCH" ++ RESET ++ " " ++ DIM ++ "v0.1" ++ RESET;
       GRAY ++ "adb / fastboot operator console" ++ RESET]
      (NEON_PURPLE ++ "" ++ RESET).

Definition status_line (serial : option string) (mode : string) (dry : bool)
  : M string :=
  let s := serial_or_none serial in
  t <- now ;;
  ret (GRAY ++ "serial:" ++ RESET ++ " " ++ NEON_CYAN ++ s ++ RESET ++ " "
       ++ GRAY ++ "mode:" ++ RESET ++ " " ++ NEON_PINK ++ mode ++ RESET ++ " "
       ++ GRAY ++ "run:" ++ RESET ++ " " ++ run_state dry ++ "  "
       ++ GRAY ++ hms t ++ RESET).

Definition parse_adb_devices (output : string) : list string :=
  let lines :=
    map Py.strip (filter (fun ln => Py.truthy (Py.strip ln)) (Py.splitlines output)) in
  fold_left
    (fun serials ln =>
       let parts := Py.split ln in
       match parts with
       | [] => serials
       | serial :: rest =>
           let state := match rest with st :: _ => st | [] => "" end in
           if state =? "device" then Py.append serials serial else serials
       end)
    (tl lines) [].

Definition pick_adb_serial : M (option string) :=
  out <- run ["adb"; "devices"; "-l"] true 10 ;;
  pick_among "  " (parse_adb_devices out).

Definition action_report (c : Ctx) : M unit :=
  if negb (truthy_opt (serial c)) then
    print ["No ADB serial selected (device must not be authorized and in Android)."]
  else
    rd <- ask REPORT_DIR ;;
    mkdir rd ;;
    t <- now ;;
    let ts := stamp t in
    let path := path_join rd ("report-" ++ fmt_opt (serial c) ++ "-" ++ ts ++ ".txt") in
    let getprop key :=
      out <- run (adb_base c +++ ["shell"; "getprop"; key]) true 15 ;;
      ret (Py.strip out) in
    let lines := [] in
    let lines := Py.append lines ("serial: " ++ fmt_opt (serial c)) in
    t2 <- now ;;
    let lines := Py.append lines ("when:   " ++ iso t2) in
    let lines := Py.append lines "" in
    v <- getprop "ro.product.model" ;;
    let lines := Py.append lines ("model: " ++ v) in
    v <- getprop "ro.build.version.release" ;;
    let lines := Py.append lines ("android: " ++ v) in
    v <- getprop "ro.build.fingerprint" ;;
    let lines := Py.append lines ("fingerprint: " ++ v) in
    v <- getprop "ro.boot.verifiedbootstate" ;;
    let lines := Py.append lines ("verifiedbootstate: " ++ v) in
    v <- getprop "ro.boot.flash.locked" ;;
    let lines := Py.append lines ("flash.locked: " ++ v) in
    v <- getprop "ro.boot.vbmeta.device_state" ;;
    let lines := Py.append lines ("vbmeta.device_state: " ++ v) in
    let lines := Py.append lines "" in
    let lines := Py.append lines "id:" in
    v <- run (adb_base c +++ ["shell"; "id"]) true 10 ;;
    let lines := Py.append lines (Py.strip v) in
    write_text path (Py.join LF lines ++ LF) ;;
    print ["Wrote: " ++ path].

Definition logcat_menu : list string :=
  [NEON_CYAN ++ "1" ++ RESET ++ ") Dump last 200 lines (all buffers)";
   NEON_CYAN ++ "2" ++ RESET ++ ") Live follow (all buffers)";
   NEON_CYAN ++ "3" ++ RESET ++ ") Crashes only (AndroidRuntime)";
   NEON_CYAN ++ "4" ++ RESET ++ ") SELinux denials (avc) [host grep]";
   NEON_CYAN ++ "5" ++ RESET ++ ") Filter by tag";
   NEON_CYAN ++ "6" ++ RESET ++ ") Filter by regex (grep -E on host)";
   NEON_CYAN ++ "7" ++ RESET ++ ") Save dump to file";
   NEON_CYAN ++ "8" ++ RESET ++ ") Clear logcat buffers (confirm)";
   NEON_CYAN ++ "b" ++ RESET ++ ") Back"].

(** The first half of [action_logcat_lab]: the command of the chosen
    sub-mode, with the pattern and the file path where the sub-mode binds
    them (the empty string stands for an unbound name, never read);
    [None] where the source returns. *)
Definition logcat_command (c : Ctx) (choice : string)
  : M (option (list string * string * string)) :=
  if choice =? "1" then
    ret (Some (adb_base c +++ ["logcat"; "-b"; "all"; "-d"; "-t"; "200"; "-v"; "time"], "", ""))
  else if choice =? "2" then
    ret (Some (adb_base c +++ ["logcat"; "-b"; "all"; "-v"; "time"], "", ""))
  else if choice =? "3" then
    ret (Some (adb_base c +++ ["logcat"; "-v"; "time"; "AndroidRuntime:E"; "*:S"], "", ""))
  else if choice =? "4" then
    ret (Some (adb_base c +++ ["logcat"; "-b"; "all"; "-d"; "-v"; "time"], "", ""))
  else if choice =? "5" then
    raw <- input "Tag (e.g. ActivityManager): " ;;
    let tag := Py.strip raw in
    if negb (Py.truthy tag) then ret None
    else ret (Some (adb_base c +++ ["logcat"; "-b"; "all"; "-d"; "-v"; "time"; tag ++ ":V"; "*:S"], "", ""))
  else if choice =? "6" then
    raw <- input "Regex (grep -E): " ;;
    let regex := Py.strip raw in
    if negb (Py.truthy regex) then ret None
    else ret (Some (adb_base c +++ ["logcat"; "-b"; "all"; "-d"; "-v"; "time"], regex, ""))
  else if choice =? "7" then
    ld <- ask LOG_DIR ;;
    mkdir ld ;;
    t <- now ;;
    let ts := stamp t in
    let out_path := path_join ld ("logcat-" ++ fmt_opt (serial c) ++ "-" ++ ts ++ ".txt") in
    ret (Some (adb_base c +++ ["logcat"; "-b"; "all"; "-d"; "-v"; "time"], "", out_path))
  else if choice =? "8" then
    raw <- input "This clears log buffers. Type YES to continue: " ;;
    let confirm := Py.strip raw in
    if negb (confirm =? "YES") then ret None
    else ret (Some (adb_base c +++ ["logcat"; "-b"; "all"; "-c"], "", ""))
  else ret None.

Definition action_logcat_lab (c : Ctx) : M unit :=
  if negb (truthy_opt (serial c)) then
    print [NEON_RED ++ "No ADB serial selected." ++ RESET] ;;
    pause (GRAY ++ "Press Enter..." ++ RESET)
  else
    print [] ;;
    print [box logcat_menu (NEON_PINK ++ "LOGCAT LAB" ++ RESET)] ;;
    raw <- input (NEON_PINK ++ "> " ++ RESET) ;;
    let choice := Py.lower (Py.strip raw) in
    if choice =? "b" then ret tt
    else
      r <- logcat_command c choice ;;
      match r with
      | None => ret tt
      | Some (cmd, regex, out_path) =>
          if dry_run c then
            print [GRAY ++ "Dry-run. Would run:" ++ RESET; Py.join " " cmd] ;;
            pause (GRAY ++ "Press Enter..." ++ RESET)
          else
            out <- run cmd true 60 ;;
            let out := if choice =? "4" then avc_filter out else out in
            let finish (out : string) : M unit :=
              (if choice =? "7" then
                 write_text out_path out ;;
                 print ["Wrote: " ++ out_path]
               else print [out]) ;;
              pause (GRAY ++ "Press Enter..." ++ RESET) in
            if choice =? "6" then
              rc <- ask (fun e => re_compile e regex) ;;
              match rc with
              | inr rx => finish (regex_filter rx out)
              | inl msg =>
                  print [NEON_RED ++ "Bad regex: " ++ msg ++ RESET] ;;
                  pause (GRAY ++ "Press Enter..." ++ RESET)
              end
            else finish out
      end.

Definition menu_lines : list string :=
  [NEON_CYAN ++ "1" ++ RESET ++ " Status (adb/fastboot devices)";
   NEON_CYAN ++ "2" ++ RESET ++ " Write quick report";
   NEON_CYAN ++ "3" ++ RESET ++ " Reboot bootloader";
   NEON_CYAN ++ "q" ++ RESET ++ " Quit";
   NEON_CYAN ++ "4" ++ RESET ++ " Logcat Lab";
   NEON_CYAN ++ "d" ++ RESET ++ " Toggle dry-run"].

(** One turn of the [while True] loop of [menu]; [false] when the loop
    is left through [return]. *)
Definition menu_iteration : M bool :=
  clear ;;
  print [banner] ;;
  c <- get_ctx ;;
  sl <- status_line (serial c) "adb" (dry_run c) ;;
  print [sl] ;;
  print [] ;;
  print [box menu_lines (NEON_PINK ++ "MAIN MENU" ++ RESET)] ;;
  raw <- input (NEON_PINK ++ "> " ++ RESET) ;;
  let choice := Py.lower (Py.strip raw) in
  if choice =? "d" then
    c <- get_ctx ;;
    set_dry_run (negb (dry_run c)) ;;
    ret true
  else if choice =? "q" then ret false
  else if choice =? "1" then c <- get_ctx ;; action_status c ;; ret true
  else if choice =? "2" then c <- get_ctx ;; action_report c ;; ret true
  else if choice =? "3" then
    c <- get_ctx ;;
    if negb (truthy_opt (serial c)) then
      print ["No ADB serial selected."] ;;
      ret true
    else
      let cmd := adb_base c +++ ["reboot"; "bootloader"] in
      print ["Running:"; Py.join " " cmd] ;;
      run cmd true 30 ;;
      ret true
  else if choice =? "4" then c <- get_ctx ;; action_logcat_lab c ;; ret true
  else
    print ["Unknown choice."] ;;
    pause (GRAY ++ "Press Enter to continue..." ++ RESET) ;;
    ret true.

Fixpoint menu_loop (fuel : nat) : M (option unit) :=
  match fuel with
  | O => ret None
  | S n =>
      again <- menu_iteration ;;
      if again then menu_loop n else ret (Some tt)
  end.

(** [menu(serial)] up to the loop: the context is created and bound. *)
Definition menu_start (arg : option string) : M unit :=
  new_ctx (mkCtx None false true) ;;
  if truthy_opt arg then set_serial arg
  else
    picked <- pick_adb_serial ;;
    set_serial picked.

Definition menu (arg : option string) (fuel : nat) : M (option unit) :=
  menu_start arg ;; menu_loop fuel.

End V01.

(* ================================================================== *)
(** ** android-workbench-v1.2.py *)
(* ================================================================== *)

Module V12.
Import Common.

Definition banner : string :=
  box [NEON_CYAN ++ BOLD ++ "ANDROID WORKBENCH" ++ RESET ++ " " ++ DIM ++ "v1.2" ++ RESET;
       GRAY ++ "adb / fastboot operator console" ++ RESET]
      (NEON_PURPLE ++ "OPENCLAW" ++ RESET).

Definition status_line (serial : option string) (mode : string) (dry : bool)
  : M string :=
  let s := serial_or_none serial in
  t <- now ;;
  ret (GRAY ++ "serial:" ++ RESET ++ " " ++ NEON_CYAN ++ s ++ RESET ++ " "
       ++ GRAY ++ "mode:" ++ RESET ++ " " ++ NEON_PINK ++ mode ++ RESET ++ " "
       ++ GRAY ++ "run:" ++ RESET ++ " " ++ run_state dry ++ " "
       ++ GRAY ++ hms t ++ RESET).

Definition parse_adb_devices (output : string) : list string :=
  let lines :=
    map Py.strip (filter (fun ln => Py.truthy (Py.strip ln)) (Py.splitlines output)) in
  fold_left
    (fun serials ln =>
       let parts := Py.split ln in
       if (List.length parts <? 2)%nat then serials
       else
         let serial := nth 0 parts "" in
         let state := nth 1 parts "" in
         if state =? "device" then Py.append serials serial else serials)
    (tl lines) [].

Definition pick_adb_serial : M (option string) :=
  out <- run ["adb"; "devices"; "-l"] true 10 ;;
  pick_among " " (parse_adb_devices out).

Definition action_report (c : Ctx) : M unit :=
  if negb (truthy_opt (serial c)) then
    print ["No ADB serial selected (device must be authorized and in Android)."]
  else
    rd <- ask REPORT_DIR ;;
    mkdir rd ;;
    t <- now ;;
    let ts := stamp t in
    let path := path_join rd ("report-" ++ fmt_opt (serial c) ++ "-" ++ ts ++ ".txt") in
    let getprop key :=
      out <- run (adb_base c +++ ["shell"; "getprop"; key]) true 15 ;;
      ret (Py.strip out) in
    let lines := [] in
    let lines := Py.append lines ("serial: " ++ fmt_opt (serial c)) in
    t2 <- now ;;
    let lines := Py.append lines ("when: " ++ iso t2) in
    let lines := Py.append lines "" in
    v <- getprop "ro.product.model" ;;
    let lines := Py.append lines ("model: " ++ v) in
    v <- getprop "ro.build.version.release" ;;
    let lines := Py.append lines ("android: " ++ v) in
    v <- getprop "ro.build.fingerprint" ;;
    let lines := Py.append lines ("fingerprint: " ++ v) in
    v <- getprop "ro.boot.verifiedbootstate" ;;
    let lines := Py.append lines ("verifiedbootstate: " ++ v) in
    v <- getprop "ro.boot.flash.locked" ;;
    let lines := Py.append lines ("flash.locked: " ++ v) in
    v <- getprop "ro.boot.vbmeta.device_state" ;;
    let lines := Py.append lines ("vbmeta.device_state: " ++ v) in
    let lines := Py.append lines "" in
    let lines := Py.append lines "id:" in
    v <- run (adb_base c +++ ["shell"; "id"]) true 10 ;;
    let lines := Py.append lines (Py.strip v) in
    write_text path (Py.join LF lines ++ LF) ;;
    print ["Wrote: " ++ path].

Definition logcat_menu : list string :=
  [NEON_CYAN ++ "1" ++ RESET ++ ") Dump last 200 lines (all buffers)";
   NEON_CYAN ++ "2" ++ RESET ++ ") Live follow (all buffers)";
   NEON_CYAN ++ "3" ++ RESET ++ ") Crashes only (AndroidRuntime)";
   NEON_CYAN ++ "4" ++ RESET ++ ") SELinux denials (avc) [host filter]";
   NEON_CYAN ++ "5" ++ RESET ++ ") Filter by tag";
   NEON_CYAN ++ "6" ++ RESET ++ ") Filter by regex (host regex)";
   NEON_CYAN ++ "7" ++ RESET ++ ") Save dump to file";
   NEON_CYAN ++ "8" ++ RESET ++ ") Clear logcat buffers (confirm)";
   NEON_CYAN ++ "b" ++ RESET ++ ") Back"].

(** The [if]/[elif] chain of [action_logcat_lab]: the command, the text
    captured and the file to save to, for the sub-modes that reach the
    end of the chain; [None] where the source returns. *)
Definition logcat_branch (c : Ctx) (choice : string)
  : M (option (list string * string * option string)) :=
  if choice =? "1" then
    let cmd := adb_base c +++ ["logcat"; "-b"; "all"; "-d"; "-t"; "200"; "-v"; "time"] in
    out <- run cmd true 60 ;;
    ret (Some (cmd, out, None))
  else if choice =? "2" then
    if dry_run c then
      let cmd := adb_base c +++ ["logcat"; "-b"; "all"; "-v"; "time"] in
      print [GRAY ++ "Dry-run. Would run:" ++ RESET; Py.join " " cmd] ;;
      pause (GRAY ++ "Press Enter..." ++ RESET) ;;
      ret None
    else
      print [GRAY ++ "Streaming logcat. Ctrl+C to stop." ++ RESET] ;;
      run_stream (adb_base c +++ ["logcat"; "-b"; "all"; "-v"; "time"]) ;;
      ret None
  else if choice =? "3" then
    let cmd := adb_base c +++ ["logcat"; "-v"; "time"; "AndroidRuntime:E"; "*:S"] in
    out <- run cmd true 60 ;;
    ret (Some (cmd, out, None))
  else if choice =? "4" then
    let cmd := adb_base c +++ ["logcat"; "-b"; "all"; "-d"; "-v"; "time"] in
    out <- run cmd true 60 ;;
    let out := avc_filter out in
    ret (Some (cmd, out, None))
  else if choice =? "5" then
    raw <- input "Tag (e.g. ActivityManager): " ;;
    let tag := Py.strip raw in
    if negb (Py.truthy tag) then ret None
    else
      let cmd := adb_base c +++ ["logcat"; "-b"; "all"; "-d"; "-v"; "time"; tag ++ ":V"; "*:S"] in
      out <- run cmd true 60 ;;
      ret (Some (cmd, out, None))
  else if choice =? "6" then
    raw <- input "Regex: " ;;
    let regex := Py.strip raw in
    if negb (Py.truthy regex) then ret None
    else
      let cmd := adb_base c +++ ["logcat"; "-b"; "all"; "-d"; "-v"; "time"] in
      out <- run cmd true 60 ;;
      rc <- ask (fun e => re_compile e regex) ;;
      match rc with
      | inl msg =>
          print [NEON_RED ++ "Bad regex: " ++ msg ++ RESET] ;;
          pause (GRAY ++ "Press Enter..." ++ RESET) ;;
          ret None
      | inr rx =>
          let out := regex_filter rx out in
          ret (Some (cmd, out, None))
      end
  else if choice =? "7" then
    ld <- ask LOG_DIR ;;
    mkdir ld ;;
    t <- now ;;
    let ts := stamp t in
    let out_path := path_join ld ("logcat-" ++ fmt_opt (serial c) ++ "-" ++ ts ++ ".txt") in
    let cmd := adb_base c +++ ["logcat"; "-b"; "all"; "-d"; "-v"; "time"] in
    out <- run cmd true 60 ;;
    ret (Some (cmd, out, Some out_path))
  else if choice =? "8" then
    raw <- input "This clears log buffers. Type YES to continue: " ;;
    let confirm := Py.strip raw in
    if negb (confirm =? "YES") then ret None
    else
      let cmd := adb_base c +++ ["logcat"; "-b"; "all"; "-c"] in
      out <- run cmd true 30 ;;
      ret (Some (cmd, out, None))
  else ret None.

(** What follows the chain: the dry-run test, then the output. *)
Definition logcat_finish (c : Ctx)
    (r : option (list string * string * option string)) : M unit :=
  match r with
  | None => ret tt
  | Some (cmd, out, out_path) =>
      if dry_run c then
        print [GRAY ++ "Dry-run. Would run:" ++ RESET; Py.join " " cmd] ;;
        pause (GRAY ++ "Press Enter..." ++ RESET)
      else
        match out_path with
        | Some p => write_text p out ;; print ["Wrote: " ++ p]
        | None => print [out]
        end ;;
        pause (GRAY ++ "Press Enter..." ++ RESET)
  end.

Definition action_logcat_lab (c : Ctx) : M unit :=
  if negb (truthy_opt (serial c)) then
    print [NEON_RED ++ "No ADB serial selected." ++ RESET] ;;
    pause (GRAY ++ "Press Enter..." ++ RESET)
  else
    print [] ;;
    print [box logcat_menu (NEON_PINK ++ "LOGCAT LAB" ++ RESET)] ;;
    raw <- input (NEON_PINK ++ "> " ++ RESET) ;;
    let choice := Py.lower (Py.strip raw) in
    if choice =? "b" then ret tt
    else
      r <- logcat_branch c choice ;;
      logcat_finish c r.

Definition menu_lines : list string :=
  [NEON_CYAN ++ "1" ++ RESET ++ " Status (adb/fastboot devices)";
   NEON_CYAN ++ "2" ++ RESET ++ " Write quick report";
   NEON_CYAN ++ "3" ++ RESET ++ " Reboot bootloader";
   NEON_CYAN ++ "4" ++ RESET ++ " Logcat Lab";
   NEON_CYAN ++ "d" ++ RESET ++ " Toggle dry-run";
   NEON_CYAN ++ "q" ++ RESET ++ " Quit"].

(** The body of the [try] statement of [menu]. *)
Definition dispatch (choice : string) : M unit :=
  c <- get_ctx ;;
  if choice =? "1" then action_status c
  else if choice =? "2" then action_report c
  else if choice =? "3" then
    if negb (truthy_opt (serial c)) then print ["No ADB serial selected."]
    else
      let cmd := adb_base c +++ ["reboot"; "bootloader"] in
      if dry_run c then
        print [GRAY ++ "Dry-run. Would run:" ++ RESET; Py.join " " cmd]
      else
        print ["Running:"; Py.join " " cmd] ;;
        run cmd true 30 ;;
        ret tt
  else if choice =? "4" then action_logcat_lab c
  else print ["Unknown choice."].

(** Its [except] clauses. *)
Definition on_error (x : exn) : option (M unit) :=
  match x with
  | CalledProcessError _ cmd out err =>
      Some (print [NEON_RED ++ "Command failed:" ++ RESET] ;;
            print [Py.join " " cmd] ;;
            (if Py.truthy out then print [LF ++ "stdout:" ++ LF ++ out] else ret tt) ;;
            (if Py.truthy err then print [LF ++ "stderr:" ++ LF ++ err] else ret tt))
  | TimeoutExpired _ _ =>
      Some (print [NEON_RED ++ "Command timed out." ++ RESET])
  | _ => None
  end.

(** One turn of the [while True] loop of [menu]; [false] when the loop
    is left through [return]. *)
Definition menu_iteration : M bool :=
  clear ;;
  print [banner] ;;
  c <- get_ctx ;;
  sl <- status_line (serial c) "adb" (dry_run c) ;;
  print [sl] ;;
  print [] ;;
  print [box menu_lines (NEON_PINK ++ "MAIN MENU" ++ RESET)] ;;
  raw <- input (NEON_PINK ++ "> " ++ RESET) ;;
  let choice := Py.lower (Py.strip raw) in
  if choice =? "d" then
    c <- get_ctx ;;
    set_dry_run (negb (dry_run c)) ;;
    ret true
  else if choice =? "q" then ret false
  else
    try_except (dispatch choice) on_error ;;
    pause (GRAY ++ "Press Enter to continue..." ++ RESET) ;;
    ret true.

Fixpoint menu_loop (fuel : nat) : M (option unit) :=
  match fuel with
  | O => ret None
  | S n =>
      again <- menu_iteration ;;
      if again then menu_loop n else ret (Some tt)
  end.

Definition menu_start (arg : option string) : M unit :=
  new_ctx (mkCtx None false true) ;;
  if truthy_opt arg then set_serial arg
  else
    picked <- pick_adb_serial ;;
    set_serial picked.

Definition menu (arg : option string) (fuel : nat) : M (option unit) :=
  menu_start arg ;; menu_loop fuel.

End V12.

(* ================================================================== *)
(** ** android_workbench_ai.py *)
(* ================================================================== *)

Module Ai.
Import Common.

Definition MEDIA_DIR (e : env) : string :=
  path_join (path_join (home e) "scripts") "android_media".

(** The dash of the second banner line lies outside the modelled range
    of characters and stands here as its three-byte encoding. *)
Definition banner : string :=
  box [NEON_CYAN ++ BOLD ++ "ANDROID WORKBENCH" ++ RESET ++ " " ++ DIM ++ "ai" ++ RESET;
       GRAY ++ "based on v1.2 — extra ADB/Fastboot options" ++ RESET]
      (NEON_PURPLE ++ "OPENCLAW" ++ RESET).

Definition status_line (serial : option string) (dry : bool) : M string :=
  let s := serial_or_none serial in
  t <- now ;;
  ret (GRAY ++ "serial:" ++ RESET ++ " " ++ NEON_CYAN ++ s ++ RESET ++ "  "
       ++ GRAY ++ "run:" ++ RESET ++ " " ++ run_state dry ++ "  "
       ++ GRAY ++ hms t ++ RESET).

Definition parse_adb_devices (output : string) : list string :=
  let lines :=
    map Py.strip (filter (fun ln => Py.truthy (Py.strip ln)) (Py.splitlines output)) in
  fold_left
    (fun serials ln =>
       let parts := Py.split ln in
       if (2 <=? List.length parts)%nat && (nth 1 parts "" =? "device")
       then Py.append serials (nth 0 parts "")
       else serials)
    (tl lines) [].

Definition pick_adb_serial : M (option string) :=
  out <- run ["adb"; "devices"; "-l"] true 10 ;;
  pick_among " " (parse_adb_devices out).

Definition action_report (c : Ctx) : M unit :=
  if negb (truthy_opt (serial c)) then
    print ["No ADB serial selected (device must be authorized and in Android)."]
  else
    rd <- ask REPORT_DIR ;;
    mkdir rd ;;
    t <- now ;;
    let ts := stamp t in
    let path := path_join rd ("report-" ++ fmt_opt (serial c) ++ "-" ++ ts ++ ".txt") in
    let getprop key :=
      out <- run (adb_base c +++ ["shell"; "getprop"; key]) true 15 ;;
      ret (Py.strip out) in
    let lines := [] in
    let lines := Py.append lines ("serial: " ++ fmt_opt (serial c)) in
    t2 <- now ;;
    let lines := Py.append lines ("when: " ++ iso t2) in
    let lines := Py.append lines "" in
    v <- getprop "ro.product.model" ;;
    let lines := Py.append lines ("model: " ++ v) in
    v <- getprop "ro.build.version.release" ;;
    let lines := Py.append lines ("android: " ++ v) in
    v <- getprop "ro.build.version.security_patch" ;;
    let lines := Py.append lines ("security_patch: " ++ v) in
    v <- getprop "ro.build.fingerprint" ;;
    let lines := Py.append lines ("fingerprint: " ++ v) in
    v <- getprop "ro.product.cpu.abi" ;;
    let lines := Py.append lines ("abi: " ++ v) in
    let lines := Py.append lines "" in
    let lines := Py.append lines "id:" in
    v <- run (adb_base c +++ ["shell"; "id"]) true 10 ;;
    let lines := Py.append lines (Py.strip v) in
    write_text path (Py.join LF lines ++ LF) ;;
    print ["Wrote: " ++ path].

Definition logcat_menu : list string :=
  [NEON_CYAN ++ "l1" ++ RESET ++ ") Dump last 200 lines (all buffers)";
   NEON_CYAN ++ "l2" ++ RESET ++ ") Live follow (all buffers)";
   NEON_CYAN ++ "l3" ++ RESET ++ ") Crashes only (AndroidRuntime)";
   NEON_CYAN ++ "l4" ++ RESET ++ ") SELinux denials (avc)";
   NEON_CYAN ++ "l5" ++ RESET ++ ") Filter by tag";
   NEON_CYAN ++ "l6" ++ RESET ++ ") Filter by regex (host regex)";
   NEON_CYAN ++ "l7" ++ RESET ++ ") Save dump to file";
   NEON_CYAN ++ "l8" ++ RESET ++ ") Clear logcat buffers (confirm)";
   NEON_CYAN ++ "b" ++ RESET ++ ") Back"].

(** The [if]/[elif] chain of [action_logcat_lab]: the command, the text
    captured and the file to save to, for the sub-modes that reach the
    end of the chain; [None] where the source returns. *)
Definition logcat_branch (c : Ctx) (choice : string)
  : M (option (list string * string * option string)) :=
  if choice =? "l1" then
    let cmd := adb_base c +++ ["logcat"; "-b"; "all"; "-d"; "-t"; "200"; "-v"; "time"] in
    out <- run cmd true 60 ;;
    ret (Some (cmd, out, None))
  else if choice =? "l2" then
    let cmd := adb_base c +++ ["logcat"; "-b"; "all"; "-v"; "time"] in
    if dry_run c then
      print [GRAY ++ "Dry-run. Would run:" ++ RESET; Py.join " " cmd] ;;
      pause (GRAY ++ "Press Enter..." ++ RESET) ;;
      ret None
    else
      print [GRAY ++ "Streaming logcat. Ctrl+C to stop." ++ RESET] ;;
      run_stream cmd ;;
      ret None
  else if choice =? "l3" then
    let cmd := adb_base c +++ ["logcat"; "-v"; "time"; "AndroidRuntime:E"; "*:S"] in
    out <- run cmd true 60 ;;
    ret (Some (cmd, out, None))
  else if choice =? "l4" then
    let cmd := adb_base c +++ ["logcat"; "-b"; "all"; "-d"; "-v"; "time"] in
    out <- run cmd true 60 ;;
    let out := avc_filter out in
    ret (Some (cmd, out, None))
  else if choice =? "l5" then
    raw <- input "Tag (e.g. ActivityManager): " ;;
    let tag := Py.strip raw in
    if negb (Py.truthy tag) then ret None
    else
      let cmd := adb_base c +++ ["logcat"; "-b"; "all"; "-d"; "-v"; "time"; tag ++ ":V"; "*:S"] in
      out <- run cmd true 60 ;;
      ret (Some (cmd, out, None))
  else if choice =? "l6" then
    raw <- input "Regex: " ;;
    let regex_s := Py.strip raw in
    if negb (Py.truthy regex_s) then ret None
    else
      let cmd := adb_base c +++ ["logcat"; "-b"; "all"; "-d"; "-v"; "time"] in
      out <- run cmd true 60 ;;
      rc <- ask (fun e => re_compile e regex_s) ;;
      match rc with
      | inl msg =>
          print [NEON_RED ++ "Bad regex: " ++ msg ++ RESET] ;;
          pause (GRAY ++ "Press Enter..." ++ RESET) ;;
          ret None
      | inr rx =>
          let out := regex_filter rx out in
          ret (Some (cmd, out, None))
      end
  else if choice =? "l7" then
    ld <- ask LOG_DIR ;;
    mkdir ld ;;
    t <- now ;;
    let ts := stamp t in
    let out_path := path_join ld ("logcat-" ++ fmt_opt (serial c) ++ "-" ++ ts ++ ".txt") in
    let cmd := adb_base c +++ ["logcat"; "-b"; "all"; "-d"; "-v"; "time"] in
    out <- run cmd true 60 ;;
    ret (Some (cmd, out, Some out_path))
  else if choice =? "l8" then
    raw <- input "This clears log buffers. Type YES to continue: " ;;
    let confirm := Py.strip raw in
    if negb (confirm =? "YES") then ret None
    else
      let cmd := adb_base c +++ ["logcat"; "-b"; "all"; "-c"] in
      out <- run cmd true 30 ;;
      ret (Some (cmd, out, None))
  else ret None.

(** What follows the chain: the dry-run test, then the output. *)
Definition logcat_finish (c : Ctx)
    (r : option (list string * string * option string)) : M unit :=
  match r with
  | None => ret tt
  | Some (cmd, out, out_path) =>
      if dry_run c then
        print [GRAY ++ "Dry-run. Would run:" ++ RESET; Py.join " " cmd] ;;
        pause (GRAY ++ "Press Enter..." ++ RESET)
      else
        match out_path with
        | Some p => write_text p out ;; print ["Wrote: " ++ p]
        | None => print [out]
        end ;;
        pause (GRAY ++ "Press Enter..." ++ RESET)
  end.

Definition action_logcat_lab (c : Ctx) : M unit :=
  if negb (truthy_opt (serial c)) then
    print [NEON_RED ++ "No ADB serial selected." ++ RESET] ;;
    pause (GRAY ++ "Press Enter..." ++ RESET)
  else
    print [] ;;
    print [box logcat_menu (NEON_PINK ++ "LOGCAT LAB" ++ RESET)] ;;
    raw <- input (NEON_PINK ++ "> " ++ RESET) ;;
    let choice := Py.lower (Py.strip raw) in
    if choice =? "b" then ret tt
    else
      r <- logcat_branch c choice ;;
      logcat_finish c r.

Definition require_serial (c : Ctx) : M bool :=
  if truthy_opt (serial c) then ret true
  else
    print [NEON_RED ++ "No ADB serial selected." ++ RESET] ;;
    pause (GRAY ++ "Press Enter..." ++ RESET) ;;
    ret false.

Definition adb_getprop (c : Ctx) (key : string) : M string :=
  out <- run (adb_base c +++ ["shell"; "getprop"; key]) true 15 ;;
  ret (Py.strip out).

Definition or_else (s dflt : string) : string :=
  if Py.truthy s then s else dflt.

Definition action_device_summary (c : Ctx) : M unit :=
  ok <- require_serial c ;;
  if negb ok then ret tt
  else
    let sh (args : list string) (timeout : Z) : M string :=
      out <- run (adb_base c +++ ["shell"] +++ args) true timeout ;;
      ret (Py.strip out) in
    model <- adb_getprop c "ro.product.model" ;;
    android <- adb_getprop c "ro.build.version.release" ;;
    patch <- adb_getprop c "ro.build.version.security_patch" ;;
    fp <- adb_getprop c "ro.build.fingerprint" ;;
    abi <- adb_getprop c "ro.product.cpu.abi" ;;
    batt <- sh ["dumpsys"; "battery"] 20%Z ;;
    uptime <- sh ["uptime"] 20%Z ;;
    let lines :=
      ["model: " ++ model;
       "android: " ++ android;
       "security_patch: " ++ patch;
       "abi: " ++ abi;
       "fingerprint: " ++ fp;
       "";
       "uptime:";
       uptime;
       "";
       "battery:"] +++ firstn 40 (Py.splitlines batt) in
    print [box lines (NEON_PINK ++ "DEVICE SUMMARY" ++ RESET)] ;;
    pause (GRAY ++ "Press Enter..." ++ RESET).

Definition grep_strip (needle1 needle2 : string) (out : string) : list string :=
  fold_left
    (fun hits ln =>
       if Py.contains needle1 ln || Py.contains needle2 ln
       then Py.append hits (Py.strip ln) else hits)
    (Py.splitlines out) [].

(** The dash of the fallback line stands as its three-byte encoding. *)
Definition action_foreground_app (c : Ctx) : M unit :=
  ok <- require_serial c ;;
  if negb ok then ret tt
  else
    out <- run (adb_base c +++ ["shell"; "dumpsys"; "activity"; "activities"]) true 30 ;;
    let hits := grep_strip "mResumedActivity" "topResumedActivity" out in
    hits <- (if Nat.eqb (List.length hits) 0 then
               out2 <- run (adb_base c +++ ["shell"; "dumpsys"; "window"]) true 30 ;;
               ret (hits +++ grep_strip "mCurrentFocus" "mFocusedApp" out2)
             else ret hits) ;;
    let lines :=
      if negb (Nat.eqb (List.length hits) 0) then hits
      else ["(No foreground activity line found — dumpsys output format may differ.)"] in
    print [box lines (NEON_PINK ++ "FOREGROUND" ++ RESET)] ;;
    pause (GRAY ++ "Press Enter..." ++ RESET).

Definition action_install_apk (c : Ctx) : M unit :=
  ok <- require_serial c ;;
  if negb ok then ret tt
  else
    raw <- input "Path to APK (e.g. ~/Downloads/app.apk): " ;;
    let apk := Py.strip raw in
    if negb (Py.truthy apk) then ret tt
    else
      apk_path <- ask (fun e => expanduser e apk) ;;
      present <- ask (fun e => path_exists e apk_path) ;;
      if negb present then
        print [NEON_RED ++ "Not found: " ++ apk_path ++ RESET] ;;
        pause (GRAY ++ "Press Enter..." ++ RESET)
      else
        let cmd := adb_base c +++ ["install"; "-r"; apk_path] in
        if dry_run c then
          print [GRAY ++ "Dry-run. Would run:" ++ RESET; Py.join " " cmd] ;;
          pause (GRAY ++ "Press Enter..." ++ RESET)
        else
          cp <- run_capture cmd false 300 ;;
          print [Py.strip (stdout cp)] ;;
          (if Py.truthy (Py.strip (stderr cp))
           then print [GRAY ++ Py.strip (stderr cp) ++ RESET] else ret tt) ;;
          pause (GRAY ++ "Press Enter..." ++ RESET).

Definition action_clear_app_data (c : Ctx) : M unit :=
  ok <- require_serial c ;;
  if negb ok then ret tt
  else
    raw <- input "Package to clear (e.g. com.example.app): " ;;
    let pkg := Py.strip raw in
    if negb (Py.truthy pkg) then ret tt
    else
      let cmd := adb_base c +++ ["shell"; "pm"; "clear"; pkg] in
      if dry_run c then
        print [GRAY ++ "Dry-run. Would run:" ++ RESET; Py.join " " cmd] ;;
        pause (GRAY ++ "Press Enter..." ++ RESET)
      else
        out <- run cmd false 60 ;;
        let out := Py.strip out in
        print [or_else out "(no output)"] ;;
        pause (GRAY ++ "Press Enter..." ++ RESET).

Definition action_open_url (c : Ctx) : M unit :=
  ok <- require_serial c ;;
  if negb ok then ret tt
  else
    raw <- input "URL (https://...): " ;;
    let url := Py.strip raw in
    if negb (Py.truthy url) then ret tt
    else
      let cmd := adb_base c +++
        ["shell"; "am"; "start"; "-a"; "android.intent.action.VIEW"; "-d"; url] in
      if dry_run c then
        print [GRAY ++ "Dry-run. Would run:" ++ RESET; Py.join " " cmd] ;;
        pause (GRAY ++ "Press Enter..." ++ RESET)
      else
        out <- run cmd false 30 ;;
        let out := Py.strip out in
        print [or_else out "(no output)"] ;;
        pause (GRAY ++ "Press Enter..." ++ RESET).

Definition action_screenshot (c : Ctx) : M unit :=
  ok <- require_serial c ;;
  if negb ok then ret tt
  else
    md <- ask MEDIA_DIR ;;
    mkdir md ;;
    t <- now ;;
    let ts := stamp t in
    let out_path := path_join md ("screenshot-" ++ fmt_opt (serial c) ++ "-" ++ ts ++ ".png") in
    let cmd := adb_base c +++ ["exec-out"; "screencap"; "-p"] in
    if dry_run c then
      print [GRAY ++ "Dry-run. Would run:" ++ RESET; Py.join " " cmd; "> " ++ out_path] ;;
      pause (GRAY ++ "Press Enter..." ++ RESET)
    else
      p <- subprocess_run cmd false None ;;
      if negb (returncode p =? 0)%Z then
        print [NEON_RED ++ "screencap failed" ++ RESET] ;;
        (if Py.truthy (stderr p) then
           txt <- ask (fun e => decode_ignore e (stderr p)) ;;
           print [txt]
         else ret tt) ;;
        pause (GRAY ++ "Press Enter..." ++ RESET)
      else
        write_text out_path (stdout p) ;;
        print ["Wrote: " ++ out_path] ;;
        pause (GRAY ++ "Press Enter..." ++ RESET).

(** The duration computed in [action_screenrecord] from the stripped
    answer to the duration prompt. *)
Definition screenrecord_duration (dur_s : string) : Z :=
  let duration := 15%Z in
  let duration :=
    if Py.truthy dur_s then
      match Py.int dur_s with
      | Some n => n
      | None => 15%Z
      end
    else duration in
  Z.max 1 (Z.min duration 180).

Definition action_screenrecord (c : Ctx) : M unit :=
  ok <- require_serial c ;;
  if negb ok then ret tt
  else
    md <- ask MEDIA_DIR ;;
    mkdir md ;;
    t <- now ;;
    let ts := stamp t in
    let device_path := "/sdcard/workbench-record-" ++ ts ++ ".mp4" in
    let host_path := path_join md ("screenrecord-" ++ fmt_opt (serial c) ++ "-" ++ ts ++ ".mp4") in
    raw <- input "Duration seconds (max 180, default 15): " ;;
    let dur_s := Py.strip raw in
    let duration := screenrecord_duration dur_s in
    let cmd := adb_base c +++
      ["shell"; "screenrecord"; "--time-limit"; Py.str_of_Z duration; device_path] in
    if dry_run c then
      print [GRAY ++ "Dry-run. Would run:" ++ RESET; Py.join " " cmd] ;;
      print [GRAY ++ "Then: adb pull" ++ RESET; device_path; host_path] ;;
      pause (GRAY ++ "Press Enter..." ++ RESET)
    else
      print [GRAY ++ "Recording for " ++ Py.str_of_Z duration ++ "s..." ++ RESET] ;;
      run_capture cmd false (duration + 30) ;;
      let pull_cmd := adb_base c +++ ["pull"; device_path; host_path] in
      cp <- run_capture pull_cmd false 300 ;;
      (if (returncode cp =? 0)%Z then
         print ["Wrote: " ++ host_path] ;;
         run_capture (adb_base c +++ ["shell"; "rm"; "-f"; device_path]) false 30 ;;
         ret tt
       else
         print [NEON_RED ++ "pull failed" ++ RESET] ;;
         print [Py.strip (stdout cp)] ;;
         print [Py.strip (stderr cp)]) ;;
      pause (GRAY ++ "Press Enter..." ++ RESET).

Definition action_fastboot_getvar_all (c : Ctx) : M unit :=
  let cmd := fastboot_base c +++ ["getvar"; "all"] in
  if dry_run c then
    print [GRAY ++ "Dry-run. Would run:" ++ RESET; Py.join " " cmd] ;;
    pause (GRAY ++ "Press Enter..." ++ RESET)
  else
    cp <- run_capture cmd false 60 ;;
    let out := or_else (stdout cp) "" ++ or_else (stderr cp) "" in
    print [or_else (Py.strip out) "(no output)"] ;;
    pause (GRAY ++ "Press Enter..." ++ RESET).

Definition action_fastboot_reboot_menu (c : Ctx) : M unit :=
  print [] ;;
  let lines :=
    [NEON_CYAN ++ "f1" ++ RESET ++ ") fastboot reboot";
     NEON_CYAN ++ "f2" ++ RESET ++ ") fastboot reboot bootloader";
     NEON_CYAN ++ "f3" ++ RESET ++ ") fastboot reboot recovery";
     NEON_CYAN ++ "b" ++ RESET ++ ") Back"] in
  print [box lines (NEON_PINK ++ "FASTBOOT REBOOT" ++ RESET)] ;;
  raw <- input (NEON_PINK ++ "> " ++ RESET) ;;
  let choice := Py.lower (Py.strip raw) in
  if choice =? "b" then ret tt
  else
    let go (cmd : list string) : M unit :=
      if dry_run c then
        print [GRAY ++ "Dry-run. Would run:" ++ RESET; Py.join " " cmd] ;;
        pause (GRAY ++ "Press Enter..." ++ RESET)
      else
        cp <- run_capture cmd false 60 ;;
        let out := or_else (stdout cp) "" ++ or_else (stderr cp) "" in
        print [or_else (Py.strip out) "(no output)"] ;;
        pause (GRAY ++ "Press Enter..." ++ RESET) in
    if choice =? "f1" then go (fastboot_base c +++ ["reboot"])
    else if choice =? "f2" then go (fastboot_base c +++ ["reboot"; "bootloader"])
    else if choice =? "f3" then go (fastboot_base c +++ ["reboot"; "recovery"])
    else ret tt.

Definition menu_lines : list string :=
  [NEON_CYAN ++ "1" ++ RESET ++ " Status (adb/fastboot devices)";
   NEON_CYAN ++ "2" ++ RESET ++ " Write quick report";
   NEON_CYAN ++ "3" ++ RESET ++ " Reboot bootloader (adb)";
   NEON_CYAN ++ "4" ++ RESET ++ " Logcat Lab";
   "";
   NEON_CYAN ++ "5" ++ RESET ++ " Device Summary (props/battery/uptime)";
   NEON_CYAN ++ "6" ++ RESET ++ " Screenrecord (pull to host)";
   NEON_CYAN ++ "7" ++ RESET ++ " Foreground app/activity";
   NEON_CYAN ++ "8" ++ RESET ++ " Install APK";
   NEON_CYAN ++ "9" ++ RESET ++ " Clear app data";
   NEON_CYAN ++ "u" ++ RESET ++ " Open URL on device";
   NEON_CYAN ++ "s" ++ RESET ++ " Screenshot (pull to host)";
   "";
   NEON_CYAN ++ "fa" ++ RESET ++ " Fastboot getvar all";
   NEON_CYAN ++ "fr" ++ RESET ++ " Fastboot reboot menu";
   "";
   NEON_CYAN ++ "d" ++ RESET ++ " Toggle dry-run";
   NEON_CYAN ++ "q" ++ RESET ++ " Quit"].

(** The body of the [try] statement of [menu]; [false] where it ends in
    [continue], [true] where control reaches the end of the statement. *)
Definition dispatch (choice : string) : M bool :=
  c <- get_ctx ;;
  if choice =? "1" then action_status c ;; ret true
  else if choice =? "2" then action_report c ;; ret true
  else if choice =? "3" then
    if negb (truthy_opt (serial c)) then
      print ["No ADB serial selected."] ;; ret true
    else
      let cmd := adb_base c +++ ["reboot"; "bootloader"] in
      (if dry_run c then
         print [GRAY ++ "Dry-run. Would run:" ++ RESET; Py.join " " cmd]
       else
         print ["Running:"; Py.join " " cmd] ;;
         run cmd true 30 ;;
         ret tt) ;;
      pause (GRAY ++ "Press Enter..." ++ RESET) ;;
      ret false
  else if choice =? "4" then action_logcat_lab c ;; ret false
  else if choice =? "5" then action_device_summary c ;; ret false
  else if choice =? "6" then action_screenrecord c ;; ret false
  else if choice =? "7" then action_foreground_app c ;; ret false
  else if choice =? "8" then action_install_apk c ;; ret false
  else if choice =? "9" then action_clear_app_data c ;; ret false
  else if choice =? "u" then action_open_url c ;; ret false
  else if choice =? "s" then action_screenshot c ;; ret false
  else if choice =? "fa" then action_fastboot_getvar_all c ;; ret false
  else if choice =? "fr" then action_fastboot_reboot_menu c ;; ret false
  else print ["Unknown choice."] ;; ret true.

(** Its [except] clauses; after them control reaches the end of the
    statement. *)
Definition on_error (x : exn) : option (M bool) :=
  match x with
  | TimeoutExpired _ _ =>
      Some (print [NEON_RED ++ "Command timed out." ++ RESET] ;; ret true)
  | CalledProcessError _ cmd out err =>
      Some (print [NEON_RED ++ "Command failed:" ++ RESET] ;;
            print [Py.join " " cmd] ;;
            (if Py.truthy out then print [LF ++ "stdout:" ++ LF ++ out] else ret tt) ;;
            (if Py.truthy err then print [LF ++ "stderr:" ++ LF ++ err] else ret tt) ;;
            ret true)
  | _ => None
  end.

(** One turn of the [while True] loop of [menu]; [false] when the loop
    is left through [return]. *)
Definition menu_iteration : M bool :=
  clear ;;
  print [banner] ;;
  c <- get_ctx ;;
  sl <- status_line (serial c) (dry_run c) ;;
  print [sl] ;;
  print [] ;;
  print [box menu_lines (NEON_PINK ++ "MAIN MENU" ++ RESET)] ;;
  raw <- input (NEON_PINK ++ "> " ++ RESET) ;;
  let choice := Py.lower (Py.strip raw) in
  if choice =? "d" then
    c <- get_ctx ;;
    set_dry_run (negb (dry_run c)) ;;
    ret true
  else if choice =? "q" then ret false
  else
    fall <- try_except (dispatch choice) on_error ;;
    if fall then
      pause (GRAY ++ "Press Enter to continue..." ++ RESET) ;;
      ret true
    else ret true.

Fixpoint menu_loop (fuel : nat) : M (option unit) :=
  match fuel with
  | O => ret None
  | S n =>
      again <- menu_iteration ;;
      if again then menu_loop n else ret (Some tt)
  end.

Definition menu_start (arg : option string) : M unit :=
  if truthy_opt arg then new_ctx (mkCtx arg false true)
  else
    picked <- pick_adb_serial ;;
    new_ctx (mkCtx picked false true).

Definition menu (arg : option string) (fuel : nat) : M (option unit) :=
  menu_start arg ;; menu_loop fuel.

End Ai.

(* ================================================================== *)
(** ** Vocabulary of the statements *)
(* ================================================================== *)

(** The identifier a device-list line contributes: its first token when
    its second token is the ready marker, nothing otherwise. *)
Definition ready_token (ln : string) : list string :=
  match Py.split ln with
  | first :: second :: _ => if second =? "device" then [first] else []
  | _ => []
  end.

(** The top border of a box of inner width [w], and the row of a label. *)
Definition box_top (w : nat) (title : string) : string :=
  if Py.truthy title then "+ " ++ title ++ Py.mul "-" (w + 1 - String.length title) ++ "+"
  else "+" ++ Py.mul "-" (w + 2) ++ "+".

Definition box_row (w : nat) (s : string) : string :=
  "| " ++ s ++ Py.mul " " (w - String.length s) ++ " |".

(** A text without any line boundary. *)
Definition no_break (s : string) : bool :=
  Py.all_chars (fun c => negb (Py.is_linebreak c)) s.

(** A value clamped into [lo, hi]. *)
Definition clamp (lo hi n : Z) : Z := Z.max lo (Z.min n hi).

(** Events that start no child process and write no file. *)
Definition quiet_event (ev : event) : bool := negb (is_exec ev || is_write ev).

Definition any_event (ev : event) : bool := true.

(** From [s] to [s'] the session context is the same object with the same
    fields, the trace has grown by events of the allowed kind only, and no
    line has been added to those the operator will type. *)
Definition keeps (allowed : event -> bool) (s s' : state) : Prop :=
  ctx s' = ctx s
  /\ (exists evs, trace s' = trace s +++ evs /\ forallb allowed evs = true)
  /\ List.length (stdin s') <= List.length (stdin s).

(** A computation that does so from every state, however it ends. *)
Definition respects (allowed : event -> bool) {A} (m : M A) : Prop :=
  forall e s, keeps allowed s (snd (m e s)).

(** The two errors of the command runner. *)
Definition is_process_error (x : exn) : bool :=
  match x with
  | TimeoutExpired _ _ | CalledProcessError _ _ _ _ => true
  | _ => false
  end.

(** A computation out of which no error of the command runner escapes. *)
Definition contained {A} (m : M A) : Prop :=
  forall e s x, fst (m e s) = Raise x -> is_process_error x = false.

(** [Q] holds of the way [m] ends from [s], and of the state it leaves. *)
Definition wp {A} (m : M A) (e : env) (s : state)
    (Q : outcome A -> state -> Prop) : Prop :=
  Q (fst (m e s)) (snd (m e s)).

(** One turn of a menu loop either leaves the session context as it was,
    or the operator chose "d" and the dry-run flag alone is inverted. *)
Definition toggled (c : Ctx) : Ctx := mkCtx (serial c) (negb (dry_run c)) (verbose c).

Definition turn_frame (step : M bool) (e : env) (s : state) : Prop :=
  let s' := snd (step e s) in
  ctx s' = ctx s
  \/ exists raw rest,
       stdin s = raw :: rest /\ Py.lower (Py.strip raw) = "d" /\ ctx s' = toggled (ctx s).

(** A turn that ends normally has read at least one line. *)
Definition turn_reads (step : M bool) (e : env) (s : state) : Prop :=
  forall again,
    fst (step e s) = Ok again ->
    List.length (stdin (snd (step e s))) < List.length (stdin s).

(** Both facts, of the way a turn ends and of the state it leaves. *)
Definition turn_post (s : state) (r : outcome bool) (s' : state) : Prop :=
  (ctx s' = ctx s
   \/ exists raw rest,
        stdin s = raw :: rest /\ Py.lower (Py.strip raw) = "d"
        /\ ctx s' = toggled (ctx s))
  /\ (forall again, r = Ok again -> List.length (stdin s') < List.length (stdin s)).

(** Across a whole run of a loop the device and the verbosity stay. *)
Definition same_device (s s' : state) : Prop :=
  serial (ctx s') = serial (ctx s) /\ verbose (ctx s') = verbose (ctx s).

(** The handler ends normally, right after reading the line [raw], and
    has started no child process and written no file. *)
Definition returns_at_once (m : M unit) (e : env) (s : state) (raw : string) : Prop :=
  wp m e s
     (fun r s' =>
        r = Ok tt
        /\ execs (trace s') = execs (trace s)
        /\ writes (trace s') = writes (trace s)
        /\ exists pre prompt, trace s' = pre +++ [EvInput prompt raw]).

(** ** Concrete surroundings for the examples *)

Definition sample_clock (n : nat) : datetime :=
  mkDT "20240102-030405" "03:04:05" "2024-01-02T03:04:05.000006".

(** A [re] module for which "(" is not a pattern and any other text
    matches the lines that contain it. *)
Definition sample_re (pat : string) : string + regex :=
  if pat =? "(" then inl "missing ), unterminated subpattern at position 0"
  else inr (Py.contains pat).

Definition env_with (p : nat -> list string -> proc_outcome) : env :=
  mkEnv p sample_clock sample_re "/home/op" (fun path => path)
        (fun _ => true) (fun bytes => bytes).

(** Every child process ends at once with the same result. *)
Definition all_exit (rc : Z) (out err : string) : nat -> list string -> proc_outcome :=
  fun _ _ => Exited (mkCP rc out err).

(** No child process ends in time. *)
Definition all_hang : nat -> list string -> proc_outcome := fun _ _ => Hung.

(** The device list of the end-to-end case: the header and one ready line. *)
Definition sample_device_list : string :=
  "List of devices attached" ++ LF ++ ("ABC123" ++ TAB ++ "device" ++ TAB ++ "usb:1-1").

(** The device list shows two ready devices. *)
Definition two_devices : string :=
  "List of devices attached" ++ LF
  ++ "ABC123" ++ TAB ++ "device" ++ LF
  ++ "XYZ789" ++ TAB ++ "device" ++ LF.

Definition state_of (c : Ctx) (lines : list string) : state := mkState c lines 0 [].

Definition bound (dry : bool) : Ctx := mkCtx (Some "ABC123") dry true.

(** The superscript two, a digit for [isdigit] and no numeral for [int]. *)
Definition superscript_two : string := String "178" EmptyString.

(** The arguments after the device selector of the log sub-modes that
    ask nothing further: dump, crashes only, SELinux filter, save to file. *)
Definition dump_args (n : string) : option (list string) :=
  if n =? "1" then Some ["logcat"; "-b"; "all"; "-d"; "-t"; "200"; "-v"; "time"]
  else if n =? "3" then Some ["logcat"; "-v"; "time"; "AndroidRuntime:E"; "*:S"]
  else if n =? "4" then Some ["logcat"; "-b"; "all"; "-d"; "-v"; "time"]
  else if n =? "7" then Some ["logcat"; "-b"; "all"; "-d"; "-v"; "time"]
  else None.

(** The dump command of the regex and SELinux sub-modes. *)
Definition dump_cmd (sn : string) : list string :=
  ["adb"; "-s"; sn; "logcat"; "-b"; "all"; "-d"; "-v"; "time"].

(** The sub-modes that ask a question first (tag, pattern, clearing):
    the command and its time allowed, for the answers that reach it. *)
Definition prompted_cmd (sn answer_line n : string) : option (list string * Z) :=
  if n =? "5" then
    if Py.truthy (Py.strip answer_line)
    then Some (["adb"; "-s"; sn; "logcat"; "-b"; "all"; "-d"; "-v"; "time";
                Py.strip answer_line ++ ":V"; "*:S"], 60%Z)
    else None
  else if n =? "6" then
    if Py.truthy (Py.strip answer_line) then Some (dump_cmd sn, 60%Z) else None
  else if n =? "8" then
    if Py.strip answer_line =? "YES"
    then Some (["adb"; "-s"; sn; "logcat"; "-b"; "all"; "-c"], 30%Z)
    else None
  else None.

(** What the regex sub-mode leaves behind when the pattern [raw] does not
    compile: always the dump command started and no file written; and,
    when the dump succeeds, the report of the pattern right after it, then
    the pause. *)
Definition bad_regex_post (e : env) (s : state) (sn : string)
    (menu_text pick raw enter msg : string)
    (r : outcome unit) (s' : state) : Prop :=
  writes (trace s') = writes (trace s)
  /\ execs (trace s') = execs (trace s) +++ [EvExec (dump_cmd sn) (Some 60%Z)]
  /\ (forall cp,
        proc e (List.length (execs (trace s))) (dump_cmd sn) = Exited cp ->
        returncode cp = 0%Z ->
        r = Ok tt
        /\ trace s'
           = trace s +++
             [EvPrint LF;
              EvPrint (menu_text ++ LF);
              EvInput (Common.NEON_PINK ++ "> " ++ Common.RESET) pick;
              EvInput "Regex: " raw;
              EvExec (dump_cmd sn) (Some 60%Z);
              EvPrint ((Common.NEON_RED ++ "Bad regex: " ++ msg ++ Common.RESET) ++ LF);
              EvInput (Common.GRAY ++ "Press Enter..." ++ Common.RESET) enter]).

(** The regex sub-mode asked for the pattern "(" on a device that answers. *)
Definition regex_case_env : env := env_with (all_exit 0 "log" "").
Definition regex_case_state : state := state_of (bound false) ["l6"; "("; ""].

(** Two ready devices, and an operator who answers with a superscript. *)
Definition selector_case_env : env := env_with (all_exit 0 two_devices "").
Definition selector_case_state : state :=
  state_of (mkCtx None false true) [superscript_two].

(** ** The property report *)

(** What the n-th child process prints, stripped, when it ends. *)
Definition answer (e : env) (k : nat) (cmd : list string) : string :=
  match proc e k cmd with
  | Exited cp => Py.strip (stdout cp)
  | Hung => ""
  end.

(** Every child process ends with status zero. *)
Definition all_succeed (e : env) : Prop :=
  forall k cmd, exists cp, proc e k cmd = Exited cp /\ returncode cp = 0%Z.

(** The label under which each queried property appears in the report. *)
Definition ai_props : list (string * string) :=
  [("model", "ro.product.model");
   ("android", "ro.build.version.release");
   ("security_patch", "ro.build.version.security_patch");
   ("fingerprint", "ro.build.fingerprint");
   ("abi", "ro.product.cpu.abi")].

Definition v12_props : list (string * string) :=
  [("model", "ro.product.model");
   ("android", "ro.build.version.release");
   ("fingerprint", "ro.build.fingerprint");
   ("verifiedbootstate", "ro.boot.verifiedbootstate");
   ("flash.locked", "ro.boot.flash.locked");
   ("vbmeta.device_state", "ro.boot.vbmeta.device_state")].

Definition getprop_cmd (sn key : string) : list string :=
  ["adb"; "-s"; sn; "shell"; "getprop"; key].

Definition id_cmd (sn : string) : list string := ["adb"; "-s"; sn; "shell"; "id"].

(** The lines of the report after the heading: one labelled line per
    property, answered by the k-th, (k+1)-th, ... child process, then the
    identity block. *)
Fixpoint report_body (e : env) (sn : string) (k : nat)
    (props : list (string * string)) : list string :=
  match props with
  | [] => [""; "id:"; answer e k (id_cmd sn)]
  | (label, key) :: r =>
      (label ++ ": " ++ answer e k (getprop_cmd sn key))
        :: report_body e sn (S k) r
  end.

Definition report_text (e : env) (s : state) (sn when_label : string)
    (props : list (string * string)) : string :=
  Py.join LF
    (["serial: " ++ sn; when_label ++ iso (clock e (S (clock_reads s))); ""]
     +++ report_body e sn (List.length (execs (trace s))) props)
  ++ LF.

Definition report_path (e : env) (s : state) (sn : string) : string :=
  path_join (Common.REPORT_DIR e)
            ("report-" ++ sn ++ "-" ++ stamp (clock e (clock_reads s)) ++ ".txt").

(** The report handler ends normally, having queried every property and
    the identity, and written the one file. *)
Definition report_written (e : env) (s : state) (sn when_label : string)
    (props : list (string * string)) (r : outcome unit) (s' : state) : Prop :=
  r = Ok tt
  /\ writes (trace s')
     = writes (trace s)
       +++ [EvWrite (report_path e s sn) (report_text e s sn when_label props)]
  /\ execs (trace s')
     = execs (trace s)
       +++ map (fun lk => EvExec (getprop_cmd sn (snd lk)) (Some 15%Z)) props
       +++ [EvExec (id_cmd sn) (Some 10%Z)].

(** However the handler ends, if it ends in an exception no file has
    been written. *)
Definition no_file_on_failure (s : state) (r : outcome unit) (s' : state) : Prop :=
  forall x, r = Raise x -> writes (trace s') = writes (trace s).

(** A device whose queries fail, and one whose answers are empty. *)
Definition offline_env : env := env_with (all_exit 1 "" "error: device offline").
Definition silent_env : env := env_with (all_exit 0 "" "").
Definition report_case_state : state := state_of (bound false) [].

(** A device that never answers: the status action, then quit. *)
Definition hang_env : env := env_with all_hang.
Definition status_then_quit : state := state_of (bound false) ["1"; ""; "q"].

(** What a [try] statement with the [except] clauses [h] makes of an
    error of the command runner raised by its body [m] from [s]: the
    statement ends normally, and after the failure nothing but printing
    happens. *)
Definition recovers {A} (m : M A) (h : exn -> option (M A)) (e : env) (s : state) : Prop :=
  forall x s1,
    m e s = (Raise x, s1) ->
    is_process_error x = true ->
    exists a s2,
      try_except m h e s = (Ok a, s2) /\ keeps quiet_event s1 s2.

(** ** Vocabulary of the further properties *)

(** A token: not empty, and free of white space. *)
Definition plain_token (w : string) : bool :=
  Py.truthy w && Py.all_chars (fun c => negb (Py.isspace c)) w.

(** The command that lists the devices, and the state after it has run. *)
Definition list_cmd : list string := ["adb"; "devices"; "-l"].

Definition after_listing (s : state) : state := log (EvExec list_cmd (Some 10%Z)) s.

(** Events of the terminal alone: nothing started, written or created. *)
Definition terminal_event (ev : event) : bool :=
  match ev with
  | EvPrint _ | EvInput _ _ => true
  | _ => false
  end.

(** The line printed in place of a command under dry-run. *)
Definition would_run (cmd : list string) : event :=
  EvPrint ((Common.GRAY ++ "Dry-run. Would run:" ++ Common.RESET)
           ++ " " ++ Py.join " " cmd ++ LF).

Definition press_enter (line : string) : event :=
  EvInput (Common.GRAY ++ "Press Enter..." ++ Common.RESET) line.

(** The state after the events [evs], with [rest] left to read and [k]
    more readings of the clock. *)
Definition moved (s : state) (rest : list string) (k : nat) (evs : list event) : state :=
  mkState (ctx s) rest (k + clock_reads s) (trace s +++ evs).

(** An exit status other than zero taken for an error. *)
Definition is_status_error (x : exn) : bool :=
  match x with CalledProcessError _ _ _ _ => true | _ => false end.

(** A computation that never ends in [CalledProcessError]. *)
Definition tolerant {A} (m : M A) : Prop :=
  forall e s x, fst (m e s) = Raise x -> is_status_error x = false.

(** No file exists. *)
Definition env_no_files : env :=
  mkEnv (all_exit 0 "" "") sample_clock sample_re "/home/op" (fun path => path)
        (fun _ => false) (fun bytes => bytes).

(** The sub-menu tokens of the log handler that select a sub-mode, the
    prefix being "l" in [android_workbench_ai.py] and empty elsewhere. *)
Definition log_choices (prefix : string) : list string :=
  map (fun n => prefix ++ n) ["1"; "2"; "3"; "4"; "5"; "6"; "7"; "8"].

Definition known_log_choice (prefix choice : string) : bool :=
  existsb (String.eqb choice) (log_choices prefix).

(** The line test of the SELinux sub-mode. *)
Definition is_avc_line (ln : string) : bool := Py.contains "avc:" (Py.lower ln).

Fixpoint drop_final_empty (rows : list string) : list string :=
  match rows with
  | [] => []
  | [r] => if Py.truthy r then [r] else []
  | r :: rest => r :: drop_final_empty rest
  end.

(** The arguments each token of the fastboot reboot menu stands for. *)
Definition fastboot_reboot_args (choice : string) : option (list string) :=
  if choice =? "f1" then Some ["reboot"]
  else if choice =? "f2" then Some ["reboot"; "bootloader"]
  else if choice =? "f3" then Some ["reboot"; "recovery"]
  else None.

(** The queries of the device summary, in the order of the source, each
    with the seconds it is allowed. *)
Definition summary_queries (sn : string) : list event :=
  map (fun key => EvExec ["adb"; "-s"; sn; "shell"; "getprop"; key] (Some 15%Z))
      ["ro.product.model"; "ro.build.version.release";
       "ro.build.version.security_patch"; "ro.build.fingerprint";
       "ro.product.cpu.abi"]
  +++ [EvExec ["adb"; "-s"; sn; "shell"; "dumpsys"; "battery"] (Some 20%Z);
       EvExec ["adb"; "-s"; sn; "shell"; "uptime"] (Some 20%Z)].

(** The tokens of the main menus. *)
Definition main_choices : list string := ["d"; "q"; "1"; "2"; "3"; "4"].

Definition main_choices_ai : list string :=
  main_choices +++ ["5"; "6"; "7"; "8"; "9"; "u"; "s"; "fa"; "fr"].

Definition known_choice (tokens : list string) (choice : string) : bool :=
  existsb (String.eqb choice) tokens.

(* ================================================================== *)
(** * Properties *)
(* ================================================================== *)

(** ** Strings *)

Example splitlines_samples :
  Py.splitlines "" = []
  /\ Py.splitlines LF = [""]
  /\ Py.splitlines ("a" ++ LF ++ LF ++ "b") = ["a"; ""; "b"]
  /\ Py.splitlines ("a" ++ String "013" LF ++ "b" ++ LF) = ["a"; "b"].
Proof. repeat split; reflexivity. Qed.

Example split_strip_samples :
  Py.split ("  ab c" ++ TAB ++ "d ") = ["ab"; "c"; "d"]
  /\ Py.split "   " = []
  /\ Py.strip (TAB ++ " a b " ++ LF) = "a b"
  /\ Py.lower "L6" = "l6".
Proof. repeat split; reflexivity. Qed.

Example int_samples :
  map Py.int ["12"; " 12 "; "-3"; "+4"; "007"; "1_000"; "1__0"; "_1"; "1_"; ""; "+"; "1.5";
              "0x10"; String "178" ""]
  = [Some 12; Some 12; Some (-3); Some 4; Some 7; Some 1000; None; None; None; None; None;
     None; None; None]%Z.
Proof. reflexivity. Qed.

Example isdigit_samples :
  map Py.isdigit ["12"; ""; "-3"; " 12"; "1_0"; String "178" ""; String "188" ""]
  = [true; false; false; false; false; true; false].
Proof. reflexivity. Qed.

Section StringFacts.

Lemma length_app (a b : string) :
  String.length (a ++ b) = String.length a + String.length b.
Proof. induction a as [|c a IH]; simpl; [reflexivity | now rewrite IH]. Qed.

Lemma append_assoc (a b c : string) : ((a ++ b) ++ c)%string = (a ++ (b ++ c))%string.
Proof. induction a as [|x a IH]; simpl; [reflexivity | now rewrite IH]. Qed.

Lemma length_mul_char (c : ascii) (n : nat) :
  String.length (Py.mul (String c EmptyString) n) = n.
Proof. induction n as [|n IH]; simpl; [reflexivity | now rewrite IH]. Qed.

Lemma length_ljust (s : string) (w : nat) (c : ascii) :
  String.length (Py.ljust s w c) = Nat.max (String.length s) w.
Proof. unfold Py.ljust. rewrite length_app, length_mul_char. lia. Qed.

Lemma truthy_false (s : string) : Py.truthy s = false <-> s = EmptyString.
Proof. destruct s; simpl; split; congruence. Qed.

Lemma split_lstrip (s : string) : Py.split (Py.lstrip s) = Py.split s.
Proof.
  induction s as [|c r IH]; [reflexivity|].
  cbn [Py.lstrip]. destruct (Py.isspace c) eqn:Hc.
  - rewrite IH. cbn [Py.split]. now rewrite Hc.
  - reflexivity.
Qed.

(** The first character survives [rstrip] whenever anything does. *)
Lemma rstrip_head (s : string) (c : ascii) (x : string) :
  Py.rstrip s = String c x -> exists y, s = String c y.
Proof.
  destruct s as [|d r]; cbn [Py.rstrip]; [discriminate|].
  destruct (Py.isspace d && negb (Py.truthy (Py.rstrip r))); [discriminate|].
  intros H; injection H as -> _. now exists r.
Qed.

Lemma rstrip_empty_split (s : string) :
  Py.rstrip s = EmptyString -> Py.split s = [].
Proof.
  induction s as [|c r IH]; [reflexivity|].
  cbn [Py.rstrip Py.split].
  destruct (Py.isspace c) eqn:Hc; cbn [andb].
  - destruct (Py.rstrip r); cbn [Py.truthy negb]; [auto | discriminate].
  - discriminate.
Qed.

Lemma split_rstrip (s : string) : Py.split (Py.rstrip s) = Py.split s.
Proof.
  induction s as [|c r IH]; [reflexivity|].
  cbn [Py.rstrip].
  destruct (Py.isspace c) eqn:Hc; cbn [andb].
  - destruct (Py.rstrip r) as [|d x] eqn:Hr; cbn [Py.truthy negb].
    + cbn [Py.split]. rewrite Hc. symmetry. now apply rstrip_empty_split.
    + cbn [Py.split] in *. now rewrite Hc.
  - destruct (Py.rstrip r) as [|d x] eqn:Hr.
    + pose proof (rstrip_empty_split _ Hr) as Hs.
      cbn [Py.split]. rewrite Hc.
      destruct r as [|d y]; [reflexivity|].
      rewrite Hs.
      destruct (Py.isspace d); reflexivity.
    + destruct (rstrip_head _ Hr) as [y ->].
      change (Py.split (String c (String d x))) with
        (if Py.isspace c then Py.split (String d x)
         else if Py.isspace d then String c EmptyString :: Py.split (String d x)
              else match Py.split (String d x) with
                   | w :: ws => String c w :: ws
                   | [] => [String c EmptyString]
                   end).
      change (Py.split (String c (String d y))) with
        (if Py.isspace c then Py.split (String d y)
         else if Py.isspace d then String c EmptyString :: Py.split (String d y)
              else match Py.split (String d y) with
                   | w :: ws => String c w :: ws
                   | [] => [String c EmptyString]
                   end).
      now rewrite IH.
Qed.

(** Stripping a line does not change its tokens. *)
Lemma split_strip (s : string) : Py.split (Py.strip s) = Py.split s.
Proof. unfold Py.strip. now rewrite split_lstrip, split_rstrip. Qed.

Lemma lstrip_empty_split (s : string) :
  Py.lstrip s = EmptyString -> Py.split s = [].
Proof.
  induction s as [|c r IH]; [reflexivity|].
  cbn [Py.lstrip Py.split]. destruct (Py.isspace c); [auto | discriminate].
Qed.

Lemma split_nonempty (s : string) (c : ascii) (r : string) :
  Py.isspace c = false -> s = String c r -> Py.split s <> [].
Proof.
  intros Hc ->. cbn [Py.split]. rewrite Hc.
  destruct r as [|d y]; [discriminate|].
  destruct (Py.isspace d); [discriminate|].
  destruct (Py.split (String d y)); discriminate.
Qed.

Lemma lstrip_head (s : string) (c : ascii) (x : string) :
  Py.lstrip s = String c x -> Py.isspace c = false.
Proof.
  induction s as [|d r IH]; cbn [Py.lstrip]; [discriminate|].
  destruct (Py.isspace d) eqn:Hd; [exact IH|].
  intros H; injection H as -> _. exact Hd.
Qed.

(** A line is blank exactly when it has no token. *)
Lemma blank_iff_no_token (s : string) :
  Py.truthy (Py.strip s) = false <-> Py.split s = [].
Proof.
  rewrite truthy_false. split.
  - intros H. rewrite <- split_strip, H. reflexivity.
  - intros H. destruct (Py.strip s) as [|c x] eqn:Hs; [reflexivity|].
    exfalso. rewrite <- split_strip in H. revert H.
    eapply split_nonempty; [|exact Hs].
    unfold Py.strip in Hs. eapply lstrip_head; exact Hs.
Qed.

End StringFacts.

(** ** The device-list parser *)

Section Parser.

Lemma fold_append_flat_map {A B} (f : A -> list B) (g : list B -> A -> list B)
    (xs : list A) (acc : list B) :
  (forall acc x, g acc x = acc +++ f x) ->
  fold_left g xs acc = acc +++ flat_map f xs.
Proof.
  intros Hg. revert acc.
  induction xs as [|x xs IH]; intros acc; simpl.
  - now rewrite app_nil_r.
  - rewrite IH, Hg, <- app_assoc. reflexivity.
Qed.

Lemma ready_token_strip (ln : string) : ready_token (Py.strip ln) = ready_token ln.
Proof. unfold ready_token. now rewrite split_strip. Qed.

Lemma ready_token_blank (ln : string) :
  Py.truthy (Py.strip ln) = false -> ready_token ln = [].
Proof.
  intros H. apply blank_iff_no_token in H. unfold ready_token. now rewrite H.
Qed.

(** Blank lines and surrounding spaces do not matter to the tokens. *)
Lemma flat_map_ready_clean (rest : list string) :
  flat_map ready_token
    (map Py.strip (filter (fun ln => Py.truthy (Py.strip ln)) rest))
  = flat_map ready_token rest.
Proof.
  induction rest as [|ln rest IH]; [reflexivity|].
  cbn [filter]. destruct (Py.truthy (Py.strip ln)) eqn:Hb.
  - cbn [map flat_map]. now rewrite IH, ready_token_strip.
  - cbn [flat_map]. now rewrite IH, (ready_token_blank _ Hb).
Qed.

Lemma ai_step (serials : list string) (ln : string) :
  (let parts := Py.split ln in
   if (2 <=? List.length parts)%nat && (nth 1 parts "" =? "device")
   then Py.append serials (nth 0 parts "") else serials)
  = serials +++ ready_token ln.
Proof.
  unfold ready_token, Py.append. cbv zeta.
  destruct (Py.split ln) as [|a [|b r]]; cbn; try now rewrite app_nil_r.
  destruct (b =? "device"); [reflexivity | now rewrite app_nil_r].
Qed.

Lemma v12_step (serials : list string) (ln : string) :
  (let parts := Py.split ln in
   if (List.length parts <? 2)%nat then serials
   else
     let serial := nth 0 parts "" in
     let state := nth 1 parts "" in
     if state =? "device" then Py.append serials serial else serials)
  = serials +++ ready_token ln.
Proof.
  unfold ready_token, Py.append. cbv zeta.
  destruct (Py.split ln) as [|a [|b r]]; cbn; try now rewrite app_nil_r.
  destruct (b =? "device"); [reflexivity | now rewrite app_nil_r].
Qed.

Lemma v01_step (serials : list string) (ln : string) :
  (let parts := Py.split ln in
   match parts with
   | [] => serials
   | serial :: rest =>
       let state := match rest with st :: _ => st | [] => "" end in
       if state =? "device" then Py.append serials serial else serials
   end)
  = serials +++ ready_token ln.
Proof.
  unfold ready_token, Py.append. cbv zeta.
  destruct (Py.split ln) as [|a [|b r]]; cbn; try now rewrite app_nil_r.
  destruct (b =? "device"); [reflexivity | now rewrite app_nil_r].
Qed.

(** Each parser is the same function of the lines of its input. *)
Lemma ai_parse_lines (output : string) :
  Ai.parse_adb_devices output
  = flat_map ready_token
      (tl (map Py.strip
             (filter (fun ln => Py.truthy (Py.strip ln)) (Py.splitlines output)))).
Proof.
  unfold Ai.parse_adb_devices. cbv zeta.
  rewrite (fold_append_flat_map ready_token); [reflexivity|].
  intros acc x. apply ai_step.
Qed.

Lemma v12_parse_lines (output : string) :
  V12.parse_adb_devices output
  = flat_map ready_token
      (tl (map Py.strip
             (filter (fun ln => Py.truthy (Py.strip ln)) (Py.splitlines output)))).
Proof.
  unfold V12.parse_adb_devices. cbv zeta.
  rewrite (fold_append_flat_map ready_token); [reflexivity|].
  intros acc x. apply v12_step.
Qed.

Lemma v01_parse_lines (output : string) :
  V01.parse_adb_devices output
  = flat_map ready_token
      (tl (map Py.strip
             (filter (fun ln => Py.truthy (Py.strip ln)) (Py.splitlines output)))).
Proof.
  unfold V01.parse_adb_devices. cbv zeta.
  rewrite (fold_append_flat_map ready_token); [reflexivity|].
  intros acc x. apply v01_step.
Qed.

Lemma parsers_agree (output : string) :
  V01.parse_adb_devices output = Ai.parse_adb_devices output
  /\ V12.parse_adb_devices output = Ai.parse_adb_devices output.
Proof. now rewrite ai_parse_lines, v12_parse_lines, v01_parse_lines. Qed.

Lemma lines_after_header (header : string) (rest : list string) :
  Py.strip header <> EmptyString ->
  flat_map ready_token
    (tl (map Py.strip
           (filter (fun ln => Py.truthy (Py.strip ln)) (header :: rest))))
  = flat_map ready_token rest.
Proof.
  intros Hh. cbn [filter].
  destruct (Py.truthy (Py.strip header)) eqn:Hb.
  - cbn [map tl]. apply flat_map_ready_clean.
  - apply truthy_false in Hb. contradiction.
Qed.

End Parser.

(** C4.  When the device-list output is a header line (one that is not
    blank) followed by further lines, each of the three parsers returns the
    first token of every following line whose second token is "device", in
    the order of the lines, and nothing else. *)
Theorem parse_adb_devices_ready_in_order :
  forall (output header : string) (rest : list string),
    Py.splitlines output = header :: rest ->
    Py.strip header <> EmptyString ->
    Ai.parse_adb_devices output = flat_map ready_token rest
    /\ V12.parse_adb_devices output = flat_map ready_token rest
    /\ V01.parse_adb_devices output = flat_map ready_token rest.
Proof.
  intros output header rest Hl Hh.
  rewrite ai_parse_lines, v12_parse_lines, v01_parse_lines, Hl.
  rewrite lines_after_header by exact Hh. auto.
Qed.

(** The end-to-end case of C4: the header and one ready line give the one
    identifier. *)
Lemma parse_adb_devices_sample :
  Py.splitlines sample_device_list
    = ["List of devices attached"; ("ABC123" ++ TAB ++ "device" ++ TAB ++ "usb:1-1")]
  /\ Ai.parse_adb_devices sample_device_list = ["ABC123"]
  /\ V12.parse_adb_devices sample_device_list = ["ABC123"]
  /\ V01.parse_adb_devices sample_device_list = ["ABC123"].
Proof.
  split; [reflexivity|].
  apply (@parse_adb_devices_ready_in_order sample_device_list
           "List of devices attached" [("ABC123" ++ TAB ++ "device" ++ TAB ++ "usb:1-1")]).
  - reflexivity.
  - discriminate.
Defined.

(** ** The menu renderer *)

Section Box.

Lemma fold_append_map {A B} (f : A -> B) (xs : list A) (acc : list B) :
  fold_left (fun out x => Py.append out (f x)) xs acc = acc +++ map f xs.
Proof.
  revert acc. induction xs as [|x xs IH]; intros acc; simpl.
  - now rewrite app_nil_r.
  - rewrite IH. unfold Py.append. now rewrite <- app_assoc.
Qed.

Lemma max_list_bound (l : list nat) (n : nat) : In n l -> n <= Py.max_list l.
Proof.
  induction l as [|m l IH]; simpl; [tauto|].
  intros [->|H]; [lia | specialize (IH H); lia].
Qed.

Lemma max_list_attained (l : list nat) : l <> [] -> In (Py.max_list l) l.
Proof.
  induction l as [|m l IH]; [congruence|]. intros _.
  destruct l as [|k l].
  - left. simpl. lia.
  - assert (H : In (Py.max_list (k :: l)) (k :: l)) by (apply IH; discriminate).
    change (Py.max_list (m :: k :: l)) with (Nat.max m (Py.max_list (k :: l))).
    destruct (Nat.max_spec m (Py.max_list (k :: l))) as [[_ ->]|[_ ->]];
      [right; exact H | left; reflexivity].
Qed.

Lemma box_width_max (lines : list string) (title : string) :
  Common.box_width lines title
  = Py.max_list (map String.length lines +++ [String.length title]).
Proof.
  unfold Common.box_width.
  destruct lines as [|l lines]; [|reflexivity].
  destruct title; reflexivity.
Qed.

Lemma box_rows_shape (lines : list string) (title : string) :
  Common.box_rows lines title
  = box_top (Common.box_width lines title) title
      :: map (box_row (Common.box_width lines title)) lines
      +++ ["+" ++ Py.mul "-" (Common.box_width lines title + 2) ++ "+"].
Proof.
  unfold Common.box_rows. cbv zeta.
  rewrite fold_append_map. unfold Py.append, box_top, box_row, Py.ljust.
  cbn [app].
  f_equal.
  - destruct (Py.truthy title); [|reflexivity].
    cbn [String.append String.length]. rewrite append_assoc.
    replace (Common.box_width lines title + 2 - S (String.length title))
      with (Common.box_width lines title + 1 - String.length title) by lia.
    reflexivity.
  - f_equal. apply map_ext. intros s.
    cbn [String.append]. now rewrite append_assoc.
Qed.

Lemma labels_fit (lines : list string) (title : string) :
  Forall (fun s => String.length s
                   <= Py.max_list (map String.length lines +++ [String.length title]))
         (title :: lines).
Proof.
  apply Forall_forall. intros s Hs. apply max_list_bound.
  apply in_or_app. destruct Hs as [<-|Hs]; [right; now left|].
  left. now apply in_map.
Qed.

Lemma box_rows_lengths (lines : list string) (title : string) :
  Forall (fun row =>
            String.length row
            = Py.max_list (map String.length lines +++ [String.length title]) + 4)
         (Common.box_rows lines title).
Proof.
  rewrite box_rows_shape, box_width_max.
  pose proof (labels_fit lines title) as Hle.
  inversion Hle as [|? ? Ht Hl]; subst.
  constructor.
  - unfold box_top. destruct (Py.truthy title).
    + rewrite !length_app, length_mul_char. cbn [String.length]. lia.
    + rewrite !length_app, length_mul_char. cbn [String.length]. lia.
  - apply Forall_app. split.
    + apply Forall_forall. intros row Hrow.
      apply in_map_iff in Hrow. destruct Hrow as [s [<- Hs]].
      rewrite Forall_forall in Hl. specialize (Hl s Hs).
      unfold box_row. rewrite !length_app, length_mul_char. cbn [String.length]. lia.
    + constructor; [|constructor].
      rewrite !length_app, length_mul_char. cbn [String.length]. lia.
Qed.

End Box.

(** C8.  For every list of labels and every title, [box] is the rows of
    [box_rows] joined by line feeds: a top border carrying the title, one
    row per label in order, a bottom border.  With [w] the greatest length
    among the labels and the title, every row is [w + 4] characters long,
    the row of a label is the label between "| " and " |" filled with
    spaces up to [w], and without label and title the result is the empty
    box of two borders.  [box] is a function of its two arguments alone. *)
Theorem box_rows_same_width :
  forall (lines : list string) (title : string),
    let w := Py.max_list (map String.length lines +++ [String.length title]) in
    Common.box lines title = Py.join LF (Common.box_rows lines title)
    /\ Common.box_rows lines title
       = box_top w title :: map (box_row w) lines +++ ["+" ++ Py.mul "-" (w + 2) ++ "+"]
    /\ In w (map String.length lines +++ [String.length title])
    /\ Forall (fun s => String.length s <= w) (title :: lines)
    /\ Forall (fun row => String.length row = w + 4) (Common.box_rows lines title)
    /\ Common.box [] "" = "+--+" ++ LF ++ "+--+".
Proof.
  intros lines title w.
  split; [reflexivity|].
  split; [rewrite box_rows_shape, box_width_max; reflexivity|].
  split; [apply max_list_attained; now destruct (map String.length lines)|].
  split; [apply labels_fit|].
  split; [apply box_rows_lengths | reflexivity].
Qed.

(** The lines of the text are the rows, when no label holds a line
    boundary. *)
Section BoxText.

Lemma no_break_app (a b : string) :
  no_break (a ++ b) = no_break a && no_break b.
Proof.
  unfold no_break. induction a as [|c a IH]; [reflexivity|].
  cbn [String.append Py.all_chars]. now rewrite IH, andb_assoc.
Qed.

Lemma no_break_mul (c : ascii) (n : nat) :
  Py.is_linebreak c = false -> no_break (Py.mul (String c EmptyString) n) = true.
Proof.
  intros Hc. induction n as [|n IH]; [reflexivity|].
  cbn [Py.mul]. rewrite no_break_app, IH. unfold no_break. cbn. now rewrite Hc.
Qed.

Lemma splitlines_one (s : string) :
  no_break s = true -> s <> EmptyString -> Py.splitlines s = [s].
Proof.
  induction s as [|c r IH]; [congruence|]. intros Hb _.
  unfold no_break in Hb. cbn [Py.all_chars] in Hb. apply andb_prop in Hb.
  destruct Hb as [Hc Hr]. apply negb_true_iff in Hc.
  cbn [Py.splitlines]. rewrite Hc.
  destruct r as [|d r]; [reflexivity|].
  rewrite IH; [reflexivity | exact Hr | discriminate].
Qed.

Lemma splitlines_line (s rest : string) :
  no_break s = true -> Py.splitlines (s ++ LF ++ rest) = s :: Py.splitlines rest.
Proof.
  induction s as [|c r IH]; intros Hb.
  - cbn [String.append]. unfold LF. cbn [String.append].
    change (Py.splitlines (String "010" rest))
      with (match rest with
            | String c' r' =>
                if Py.is_cr "010" && Py.is_lf c' then EmptyString :: Py.splitlines r'
                else EmptyString :: Py.splitlines rest
            | EmptyString => [EmptyString]
            end).
    destruct rest; reflexivity.
  - unfold no_break in Hb. cbn [Py.all_chars] in Hb. apply andb_prop in Hb.
    destruct Hb as [Hc Hr]. apply negb_true_iff in Hc.
    cbn [String.append Py.splitlines]. rewrite Hc. now rewrite (IH Hr).
Qed.

Lemma splitlines_join (rows : list string) :
  Forall (fun r => no_break r = true /\ r <> EmptyString) rows ->
  Py.splitlines (Py.join LF rows) = rows.
Proof.
  induction rows as [|r rows IH]; [reflexivity|].
  intros H. inversion H as [|? ? [Hb Hne] Hrest]; subst.
  destruct rows as [|r2 rows].
  - now apply splitlines_one.
  - change (Py.join LF (r :: r2 :: rows)) with (r ++ LF ++ Py.join LF (r2 :: rows)).
    rewrite splitlines_line by exact Hb. now rewrite (IH Hrest).
Qed.

Lemma nonempty_of_length (s : string) (n : nat) :
  String.length s = n + 4 -> s <> EmptyString.
Proof. destruct s; cbn; [lia | discriminate]. Qed.

End BoxText.

(** X28.  When neither the title nor any label holds a line boundary,
    the text [box] returns splits back, line by line, into the rows of
    the frame: one printed line per row. *)
Lemma box_text_lines (lines : list string) (title : string) :
  Forall (fun s => no_break s = true) (title :: lines) ->
  Py.splitlines (Common.box lines title) = Common.box_rows lines title.
Proof.
  intros Hnb. unfold Common.box. apply splitlines_join.
  pose proof (box_rows_lengths lines title) as Hlen.
  rewrite Forall_forall in Hlen. apply Forall_forall. intros row Hrow.
  split; [|eapply nonempty_of_length; apply (Hlen row Hrow)].
  rewrite box_rows_shape in Hrow. inversion Hnb as [|? ? Ht Hl]; subst.
  destruct Hrow as [<-|Hrow].
  - unfold box_top. destruct (Py.truthy title).
    + rewrite !no_break_app, Ht, no_break_mul by reflexivity. reflexivity.
    + rewrite !no_break_app, no_break_mul by reflexivity. reflexivity.
  - apply in_app_or in Hrow. destruct Hrow as [Hrow|[<-|[]]].
    + apply in_map_iff in Hrow. destruct Hrow as [l [<- Hin]].
      rewrite Forall_forall in Hl. unfold box_row.
      rewrite !no_break_app, (Hl l Hin), no_break_mul by reflexivity. reflexivity.
    + rewrite !no_break_app, no_break_mul by reflexivity. reflexivity.
Qed.

(** ** The recording duration *)

Section Duration.

Lemma int_needs_text (s : string) (n : Z) : Py.int s = Some n -> Py.truthy (Py.strip s) = true.
Proof. unfold Py.int. destruct (Py.strip s); [discriminate | reflexivity]. Qed.

Lemma lstrip_idem (s : string) : Py.lstrip (Py.lstrip s) = Py.lstrip s.
Proof.
  induction s as [|c r IH]; [reflexivity|].
  cbn [Py.lstrip]. destruct (Py.isspace c) eqn:Hc; [exact IH|].
  cbn [Py.lstrip]. now rewrite Hc.
Qed.

Lemma rstrip_idem (s : string) : Py.rstrip (Py.rstrip s) = Py.rstrip s.
Proof.
  induction s as [|c r IH]; [reflexivity|].
  cbn [Py.rstrip].
  destruct (Py.isspace c && negb (Py.truthy (Py.rstrip r))) eqn:Hc; [reflexivity|].
  cbn [Py.rstrip]. now rewrite IH, Hc.
Qed.

(** Nothing is left to strip at the right of a left-stripped,
    right-stripped text. *)
Lemma rstrip_lstrip_rstrip (s : string) :
  Py.rstrip (Py.lstrip (Py.rstrip s)) = Py.lstrip (Py.rstrip s).
Proof.
  induction s as [|c r IH]; [reflexivity|].
  cbn [Py.rstrip].
  destruct (Py.isspace c) eqn:Hc; cbn [andb].
  - destruct (Py.truthy (Py.rstrip r)) eqn:Hr; cbn [negb]; [|reflexivity].
    cbn [Py.lstrip]. now rewrite Hc.
  - cbn [Py.lstrip]. rewrite Hc. cbn [Py.rstrip]. now rewrite rstrip_idem, Hc.
Qed.

Lemma strip_idem (s : string) : Py.strip (Py.strip s) = Py.strip s.
Proof. unfold Py.strip. now rewrite rstrip_lstrip_rstrip, lstrip_idem. Qed.

End Duration.

(** The duration computed from the stripped answer lies in [1, 180];
    when the answer reads as an integer [n] it is [n] clamped into that
    range, and when it does not (the empty answer and a numeral beyond
    the interpreter's limit included) it is 15. *)
Lemma screenrecord_duration_range (raw : string) :
  let d := Ai.screenrecord_duration (Py.strip raw) in
  (1 <= d <= 180)%Z
  /\ (forall n, Py.int (Py.strip raw) = Some n -> d = clamp 1 180 n)
  /\ (Py.int (Py.strip raw) = None -> d = 15%Z).
Proof.
  intros d. subst d. unfold Ai.screenrecord_duration, clamp. cbv zeta.
  split; [lia|]. split.
  - intros n Hn. pose proof (int_needs_text _ Hn) as Ht.
    rewrite strip_idem in Ht. now rewrite Ht, Hn.
  - intros Hn. rewrite Hn. destruct (Py.truthy (Py.strip raw)); reflexivity.
Qed.

Example screenrecord_duration_samples :
  map (fun raw => Ai.screenrecord_duration (Py.strip raw))
      ["42"; "0"; "-7"; "181"; ""; "  "; "abc"; "1.5"; "1_0"; "+9"]
  = [42; 1; 1; 180; 15; 15; 15; 15; 10; 9]%Z.
Proof. reflexivity. Qed.

(** A numeral of 4301 nines is refused by [int], and the duration falls
    back to the default. *)
Example screenrecord_duration_long_numeral :
  Py.int (Py.mul "9" 4301) = None
  /\ Ai.screenrecord_duration (Py.strip (Py.mul "9" 4301)) = 15%Z.
Proof. split; vm_compute; reflexivity. Qed.

(** ** Reasoning on computations *)

Section Respects.

Variable allowed : event -> bool.
Hypothesis allowed_print : forall t, allowed (EvPrint t) = true.
Hypothesis allowed_input : forall p l, allowed (EvInput p l) = true.

Lemma keeps_refl (s : state) : keeps allowed s s.
Proof.
  split; [reflexivity|]. split; [|lia]. exists []. now rewrite app_nil_r.
Qed.

Lemma keeps_trans (s1 s2 s3 : state) :
  keeps allowed s1 s2 -> keeps allowed s2 s3 -> keeps allowed s1 s3.
Proof.
  intros [Hc1 [[ev1 [Ht1 Ha1]] Hl1]] [Hc2 [[ev2 [Ht2 Ha2]] Hl2]].
  split; [congruence|]. split; [|lia].
  exists (ev1 +++ ev2). split.
  - now rewrite Ht2, Ht1, app_assoc.
  - now rewrite forallb_app, Ha1, Ha2.
Qed.

Lemma keeps_log (s : state) (ev : event) :
  allowed ev = true -> keeps allowed s (log ev s).
Proof.
  intros H. split; [reflexivity|]. split; [|unfold log; cbn [stdin]; lia].
  exists [ev]. split; [reflexivity|].
  cbn. now rewrite H.
Qed.

Lemma respects_ret {A} (a : A) : respects allowed (ret a).
Proof. intros e s. apply keeps_refl. Qed.

Lemma respects_raise {A} (x : exn) : respects allowed (@raise A x).
Proof. intros e s. apply keeps_refl. Qed.

Lemma respects_bind {A B} (m : M A) (k : A -> M B) :
  respects allowed m -> (forall a, respects allowed (k a)) ->
  respects allowed (bind m k).
Proof.
  intros Hm Hk e s. unfold bind.
  specialize (Hm e s). destruct (m e s) as [[a|x] s1]; cbn [snd] in *.
  - eapply keeps_trans; [exact Hm | apply Hk].
  - exact Hm.
Qed.

Lemma respects_try_except {A} (m : M A) (h : exn -> option (M A)) :
  respects allowed m ->
  (forall x k, h x = Some k -> respects allowed k) ->
  respects allowed (try_except m h).
Proof.
  intros Hm Hh e s. unfold try_except.
  specialize (Hm e s). destruct (m e s) as [[a|x] s1]; cbn [snd] in *.
  - exact Hm.
  - destruct (h x) as [k|] eqn:Hx; cbn [snd]; [|exact Hm].
    eapply keeps_trans; [exact Hm | apply (Hh x k Hx)].
Qed.

Lemma respects_emit (ev : event) : allowed ev = true -> respects allowed (emit ev).
Proof. intros H e s. now apply keeps_log. Qed.

Lemma respects_print (args : list string) : respects allowed (print args).
Proof. apply respects_emit, allowed_print. Qed.

Lemma respects_print_end (args : list string) (end_ : string) :
  respects allowed (print_end args end_).
Proof. apply respects_emit, allowed_print. Qed.

Lemma respects_input (prompt : string) : respects allowed (input prompt).
Proof.
  intros e s. unfold input. destruct (stdin s) as [|l r] eqn:Hin; cbn [snd].
  - apply keeps_log, allowed_print.
  - split; [reflexivity|]. split; [|rewrite Hin; cbn [stdin List.length]; lia].
    exists [EvInput prompt l]. split; [reflexivity|].
    cbn. now rewrite allowed_input.
Qed.

Lemma respects_pause (prompt : string) : respects allowed (pause prompt).
Proof.
  apply respects_bind; [apply respects_input | intros; apply respects_ret].
Qed.

Lemma respects_now : respects allowed now.
Proof.
  intros e s. split; [reflexivity|]. split; [|cbn [stdin snd now]; lia].
  exists []. cbn. now rewrite app_nil_r.
Qed.

Lemma respects_ask {A} (f : env -> A) : respects allowed (ask f).
Proof. intros e s. apply keeps_refl. Qed.

Lemma respects_get_ctx : respects allowed get_ctx.
Proof. intros e s. apply keeps_refl. Qed.

Lemma respects_clear : respects allowed Common.clear.
Proof. apply respects_print_end. Qed.

Lemma respects_for_enumerate {A} (xs : list A) (body : nat -> A -> M unit) :
  (forall i x, respects allowed (body i x)) ->
  forall i0, respects allowed (for_enumerate i0 xs body).
Proof.
  intros Hb. induction xs as [|x xs IH]; intros i0; cbn [for_enumerate].
  - apply respects_ret.
  - apply respects_bind; [apply Hb | intros; apply IH].
Qed.

Lemma respects_subprocess_run (cmd : list string) (check : bool) (t : option Z) :
  allowed (EvExec cmd t) = true -> respects allowed (subprocess_run cmd check t).
Proof.
  intros H e s. unfold subprocess_run. cbv zeta.
  destruct (proc e _ cmd) as [cp|].
  - destruct (check && negb (returncode cp =? 0)%Z); cbn [snd]; now apply keeps_log.
  - destruct t; cbn [snd]; now apply keeps_log.
Qed.

Lemma respects_run_capture (cmd : list string) (check : bool) (t : Z) :
  allowed (EvExec cmd (Some t)) = true ->
  respects allowed (Common.run_capture cmd check t).
Proof. apply respects_subprocess_run. Qed.

Lemma respects_run (cmd : list string) (check : bool) (t : Z) :
  allowed (EvExec cmd (Some t)) = true -> respects allowed (Common.run cmd check t).
Proof.
  intros H. apply respects_bind; [now apply respects_run_capture|].
  intros; apply respects_ret.
Qed.

Lemma respects_run_stream (cmd : list string) :
  allowed (EvExec cmd None) = true -> respects allowed (Common.run_stream cmd).
Proof.
  intros H. apply respects_bind; [now apply respects_subprocess_run|].
  intros; apply respects_ret.
Qed.

Lemma respects_mkdir (p : string) :
  allowed (EvMkdir p) = true -> respects allowed (mkdir p).
Proof. apply respects_emit. Qed.

Lemma respects_write_text (p c : string) :
  allowed (EvWrite p c) = true -> respects allowed (write_text p c).
Proof. apply respects_emit. Qed.

End Respects.

(** What quiet events leave untouched. *)
Lemma quiet_no_exec_no_write (evs : list event) :
  forallb quiet_event evs = true -> execs evs = [] /\ writes evs = [].
Proof.
  induction evs as [|ev evs IH]; [now split|].
  cbn [forallb]. intros H. apply andb_prop in H. destruct H as [Hq Hr].
  destruct (IH Hr) as [He Hw]. unfold execs, writes in *. cbn [filter].
  unfold quiet_event in Hq. apply negb_true_iff, orb_false_iff in Hq.
  destruct Hq as [-> ->]. now split.
Qed.

Lemma keeps_quiet (s s' : state) :
  keeps quiet_event s s' ->
  ctx s' = ctx s
  /\ execs (trace s') = execs (trace s)
  /\ writes (trace s') = writes (trace s).
Proof.
  intros [Hc [[evs [Ht Hq]] _]]. destruct (quiet_no_exec_no_write _ Hq) as [He Hw].
  split; [exact Hc|]. rewrite Ht. unfold execs, writes in *.
  rewrite !filter_app, He, Hw, !app_nil_r. now split.
Qed.

(** The processes started and the files written, one event further. *)
Lemma execs_snoc (t : list event) (ev : event) :
  execs (t +++ [ev]) = execs t +++ (if is_exec ev then [ev] else []).
Proof. unfold execs. now rewrite filter_app. Qed.

Lemma writes_snoc (t : list event) (ev : event) :
  writes (t +++ [ev]) = writes t +++ (if is_write ev then [ev] else []).
Proof. unfold writes. now rewrite filter_app. Qed.

(** Closing a goal [respects allowed m] along the structure of [m]. *)
Ltac side := solve [intros; reflexivity].

Ltac respects_prim :=
  first
    [ apply respects_ret; side
    | apply respects_raise; side
    | apply respects_print; side
    | apply respects_print_end; side
    | apply respects_pause; side
    | apply respects_input; side
    | apply respects_now
    | apply respects_ask
    | apply respects_get_ctx
    | apply respects_clear; side
    | apply respects_run; side
    | apply respects_run_capture; side
    | apply respects_run_stream; side
    | apply respects_subprocess_run; side
    | apply respects_mkdir; side
    | apply respects_write_text; side ].

Ltac respects_go :=
  repeat
    (cbv beta iota zeta delta [dry_run serial verbose];
     match goal with
     | |- respects _ (bind _ _) => apply respects_bind; [|intros]
     | |- respects _ (if ?b then _ else _) => destruct b
     | |- respects _ (match ?x with _ => _ end) => destruct x
     | |- respects _ _ => respects_prim
     end).

(** ** Handlers leave the session context alone *)

Section Frame.

Ltac handler :=
  intros;
  unfold Common.action_status,
    V01.action_report, V01.action_logcat_lab, V01.logcat_command,
    V12.action_report, V12.action_logcat_lab, V12.logcat_branch, V12.logcat_finish,
    Ai.action_report, Ai.action_logcat_lab, Ai.logcat_branch, Ai.logcat_finish,
    Ai.action_device_summary, Ai.action_foreground_app, Ai.action_install_apk,
    Ai.action_clear_app_data, Ai.action_open_url, Ai.action_screenshot,
    Ai.action_screenrecord, Ai.action_fastboot_getvar_all,
    Ai.action_fastboot_reboot_menu, Ai.require_serial, Ai.adb_getprop;
  respects_go.

Lemma frame_action_status c : respects any_event (Common.action_status c).
Proof. handler. Qed.

Lemma frame_v01_report c : respects any_event (V01.action_report c).
Proof. handler. Qed.

Lemma frame_v01_logcat c : respects any_event (V01.action_logcat_lab c).
Proof. handler. Qed.

Lemma frame_v12_report c : respects any_event (V12.action_report c).
Proof. handler. Qed.

Lemma frame_v12_logcat c : respects any_event (V12.action_logcat_lab c).
Proof. handler. Qed.

Lemma frame_ai_report c : respects any_event (Ai.action_report c).
Proof. handler. Qed.

Lemma frame_ai_logcat c : respects any_event (Ai.action_logcat_lab c).
Proof. handler. Qed.

Lemma frame_ai_device_summary c : respects any_event (Ai.action_device_summary c).
Proof. handler. Qed.

Lemma frame_ai_foreground c : respects any_event (Ai.action_foreground_app c).
Proof. handler. Qed.

Lemma frame_ai_install c : respects any_event (Ai.action_install_apk c).
Proof. handler. Qed.

Lemma frame_ai_clear c : respects any_event (Ai.action_clear_app_data c).
Proof. handler. Qed.

Lemma frame_ai_open_url c : respects any_event (Ai.action_open_url c).
Proof. handler. Qed.

Lemma frame_ai_screenshot c : respects any_event (Ai.action_screenshot c).
Proof. handler. Qed.

Lemma frame_ai_screenrecord c : respects any_event (Ai.action_screenrecord c).
Proof. handler. Qed.

Lemma frame_ai_getvar c : respects any_event (Ai.action_fastboot_getvar_all c).
Proof. handler. Qed.

Lemma frame_ai_reboot_menu c : respects any_event (Ai.action_fastboot_reboot_menu c).
Proof. handler. Qed.

End Frame.

(** ** Stepping through a computation *)

Section Wp.

Context {A : Type}.
Variables (e : env) (s : state).

Lemma wp_bind {B} (m : M A) (k : A -> M B) (Q : outcome B -> state -> Prop) :
  wp m e s (fun r s1 =>
              match r with
              | Ok a => wp (k a) e s1 Q
              | Raise x => Q (Raise x) s1
              end) ->
  wp (bind m k) e s Q.
Proof.
  unfold wp, bind. destruct (m e s) as [[a|x] s1]; cbn [fst snd]; auto.
Qed.

Lemma wp_ret (a : A) (Q : outcome A -> state -> Prop) :
  Q (Ok a) s -> wp (ret a) e s Q.
Proof. auto. Qed.

(** Nothing is to be known of [m] when [Q] holds of everything. *)
Lemma wp_any (m : M A) (Q : outcome A -> state -> Prop) :
  (forall r s1, Q r s1) -> wp m e s Q.
Proof. intros H. apply H. Qed.

(** A computation known through [respects] is stepped over as a whole. *)
Lemma wp_respects (allowed : event -> bool) (m : M A)
    (Q : outcome A -> state -> Prop) :
  respects allowed m ->
  (forall r s1, keeps allowed s s1 -> Q r s1) ->
  wp m e s Q.
Proof. intros Hm HQ. apply HQ, Hm. Qed.

End Wp.

Section WpPrimitives.

Variables (e : env) (s : state).

Lemma wp_emit (ev : event) (Q : outcome unit -> state -> Prop) :
  Q (Ok tt) (log ev s) -> wp (emit ev) e s Q.
Proof. auto. Qed.

Lemma wp_print (args : list string) (Q : outcome unit -> state -> Prop) :
  Q (Ok tt) (log (EvPrint (Py.join " " args ++ LF)) s) -> wp (print args) e s Q.
Proof. auto. Qed.

Lemma wp_get_ctx (Q : outcome Ctx -> state -> Prop) :
  Q (Ok (ctx s)) s -> wp get_ctx e s Q.
Proof. auto. Qed.

Lemma wp_ask {B} (f : env -> B) (Q : outcome B -> state -> Prop) :
  Q (Ok (f e)) s -> wp (ask f) e s Q.
Proof. auto. Qed.

Lemma wp_now (Q : outcome datetime -> state -> Prop) :
  Q (Ok (clock e (clock_reads s)))
    (mkState (ctx s) (stdin s) (S (clock_reads s)) (trace s)) ->
  wp now e s Q.
Proof. auto. Qed.

Lemma wp_input (prompt : string) (Q : outcome string -> state -> Prop) :
  match stdin s with
  | line :: rest =>
      Q (Ok line) (mkState (ctx s) rest (clock_reads s)
                           (trace s +++ [EvInput prompt line]))
  | [] => Q (Raise EOFError) (log (EvPrint prompt) s)
  end ->
  wp (input prompt) e s Q.
Proof. unfold wp, input. destruct (stdin s); auto. Qed.

Lemma wp_pause (prompt : string) (Q : outcome unit -> state -> Prop) :
  match stdin s with
  | line :: rest =>
      Q (Ok tt) (mkState (ctx s) rest (clock_reads s)
                         (trace s +++ [EvInput prompt line]))
  | [] => Q (Raise EOFError) (log (EvPrint prompt) s)
  end ->
  wp (pause prompt) e s Q.
Proof. unfold wp, pause, bind, input, ret. destruct (stdin s); auto. Qed.

Lemma wp_subprocess_run (cmd : list string) (check : bool) (t : option Z)
    (Q : outcome CompletedProcess -> state -> Prop) :
  (let s1 := log (EvExec cmd t) s in
   match proc e (List.length (execs (trace s))) cmd with
   | Exited cp =>
       if check && negb (returncode cp =? 0)%Z
       then Q (Raise (CalledProcessError (returncode cp) cmd (stdout cp) (stderr cp))) s1
       else Q (Ok cp) s1
   | Hung =>
       match t with
       | Some t => Q (Raise (TimeoutExpired cmd t)) s1
       | None => Q (Raise KeyboardInterrupt) s1
       end
   end) ->
  wp (subprocess_run cmd check t) e s Q.
Proof.
  unfold wp, subprocess_run. cbv zeta.
  destruct (proc e _ cmd) as [cp|].
  - destruct (check && negb (returncode cp =? 0)%Z); auto.
  - destruct t; auto.
Qed.

Lemma wp_run (cmd : list string) (check : bool) (t : Z)
    (Q : outcome string -> state -> Prop) :
  (let s1 := log (EvExec cmd (Some t)) s in
   match proc e (List.length (execs (trace s))) cmd with
   | Exited cp =>
       if check && negb (returncode cp =? 0)%Z
       then Q (Raise (CalledProcessError (returncode cp) cmd (stdout cp) (stderr cp))) s1
       else Q (Ok (stdout cp)) s1
   | Hung => Q (Raise (TimeoutExpired cmd t)) s1
   end) ->
  wp (Common.run cmd check t) e s Q.
Proof.
  unfold wp, Common.run, Common.run_capture, subprocess_run, bind, ret. cbv zeta.
  destruct (proc e _ cmd) as [cp|]; auto.
  destruct (check && negb (returncode cp =? 0)%Z); auto.
Qed.

End WpPrimitives.

(** Stepping over the primitives that cannot branch. *)
Ltac wp_step :=
  lazymatch goal with
  | |- wp (bind _ _) _ _ _ => apply wp_bind
  | |- wp (ret _) _ _ _ => apply wp_ret
  | |- wp (print _) _ _ _ => apply wp_print
  | |- wp (emit _) _ _ _ => apply wp_emit
  | |- wp (mkdir _) _ _ _ => apply wp_emit
  | |- wp (write_text _ _) _ _ _ => apply wp_emit
  | |- wp get_ctx _ _ _ => apply wp_get_ctx
  | |- wp (ask _) _ _ _ => apply wp_ask
  | |- wp now _ _ _ => apply wp_now
  end; cbv beta iota zeta delta [negb].

Ltac prefix := repeat wp_step.

(** Bringing an explicit state to its fields. *)
Ltac simp_state := cbn [stdin log ctx trace clock_reads app].

(** Stepping over the primitives that read a line or start a process. *)
Ltac wp_io :=
  lazymatch goal with
  | |- wp (input _) _ _ _ => apply wp_input
  | |- wp (pause _) _ _ _ => apply wp_pause
  | |- wp (Common.run _ _ _) _ _ _ => apply wp_run
  | |- wp (Common.run_capture _ _ _) _ _ _ => apply wp_subprocess_run
  | |- wp (subprocess_run _ _ _) _ _ _ => apply wp_subprocess_run
  end.

Ltac sym_branch :=
  lazymatch goal with
  | |- match proc ?e ?n ?c with _ => _ end => destruct (proc e n c) as [?cp|]
  | |- if ?b then _ else _ => destruct b eqn:?
  | |- wp (if ?b then _ else _) _ _ _ => destruct b eqn:?
  | |- match ?l with [] => _ | _ :: _ => _ end => destruct l
  | |- wp (match ?x with _ => _ end) _ _ _ => destruct x
  end.

Ltac sym :=
  repeat (first [ wp_step | wp_io | sym_branch ];
          cbn [stdin log ctx trace clock_reads andb negb]; cbv zeta).

(** ** C9: the menu loop and the session context *)

Section MenuFrame.

Lemma keeps_ctx (allowed : event -> bool) (s s1 : state) :
  keeps allowed s s1 -> ctx s1 = ctx s.
Proof. now intros [H _]. Qed.


Lemma v12_dispatch_frame choice : respects any_event (V12.dispatch choice).
Proof.
  unfold V12.dispatch.
  apply respects_bind; [apply respects_get_ctx|]. intros c.
  repeat match goal with
         | |- respects _ (if ?b then _ else _) => destruct b
         end;
    first [ apply frame_action_status | apply frame_v12_report
          | apply frame_v12_logcat | respects_go ].
Qed.

Lemma v12_on_error_frame x k : V12.on_error x = Some k -> respects any_event k.
Proof.
  destruct x; cbn; intros H; try discriminate; injection H as <-; respects_go.
Qed.

Lemma ai_dispatch_frame choice : respects any_event (Ai.dispatch choice).
Proof.
  unfold Ai.dispatch.
  apply respects_bind; [apply respects_get_ctx|]. intros c.
  repeat match goal with
         | |- respects _ (if ?b then _ else _) => destruct b
         end;
    try (apply respects_bind; [|intros; apply respects_ret; side]);
    first [ apply frame_action_status | apply frame_ai_report
          | apply frame_ai_logcat | apply frame_ai_device_summary
          | apply frame_ai_screenrecord | apply frame_ai_foreground
          | apply frame_ai_install | apply frame_ai_clear
          | apply frame_ai_open_url | apply frame_ai_screenshot
          | apply frame_ai_getvar | apply frame_ai_reboot_menu
          | respects_go ].
Qed.

Lemma ai_on_error_frame x k : Ai.on_error x = Some k -> respects any_event k.
Proof.
  destruct x; cbn; intros H; try discriminate; injection H as <-; respects_go.
Qed.

Lemma turn_post_frame (step : M bool) (e : env) (s : state) :
  wp step e s (turn_post s) -> turn_frame step e s /\ turn_reads step e s.
Proof. intros [H1 H2]. split; [exact H1 | exact H2]. Qed.

Ltac turn_start :=
  unfold Common.clear, print_end, V01.status_line, V12.status_line, Ai.status_line;
  prefix; apply wp_input; cbn [stdin log ctx];
  match goal with
  | |- match stdin ?s with _ => _ end =>
      destruct (stdin s) eqn:?;
      [split; [now left | discriminate]|]
  end;
  match goal with
  | |- wp (if ?b then _ else _) _ _ _ => destruct b eqn:?
  end;
  [ match goal with
    | H : (_ =? "d") = true |- _ => apply String.eqb_eq in H
    end;
    prefix; split;
    [ right;
      match goal with
      | H : stdin _ = ?raw :: ?rest |- _ => exists raw, rest; auto
      end
    | intros ? _;
      match goal with
      | H : stdin _ = _ :: _ |- _ => rewrite H
      end; cbn; lia ]
  | apply wp_respects with (allowed := any_event);
    [ | let H := fresh "H" in
        intros ? ? H; split;
        [ left; now rewrite (keeps_ctx H)
        | intros ? _; destruct H as [_ [_ H]];
          match goal with
          | H' : stdin _ = _ :: _ |- _ => rewrite H'
          end; cbn in H; cbn; lia ] ] ].

Lemma v01_turn_post (e : env) (s : state) :
  wp V01.menu_iteration e s (turn_post s).
Proof.
  unfold V01.menu_iteration. turn_start.
  respects_go;
    first [ apply frame_action_status | apply frame_v01_report
          | apply frame_v01_logcat ].
Qed.

Lemma v01_turn (e : env) (s : state) : turn_frame V01.menu_iteration e s.
Proof. apply turn_post_frame, v01_turn_post. Qed.

Lemma v12_turn_post (e : env) (s : state) :
  wp V12.menu_iteration e s (turn_post s).
Proof.
  unfold V12.menu_iteration. turn_start.
  destruct (_ =? "q"); [respects_go|].
  apply respects_bind;
    [apply respects_try_except;
       [apply v12_dispatch_frame | apply v12_on_error_frame]|].
  intros; respects_go.
Qed.

Lemma v12_turn (e : env) (s : state) : turn_frame V12.menu_iteration e s.
Proof. apply turn_post_frame, v12_turn_post. Qed.

Lemma ai_turn_post (e : env) (s : state) :
  wp Ai.menu_iteration e s (turn_post s).
Proof.
  unfold Ai.menu_iteration. turn_start.
  destruct (_ =? "q"); [respects_go|].
  apply respects_bind;
    [apply respects_try_except;
       [apply ai_dispatch_frame | apply ai_on_error_frame]|].
  intros; respects_go.
Qed.

Lemma ai_turn (e : env) (s : state) : turn_frame Ai.menu_iteration e s.
Proof. apply turn_post_frame, ai_turn_post. Qed.

Lemma turn_same_device (step : M bool) (e : env) (s : state) :
  turn_frame step e s -> same_device s (snd (step e s)).
Proof.
  unfold turn_frame, same_device. cbv zeta.
  intros [->|[raw [rest [_ [_ ->]]]]]; now split.
Qed.

Lemma loop_same_device (step : M bool) (loop : nat -> M (option unit)) :
  (forall e s, turn_frame step e s) ->
  (forall n, loop (S n) = bind step (fun again => if again then loop n else ret (Some tt))) ->
  loop 0 = ret None ->
  forall fuel e s, same_device s (snd (loop fuel e s)).
Proof.
  intros Hstep Hunfold Hzero.
  induction fuel as [|n IH]; intros e s.
  - rewrite Hzero. now split.
  - rewrite Hunfold. unfold bind.
    pose proof (turn_same_device (Hstep e s)) as [Hs Hv].
    destruct (step e s) as [[again|x] s1]; cbn [snd] in *; [|now split].
    destruct again.
    + destruct (IH e s1) as [Hs1 Hv1]. split; congruence.
    + now split.
Qed.

(** With more fuel than lines to read, the loop ends by itself: through
    "q", or through an exception (at the latest [EOFError]). *)
Lemma loop_never_starves (step : M bool) (loop : nat -> M (option unit)) :
  (forall e s, turn_reads step e s) ->
  (forall n, loop (S n) = bind step (fun again => if again then loop n else ret (Some tt))) ->
  forall fuel e s,
    List.length (stdin s) < fuel -> fst (loop fuel e s) <> Ok None.
Proof.
  intros Hstep Hunfold.
  induction fuel as [|n IH]; intros e s Hlen; [lia|].
  rewrite Hunfold. unfold bind.
  pose proof (Hstep e s) as Hr. unfold turn_reads in Hr.
  destruct (step e s) as [[again|x] s1]; cbn [fst snd] in *; [|discriminate].
  specialize (Hr again eq_refl).
  destruct again; [apply IH; lia | discriminate].
Qed.

Lemma menu_loops_never_starve (e : env) (s : state) (fuel : nat) :
  List.length (stdin s) < fuel ->
  fst (V01.menu_loop fuel e s) <> Ok None
  /\ fst (V12.menu_loop fuel e s) <> Ok None
  /\ fst (Ai.menu_loop fuel e s) <> Ok None.
Proof.
  intros Hlen. repeat split.
  - apply (loop_never_starves (step:=V01.menu_iteration) V01.menu_loop);
      [intros; apply turn_post_frame, v01_turn_post | reflexivity | exact Hlen].
  - apply (loop_never_starves (step:=V12.menu_iteration) V12.menu_loop);
      [intros; apply turn_post_frame, v12_turn_post | reflexivity | exact Hlen].
  - apply (loop_never_starves (step:=Ai.menu_iteration) Ai.menu_loop);
      [intros; apply turn_post_frame, ai_turn_post | reflexivity | exact Hlen].
Qed.

End MenuFrame.

(** C9.  In each of the three programs, a turn of the main loop leaves
    the session context as it was, unless the operator chose "d": then the
    dry-run flag is inverted and the two other fields stay.  Hence from the
    state in which the loop starts, whatever the number of turns, the
    selected device and the verbosity flag are those of the start. *)
Theorem menu_mutates_only_dry_run :
  forall (e : env) (s : state),
    (turn_frame V01.menu_iteration e s
     /\ turn_frame V12.menu_iteration e s
     /\ turn_frame Ai.menu_iteration e s)
    /\ (forall fuel : nat,
          same_device s (snd (V01.menu_loop fuel e s))
          /\ same_device s (snd (V12.menu_loop fuel e s))
          /\ same_device s (snd (Ai.menu_loop fuel e s))).
Proof.
  intros e s. split.
  - split; [apply v01_turn | split; [apply v12_turn | apply ai_turn]].
  - intros fuel. repeat split;
      first [ apply (loop_same_device (step:=V01.menu_iteration) V01.menu_loop v01_turn)
            | apply (loop_same_device (step:=V12.menu_iteration) V12.menu_loop v12_turn)
            | apply (loop_same_device (step:=Ai.menu_iteration) Ai.menu_loop ai_turn) ];
      reflexivity.
Qed.

(** ** The duration in the recording command *)

(** On a bound device and outside dry-run, the first child process the
    recording handler starts is the recording command, limited to the
    duration computed from the answer and allowed thirty seconds more. *)
Lemma screenrecord_runs_for_duration
    (e : env) (s : state) (sn : string) (v : bool) (raw : string) (rest : list string) :
  Py.truthy sn = true ->
  stdin s = raw :: rest ->
  wp (Ai.action_screenrecord (mkCtx (Some sn) false v)) e s
     (fun _ s' =>
        exists later,
          execs (trace s')
          = execs (trace s)
            +++ EvExec ["adb"; "-s"; sn; "shell"; "screenrecord"; "--time-limit";
                        Py.str_of_Z (Ai.screenrecord_duration (Py.strip raw));
                        "/sdcard/workbench-record-"
                        ++ stamp (clock e (clock_reads s)) ++ ".mp4"]
                       (Some (Ai.screenrecord_duration (Py.strip raw) + 30)%Z)
                :: later).
Proof.
  intros Hsn Hin.
  unfold Ai.action_screenrecord, Ai.require_serial, Common.adb_base.
  cbn [serial dry_run truthy_opt fmt_opt]. rewrite Hsn.
  prefix. apply wp_input. simp_state. rewrite Hin.
  sym;
    rewrite ?execs_snoc; cbn [is_exec]; rewrite ?app_nil_r, <- ?app_assoc;
    eexists; reflexivity.
Qed.

(** Under dry-run the same command is shown instead, right after the
    answer is read, and nothing is started. *)
Lemma screenrecord_shows_duration
    (e : env) (s : state) (sn : string) (v : bool) (raw : string) (rest : list string) :
  Py.truthy sn = true ->
  stdin s = raw :: rest ->
  wp (Ai.action_screenrecord (mkCtx (Some sn) true v)) e s
     (fun _ s' =>
        execs (trace s') = execs (trace s)
        /\ exists post,
             trace s'
             = trace s
               +++ [EvMkdir (Ai.MEDIA_DIR e);
                    EvInput "Duration seconds (max 180, default 15): " raw;
                    would_run
                      ["adb"; "-s"; sn; "shell"; "screenrecord"; "--time-limit";
                       Py.str_of_Z (Ai.screenrecord_duration (Py.strip raw));
                       "/sdcard/workbench-record-"
                       ++ stamp (clock e (clock_reads s)) ++ ".mp4"]]
               +++ post).
Proof.
  intros Hsn Hin.
  unfold Ai.action_screenrecord, Ai.require_serial, Common.adb_base.
  cbn [serial dry_run truthy_opt fmt_opt]. rewrite Hsn.
  prefix. apply wp_input. simp_state. rewrite Hin.
  prefix. apply wp_pause. simp_state.
  destruct rest as [|enter rest'];
    (split;
     [ simp_state; rewrite ?execs_snoc; cbn [is_exec]; now rewrite ?app_nil_r
     | simp_state; eexists [_; _]; rewrite <- !app_assoc; reflexivity ]).
Qed.

(** C7.  Whatever the operator answers to the duration prompt of
    [action_screenrecord], the duration the handler uses lies in
    [1, 180]: it is [n] clamped into that range when the stripped answer
    reads as an integer [n], and 15 when it does not (the empty answer
    included).  That number is the one the handler uses: on a bound
    device it is the time limit of the recording command, the first child
    process started, which is allowed thirty seconds more; and under
    dry-run it is the time limit of the command shown, nothing being
    started. *)
Theorem screenrecord_duration_clamped :
  forall (e : env) (s : state) (sn : string) (v : bool) (raw : string) (rest : list string),
    Py.truthy sn = true ->
    stdin s = raw :: rest ->
    let d := Ai.screenrecord_duration (Py.strip raw) in
    let rec_cmd :=
      ["adb"; "-s"; sn; "shell"; "screenrecord"; "--time-limit"; Py.str_of_Z d;
       "/sdcard/workbench-record-" ++ stamp (clock e (clock_reads s)) ++ ".mp4"] in
    (1 <= d <= 180)%Z
    /\ (forall n, Py.int (Py.strip raw) = Some n -> d = clamp 1 180 n)
    /\ (Py.int (Py.strip raw) = None -> d = 15%Z)
    /\ wp (Ai.action_screenrecord (mkCtx (Some sn) false v)) e s
          (fun _ s' =>
             exists later,
               execs (trace s')
               = execs (trace s) +++ EvExec rec_cmd (Some (d + 30)%Z) :: later)
    /\ wp (Ai.action_screenrecord (mkCtx (Some sn) true v)) e s
          (fun _ s' =>
             execs (trace s') = execs (trace s)
             /\ exists post,
                  trace s'
                  = trace s
                    +++ [EvMkdir (Ai.MEDIA_DIR e);
                         EvInput "Duration seconds (max 180, default 15): " raw;
                         would_run rec_cmd]
                    +++ post).
Proof.
  intros e s sn v raw rest Hsn Hin d rec_cmd. subst d rec_cmd.
  destruct (screenrecord_duration_range raw) as [Hrange [Hnum Hdefault]].
  split; [exact Hrange|]. split; [exact Hnum|]. split; [exact Hdefault|].
  split.
  - eapply screenrecord_runs_for_duration; eauto.
  - eapply screenrecord_shows_duration; eauto.
Qed.

(** An answer above the range: the recording is limited to 180 seconds
    and allowed 210. *)
Lemma screenrecord_duration_clamped_witness :
  Py.int (Py.strip " 300 ") = Some 300%Z
  /\ Ai.screenrecord_duration (Py.strip " 300 ") = 180%Z
  /\ exists later,
       execs (trace (snd (Ai.action_screenrecord (bound false) silent_env
                            (state_of (bound false) [" 300 "; ""]))))
       = EvExec ["adb"; "-s"; "ABC123"; "shell"; "screenrecord"; "--time-limit"; "180";
                 "/sdcard/workbench-record-20240102-030405.mp4"] (Some 210%Z)
         :: later.
Proof.
  split; [reflexivity|].
  split.
  - exact (proj1 (proj2 (@screenrecord_duration_clamped
                           silent_env (state_of (bound false) [" 300 "; ""])
                           "ABC123" true " 300 " [""] eq_refl eq_refl))
             300%Z eq_refl).
  - exact (proj1 (proj2 (proj2 (proj2 (@screenrecord_duration_clamped
                           silent_env (state_of (bound false) [" 300 "; ""])
                           "ABC123" true " 300 " [""] eq_refl eq_refl))))).
Defined.

(** ** C10: an empty answer to a free-text prompt *)

Section EmptyAnswer.

(** The facts asked of the final state, once it is explicit. *)
Ltac at_once :=
  cbn [log trace ctx stdin];
  repeat split;
  [ rewrite ?execs_snoc; cbn [is_exec]; now rewrite ?app_nil_r
  | rewrite ?writes_snoc; cbn [is_write]; now rewrite ?app_nil_r
  | eexists; eexists; reflexivity ].

Variables (e : env) (c : Ctx) (raw : string).
Hypothesis Hraw : Py.strip raw = "".

Lemma install_empty s rest :
  stdin s = raw :: rest -> returns_at_once (Ai.action_install_apk c) e s raw.
Proof.
  intros Hin. unfold returns_at_once, Ai.action_install_apk, Ai.require_serial.
  destruct (truthy_opt (serial c)).
  - prefix. apply wp_input. rewrite Hin. prefix.
    rewrite Hraw. cbn [Py.truthy negb]. prefix. at_once.
  - prefix. apply wp_pause. cbn [stdin log]. rewrite Hin. prefix. at_once.
Qed.

Lemma clear_empty s rest :
  stdin s = raw :: rest -> returns_at_once (Ai.action_clear_app_data c) e s raw.
Proof.
  intros Hin. unfold returns_at_once, Ai.action_clear_app_data, Ai.require_serial.
  destruct (truthy_opt (serial c)).
  - prefix. apply wp_input. rewrite Hin. prefix.
    rewrite Hraw. cbn [Py.truthy negb]. prefix. at_once.
  - prefix. apply wp_pause. cbn [stdin log]. rewrite Hin. prefix. at_once.
Qed.

Lemma open_url_empty s rest :
  stdin s = raw :: rest -> returns_at_once (Ai.action_open_url c) e s raw.
Proof.
  intros Hin. unfold returns_at_once, Ai.action_open_url, Ai.require_serial.
  destruct (truthy_opt (serial c)).
  - prefix. apply wp_input. rewrite Hin. prefix.
    rewrite Hraw. cbn [Py.truthy negb]. prefix. at_once.
  - prefix. apply wp_pause. cbn [stdin log]. rewrite Hin. prefix. at_once.
Qed.

Ltac pick_token Hpick :=
  rewrite Hpick; cbn [String.eqb Ascii.eqb Bool.eqb andb negb].

Hypothesis Hdev : truthy_opt (serial c) = true.

Lemma ai_logcat_empty s pick rest :
  stdin s = pick :: raw :: rest ->
  Py.lower (Py.strip pick) = "l5" \/ Py.lower (Py.strip pick) = "l6" ->
  returns_at_once (Ai.action_logcat_lab c) e s raw.
Proof.
  intros Hin Hpick.
  unfold returns_at_once, Ai.action_logcat_lab, Ai.logcat_branch, Ai.logcat_finish.
  rewrite Hdev. cbn [negb]. prefix. apply wp_input. cbn [stdin log]. rewrite Hin.
  destruct Hpick as [Hpick|Hpick]; pick_token Hpick;
    prefix; apply wp_input; cbn [stdin]; rewrite Hraw; cbn [Py.truthy negb];
    prefix; at_once.
Qed.

Lemma v12_logcat_empty s pick rest :
  stdin s = pick :: raw :: rest ->
  Py.lower (Py.strip pick) = "5" \/ Py.lower (Py.strip pick) = "6" ->
  returns_at_once (V12.action_logcat_lab c) e s raw.
Proof.
  intros Hin Hpick.
  unfold returns_at_once, V12.action_logcat_lab, V12.logcat_branch, V12.logcat_finish.
  rewrite Hdev. cbn [negb]. prefix. apply wp_input. cbn [stdin log]. rewrite Hin.
  destruct Hpick as [Hpick|Hpick]; pick_token Hpick;
    prefix; apply wp_input; cbn [stdin]; rewrite Hraw; cbn [Py.truthy negb];
    prefix; at_once.
Qed.

Lemma v01_logcat_empty s pick rest :
  stdin s = pick :: raw :: rest ->
  Py.lower (Py.strip pick) = "5" \/ Py.lower (Py.strip pick) = "6" ->
  returns_at_once (V01.action_logcat_lab c) e s raw.
Proof.
  intros Hin Hpick.
  unfold returns_at_once, V01.action_logcat_lab, V01.logcat_command.
  rewrite Hdev. cbn [negb]. prefix. apply wp_input. cbn [stdin log]. rewrite Hin.
  destruct Hpick as [Hpick|Hpick]; pick_token Hpick;
    prefix; apply wp_input; cbn [stdin]; rewrite Hraw; cbn [Py.truthy negb];
    prefix; at_once.
Qed.

End EmptyAnswer.

(** C10.  When the answer to a free-text prompt is empty once stripped,
    the handler returns normally right after reading it, having started no
    child process and written no file: the APK path, the package name and
    the URL in [Ai], and the tag and the pattern of the log sub-modes in
    the three programs (where a device is bound, so that the prompt is
    reached). *)
Theorem empty_answer_returns_at_once :
  forall (e : env) (c : Ctx) (s : state) (raw : string),
    Py.strip raw = "" ->
    (forall rest, stdin s = raw :: rest ->
       returns_at_once (Ai.action_install_apk c) e s raw
       /\ returns_at_once (Ai.action_clear_app_data c) e s raw
       /\ returns_at_once (Ai.action_open_url c) e s raw)
    /\ (forall pick rest,
          truthy_opt (serial c) = true ->
          stdin s = pick :: raw :: rest ->
          (Py.lower (Py.strip pick) = "l5" \/ Py.lower (Py.strip pick) = "l6" ->
           returns_at_once (Ai.action_logcat_lab c) e s raw)
          /\ (Py.lower (Py.strip pick) = "5" \/ Py.lower (Py.strip pick) = "6" ->
              returns_at_once (V12.action_logcat_lab c) e s raw
              /\ returns_at_once (V01.action_logcat_lab c) e s raw)).
Proof.
  intros e c s raw Hraw. split.
  - intros rest Hin. split; [|split].
    + eapply install_empty; eauto.
    + eapply clear_empty; eauto.
    + eapply open_url_empty; eauto.
  - intros pick rest Hdev Hin. split.
    + intros Hp. eapply ai_logcat_empty; eauto.
    + intros Hp. split.
      * eapply v12_logcat_empty; eauto.
      * eapply v01_logcat_empty; eauto.
Qed.

(** A blank URL on a bound device. *)
Lemma empty_answer_returns_at_once_witness :
  returns_at_once (Ai.action_open_url (bound false))
    (env_with all_hang) (state_of (bound false) ["  "]) "  ".
Proof.
  exact (proj2 (proj2 (proj1
           (empty_answer_returns_at_once
              (env_with all_hang) (bound false) (state_of (bound false) ["  "])
              "  " eq_refl) [] eq_refl))).
Defined.

(** ** C5: the device selector *)

Section Selector.

Variables (indent : string) (e : env).

(** Showing the list only prints. *)
Lemma print_loop (f : nat -> string -> string) (xs : list string) :
  forall (i0 : nat) (s : state),
  exists evs,
    for_enumerate i0 xs (fun i x => print [f i x]) e s
    = (Ok tt, mkState (ctx s) (stdin s) (clock_reads s) (trace s +++ evs))
    /\ forallb quiet_event evs = true.
Proof.
  induction xs as [|x xs IH]; intros i0 s; cbn [for_enumerate].
  - exists []. destruct s; cbn. now rewrite app_nil_r.
  - unfold bind at 1. cbn [print emit log].
    destruct (IH (S i0) (log (EvPrint (Py.join " " [f i0 x] ++ LF)) s))
      as [evs [-> Hq]].
    exists (EvPrint (Py.join " " [f i0 x] ++ LF) :: evs).
    cbn [log ctx stdin clock_reads trace]. rewrite <- app_assoc. now split.
Qed.

Lemma pick_none (s : state) : Common.pick_among indent [] e s = (Ok None, s).
Proof. reflexivity. Qed.

Lemma pick_single (s : state) (x : string) :
  Common.pick_among indent [x] e s = (Ok (Some x), s).
Proof. reflexivity. Qed.

(** With several devices the list is shown, one line is read, and the
    result depends on that line alone. *)
Lemma pick_many (s : state) (serials : list string) (raw : string) (rest : list string) :
  2 <= List.length serials ->
  stdin s = raw :: rest ->
  fst (Common.pick_among indent serials e s)
  = if negb (Py.isdigit (Py.strip raw)) then Ok None
    else match Py.int (Py.strip raw) with
         | None => Raise ValueError
         | Some idx =>
             if ((1 <=? idx) && (idx <=? Z.of_nat (List.length serials)))%Z
             then Ok (nth_error serials (Z.to_nat (idx - 1)))
             else Ok None
         end.
Proof.
  intros Hlen Hin.
  unfold Common.pick_among.
  destruct serials as [|a [|b l]]; cbn [List.length] in Hlen; try lia.
  cbn [Nat.eqb List.length].
  unfold bind at 1. cbn [print emit fst snd].
  unfold bind at 1.
  destruct (print_loop (fun i x => indent ++ Py.str_of_nat i ++ ") " ++ x)
              (a :: b :: l) 1
              (log (EvPrint (Py.join " " ["Multiple ADB devices detected:"] ++ LF)) s))
    as [evs [-> _]].
  unfold bind at 1, input. cbn [stdin log]. rewrite Hin.
  destruct (Py.isdigit (Py.strip raw)); cbn [negb]; [|reflexivity].
  destruct (Py.int (Py.strip raw)) as [idx|]; [|reflexivity].
  destruct ((1 <=? idx) && (idx <=? Z.of_nat (S (S (List.length l)))))%Z; reflexivity.
Qed.

End Selector.

Section Numerals.

Lemma decimal_char_plain (c : ascii) :
  Py.isdecimal_char c = true ->
  Py.isspace c = false
  /\ (Py.ord c =? 45)%nat = false /\ (Py.ord c =? 43)%nat = false
  /\ (Py.ord c =? 95)%nat = false.
Proof.
  destruct c as [[] [] [] [] [] [] [] []]; intros H;
    solve [discriminate H | repeat split; reflexivity].
Qed.

Lemma rstrip_no_space (s : string) :
  Py.all_chars Py.isdecimal_char s = true -> Py.rstrip s = s.
Proof.
  induction s as [|c r IH]; [reflexivity|].
  cbn [Py.all_chars Py.rstrip]. intros H. apply andb_prop in H. destruct H as [Hc Hr].
  destruct (decimal_char_plain _ Hc) as [-> _]. cbn [andb]. now rewrite IH.
Qed.

Lemma strip_no_space (s : string) :
  Py.all_chars Py.isdecimal_char s = true -> Py.strip s = s.
Proof.
  intros H. unfold Py.strip. rewrite (rstrip_no_space _ H).
  destruct s as [|c r]; [reflexivity|].
  cbn [Py.all_chars] in H. apply andb_prop in H. destruct H as [Hc _].
  cbn [Py.lstrip]. now destruct (decimal_char_plain _ Hc) as [-> _].
Qed.

Lemma int_digits_decimal (s : string) :
  Py.all_chars Py.isdecimal_char s = true ->
  forall (st : Py.lit_state) (acc : Z),
    (0 <= acc)%Z ->
    s <> EmptyString \/ st = Py.AfterDigit ->
    exists k, Py.int_digits st acc s = Some k /\ (0 <= k)%Z.
Proof.
  induction s as [|c r IH]; intros H st acc Hacc Hst.
  - destruct Hst as [Hs| ->]; [congruence|]. now exists acc.
  - cbn [Py.all_chars] in H. apply andb_prop in H. destruct H as [Hc Hr].
    cbn [Py.int_digits]. rewrite Hc.
    apply (IH Hr); [|now right].
    unfold Py.digit_value. lia.
Qed.

Lemma digit_count_decimals (s : string) :
  Py.all_chars Py.isdecimal_char s = true ->
  Py.digit_count s = N.of_nat (String.length s).
Proof.
  induction s as [|c r IH]; [reflexivity|].
  cbn [Py.all_chars]. intros H. apply andb_prop in H. destruct H as [Hc Hr].
  cbn [Py.digit_count String.length]. rewrite Hc, (IH Hr). lia.
Qed.

(** A text of decimal digits is a literal without sign. *)
Lemma int_literal_of_decimals (s : string) :
  s <> EmptyString ->
  Py.all_chars Py.isdecimal_char s = true ->
  Py.int s = Py.int_literal s.
Proof.
  intros Hs H. unfold Py.int. rewrite (strip_no_space _ H).
  destruct s as [|c r]; [congruence|].
  cbn [Py.all_chars] in H. apply andb_prop in H. destruct H as [Hc _].
  now destruct (decimal_char_plain _ Hc) as [_ [-> [-> _]]].
Qed.

(** Up to the limit on the number of digits, a text of decimal digits
    reads as a natural number. *)
Lemma int_of_decimals (s : string) :
  s <> EmptyString ->
  Py.all_chars Py.isdecimal_char s = true ->
  String.length s <= 4300 ->
  exists k, Py.int s = Some k /\ (0 <= k)%Z.
Proof.
  intros Hs H Hlen. rewrite (int_literal_of_decimals Hs H).
  unfold Py.int_literal, Py.max_str_digits. rewrite (digit_count_decimals _ H).
  replace (4300 <? N.of_nat (String.length s))%N with false
    by (symmetry; apply N.ltb_ge; lia).
  apply int_digits_decimal; [exact H | lia | now left].
Qed.

(** Beyond the limit it does not read at all. *)
Lemma int_of_long_decimals (s : string) :
  Py.all_chars Py.isdecimal_char s = true ->
  4300 < String.length s ->
  Py.int s = None.
Proof.
  intros H Hlen.
  assert (Hs : s <> EmptyString) by (intros ->; cbn in Hlen; lia).
  rewrite (int_literal_of_decimals Hs H).
  unfold Py.int_literal, Py.max_str_digits. rewrite (digit_count_decimals _ H).
  replace (4300 <? N.of_nat (String.length s))%N with true
    by (symmetry; apply N.ltb_lt; lia).
  reflexivity.
Qed.

End Numerals.

(** What the selector does as specified: nothing to choose from, a
    single device, and, among several, an answer that is not made of
    digits, or that is a numeral inside or outside the range. *)
Lemma pick_among_as_specified :
  forall (indent : string) (e : env) (s : state),
    Common.pick_among indent [] e s = (Ok None, s)
    /\ (forall x, Common.pick_among indent [x] e s = (Ok (Some x), s))
    /\ (forall serials raw rest,
          2 <= List.length serials ->
          stdin s = raw :: rest ->
          (Py.isdigit (Py.strip raw) = false ->
           fst (Common.pick_among indent serials e s) = Ok None)
          /\ (forall k,
                Py.isdigit (Py.strip raw) = true ->
                Py.int (Py.strip raw) = Some k ->
                (1 <= k <= Z.of_nat (List.length serials))%Z ->
                exists x, nth_error serials (Z.to_nat (k - 1)) = Some x
                          /\ fst (Common.pick_among indent serials e s) = Ok (Some x))
          /\ (forall k,
                Py.isdigit (Py.strip raw) = true ->
                Py.int (Py.strip raw) = Some k ->
                ~ (1 <= k <= Z.of_nat (List.length serials))%Z ->
                fst (Common.pick_among indent serials e s) = Ok None)
          /\ (Py.isdigit (Py.strip raw) = true ->
              Py.int (Py.strip raw) = None ->
              fst (Common.pick_among indent serials e s) = Raise ValueError)).
Proof.
  intros indent e s. split; [reflexivity|]. split; [reflexivity|].
  intros serials raw rest Hlen Hin.
  rewrite (pick_many indent e s serials Hlen Hin).
  split; [intros ->; reflexivity|]. split; [|split].
  - intros k -> -> Hk.
    destruct (nth_error serials (Z.to_nat (k - 1))) as [x|] eqn:Hx.
    + exists x. split; [reflexivity|]. cbn [negb].
      replace ((1 <=? k) && (k <=? Z.of_nat (List.length serials)))%Z with true
        by (symmetry; apply andb_true_intro; split; apply Z.leb_le; lia).
      reflexivity.
    + apply nth_error_None in Hx. lia.
  - intros k -> -> Hk. cbn [negb].
    destruct ((1 <=? k) && (k <=? Z.of_nat (List.length serials)))%Z eqn:Hb;
      [|reflexivity].
    apply andb_prop in Hb. destruct Hb as [H1 H2].
    apply Z.leb_le in H1, H2. lia.
  - intros -> ->. reflexivity.
Qed.

Lemma bind_raise {A B} (m : M A) (k : A -> M B) (e : env) (s : state) (x : exn) :
  fst (m e s) = Raise x -> fst (bind m k e s) = Raise x.
Proof. unfold bind. destruct (m e s) as [[a|y] s1]; cbn [fst]; congruence. Qed.

Section SelectorDefect.

Variables (e : env) (s : state) (cp : CompletedProcess).
Variables (raw : string) (rest : list string).
Hypothesis Hproc :
  proc e (List.length (execs (trace s))) ["adb"; "devices"; "-l"] = Exited cp.
Hypothesis Hrc : returncode cp = 0%Z.
Hypothesis Hin : stdin s = raw :: rest.
Hypothesis Hdigit : Py.isdigit (Py.strip raw) = true.
Hypothesis Hint : Py.int (Py.strip raw) = None.

Lemma pick_after_listing (indent : string) (parse : string -> list string) :
  2 <= List.length (parse (stdout cp)) ->
  fst (bind (Common.run ["adb"; "devices"; "-l"] true 10)
            (fun out => Common.pick_among indent (parse out)) e s)
  = Raise ValueError.
Proof.
  intros Hlen.
  unfold bind at 1, Common.run, Common.run_capture, subprocess_run, bind, ret.
  cbv zeta. rewrite Hproc, Hrc. cbn [andb negb Z.eqb].
  rewrite (pick_many indent e (log (EvExec ["adb"; "devices"; "-l"] (Some 10%Z)) s)
             (parse (stdout cp)) Hlen Hin).
  now rewrite Hdigit, Hint.
Qed.

End SelectorDefect.

(** C5, where the code departs from it.  When the device list shows
    several ready devices and the answer to the prompt passes [isdigit]
    without being a numeral for [int] (a superscript digit), the selector
    of each program ends in [ValueError] instead of returning no
    selection. *)
Theorem pick_adb_serial_digit_not_numeral :
  forall (e : env) (s : state) (cp : CompletedProcess) (raw : string) (rest : list string),
    proc e (List.length (execs (trace s))) ["adb"; "devices"; "-l"] = Exited cp ->
    returncode cp = 0%Z ->
    2 <= List.length (Ai.parse_adb_devices (stdout cp)) ->
    stdin s = raw :: rest ->
    Py.isdigit (Py.strip raw) = true ->
    Py.int (Py.strip raw) = None ->
    fst (Ai.pick_adb_serial e s) = Raise ValueError
    /\ fst (V12.pick_adb_serial e s) = Raise ValueError
    /\ fst (V01.pick_adb_serial e s) = Raise ValueError.
Proof.
  intros e s cp raw rest Hproc Hrc Hlen Hin Hdigit Hint.
  destruct (parsers_agree (stdout cp)) as [H01 H12].
  split; [|split].
  - eapply pick_after_listing; eauto.
  - eapply pick_after_listing; eauto. now rewrite H12.
  - eapply pick_after_listing; eauto. now rewrite H01.
Qed.

(** Two ready devices, and the answer is a superscript two. *)
Lemma pick_adb_serial_digit_not_numeral_witness :
  fst (Ai.pick_adb_serial selector_case_env selector_case_state) = Raise ValueError.
Proof.
  exact (proj1 (@pick_adb_serial_digit_not_numeral
                  selector_case_env selector_case_state (mkCP 0 two_devices "")
                  superscript_two [] eq_refl eq_refl (le_n 2) eq_refl eq_refl eq_refl)).
Defined.

(** The same run seen from [menu]: the error is raised before the loop
    is entered and nothing is there to catch it. *)
Example menu_superscript_digit :
  Ai.parse_adb_devices two_devices = ["ABC123"; "XYZ789"]
  /\ Py.isdigit (Py.strip superscript_two) = true
  /\ Py.int (Py.strip superscript_two) = None
  /\ fst (Ai.menu None 3 selector_case_env selector_case_state) = Raise ValueError
  /\ fst (V12.menu None 3 selector_case_env selector_case_state) = Raise ValueError
  /\ fst (V01.menu None 3 selector_case_env selector_case_state) = Raise ValueError.
Proof. vm_compute. repeat split; reflexivity. Qed.

(** ** C1: dry-run *)

Section DryRun.

(** In [android_workbench.py] the log handler tests the flag before it
    runs anything. *)
Lemma v01_logcat_dry_quiet (sn : option string) (v : bool) :
  respects quiet_event (V01.action_logcat_lab (mkCtx sn true v)).
Proof. unfold V01.action_logcat_lab, V01.logcat_command. respects_go. Qed.

(** X29.  So do these handlers of [android_workbench_ai.py]: with the
    flag set, whatever the device and whatever is typed, each of the
    seven starts no child process and writes no file, and leaves the
    session context as it is. *)
Lemma ai_dry_quiet (sn : option string) (v : bool) :
  let c := mkCtx sn true v in
  respects quiet_event (Ai.action_install_apk c)
  /\ respects quiet_event (Ai.action_clear_app_data c)
  /\ respects quiet_event (Ai.action_open_url c)
  /\ respects quiet_event (Ai.action_screenshot c)
  /\ respects quiet_event (Ai.action_screenrecord c)
  /\ respects quiet_event (Ai.action_fastboot_getvar_all c)
  /\ respects quiet_event (Ai.action_fastboot_reboot_menu c).
Proof.
  cbv zeta.
  unfold Ai.action_install_apk, Ai.action_clear_app_data, Ai.action_open_url,
    Ai.action_screenshot, Ai.action_screenrecord, Ai.action_fastboot_getvar_all,
    Ai.action_fastboot_reboot_menu, Ai.require_serial.
  repeat match goal with |- _ /\ _ => split end; respects_go.
Qed.

End DryRun.

Section DryRunLogcat.

Lemma dump_args_cases (n : string) (args : list string) :
  dump_args n = Some args ->
  (n = "1" /\ args = ["logcat"; "-b"; "all"; "-d"; "-t"; "200"; "-v"; "time"])
  \/ (n = "3" /\ args = ["logcat"; "-v"; "time"; "AndroidRuntime:E"; "*:S"])
  \/ (n = "4" /\ args = ["logcat"; "-b"; "all"; "-d"; "-v"; "time"])
  \/ (n = "7" /\ args = ["logcat"; "-b"; "all"; "-d"; "-v"; "time"]).
Proof.
  unfold dump_args.
  destruct (n =? "1") eqn:H1; [apply String.eqb_eq in H1; intros [= <-]; auto|].
  destruct (n =? "3") eqn:H3; [apply String.eqb_eq in H3; intros [= <-]; auto|].
  destruct (n =? "4") eqn:H4; [apply String.eqb_eq in H4; intros [= <-]; auto 6|].
  destruct (n =? "7") eqn:H7; [apply String.eqb_eq in H7; intros [= <-]; auto 6|].
  discriminate.
Qed.

Ltac execs_done :=
  cbn [log trace]; rewrite ?execs_snoc; cbn [is_exec];
  rewrite ?app_nil_r; reflexivity.

Variables (e : env) (s : state) (sn : string) (v : bool).
Variables (pick : string) (rest : list string).
Hypothesis Hsn : Py.truthy sn = true.
Hypothesis Hin : stdin s = pick :: rest.

Lemma ai_dry_dump (n : string) (args : list string) :
  dump_args n = Some args ->
  Py.lower (Py.strip pick) = "l" ++ n ->
  wp (Ai.action_logcat_lab (mkCtx (Some sn) true v)) e s
     (fun _ s' =>
        execs (trace s')
        = execs (trace s) +++ [EvExec (["adb"; "-s"; sn] +++ args) (Some 60%Z)]).
Proof.
  intros Hn Hpick.
  unfold Ai.action_logcat_lab, Ai.logcat_branch, Ai.logcat_finish, Common.adb_base.
  cbn [serial dry_run truthy_opt fmt_opt]. rewrite Hsn. cbn [negb].
  prefix. apply wp_input. cbn [stdin log]. rewrite Hin, Hpick.
  destruct (dump_args_cases _ Hn) as [[-> ->]|[[-> ->]|[[-> ->]|[-> ->]]]];
    cbn [String.append String.eqb Ascii.eqb Bool.eqb andb negb];
    sym; execs_done.
Qed.

Lemma v12_dry_dump (n : string) (args : list string) :
  dump_args n = Some args ->
  Py.lower (Py.strip pick) = n ->
  wp (V12.action_logcat_lab (mkCtx (Some sn) true v)) e s
     (fun _ s' =>
        execs (trace s')
        = execs (trace s) +++ [EvExec (["adb"; "-s"; sn] +++ args) (Some 60%Z)]).
Proof.
  intros Hn Hpick.
  unfold V12.action_logcat_lab, V12.logcat_branch, V12.logcat_finish, Common.adb_base.
  cbn [serial dry_run truthy_opt fmt_opt]. rewrite Hsn. cbn [negb].
  prefix. apply wp_input. cbn [stdin log]. rewrite Hin, Hpick.
  destruct (dump_args_cases _ Hn) as [[-> ->]|[[-> ->]|[[-> ->]|[-> ->]]]];
    cbn [String.append String.eqb Ascii.eqb Bool.eqb andb negb];
    sym; execs_done.
Qed.

Variable answer_line : string.
Variable rest' : list string.
Hypothesis Hin2 : rest = answer_line :: rest'.

Lemma prompted_cmd_cases (n : string) (cmd : list string) (t : Z) :
  prompted_cmd sn answer_line n = Some (cmd, t) ->
  (n = "5" /\ Py.truthy (Py.strip answer_line) = true
   /\ cmd = ["adb"; "-s"; sn; "logcat"; "-b"; "all"; "-d"; "-v"; "time";
             Py.strip answer_line ++ ":V"; "*:S"] /\ t = 60%Z)
  \/ (n = "6" /\ Py.truthy (Py.strip answer_line) = true
      /\ cmd = dump_cmd sn /\ t = 60%Z)
  \/ (n = "8" /\ (Py.strip answer_line =? "YES") = true
      /\ cmd = ["adb"; "-s"; sn; "logcat"; "-b"; "all"; "-c"] /\ t = 30%Z).
Proof.
  unfold prompted_cmd.
  destruct (n =? "5") eqn:H5.
  { apply String.eqb_eq in H5.
    destruct (Py.truthy (Py.strip answer_line)); [|discriminate].
    intros [= <- <-]. auto. }
  destruct (n =? "6") eqn:H6.
  { apply String.eqb_eq in H6.
    destruct (Py.truthy (Py.strip answer_line)); [|discriminate].
    intros [= <- <-]. auto 6. }
  destruct (n =? "8") eqn:H8; [|discriminate].
  apply String.eqb_eq in H8.
  destruct (Py.strip answer_line =? "YES"); [|discriminate].
  intros [= <- <-]. auto 6.
Qed.

Lemma ai_dry_prompted (n : string) (cmd : list string) (t : Z) :
  prompted_cmd sn answer_line n = Some (cmd, t) ->
  Py.lower (Py.strip pick) = "l" ++ n ->
  wp (Ai.action_logcat_lab (mkCtx (Some sn) true v)) e s
     (fun _ s' => execs (trace s') = execs (trace s) +++ [EvExec cmd (Some t)]).
Proof.
  intros Hn Hpick.
  unfold Ai.action_logcat_lab, Ai.logcat_branch, Ai.logcat_finish, Common.adb_base.
  cbn [serial dry_run truthy_opt fmt_opt]. rewrite Hsn. cbn [negb].
  prefix. apply wp_input. cbn [stdin log]. rewrite Hin, Hin2, Hpick.
  destruct (prompted_cmd_cases _ Hn) as [[-> [Ha [-> ->]]]|[[-> [Ha [-> ->]]]|[-> [Ha [-> ->]]]]];
    cbn [String.append String.eqb Ascii.eqb Bool.eqb andb negb];
    prefix; apply wp_input; cbn [stdin]; rewrite Ha; cbn [negb];
    unfold dump_cmd; sym; execs_done.
Qed.

Lemma v12_dry_prompted (n : string) (cmd : list string) (t : Z) :
  prompted_cmd sn answer_line n = Some (cmd, t) ->
  Py.lower (Py.strip pick) = n ->
  wp (V12.action_logcat_lab (mkCtx (Some sn) true v)) e s
     (fun _ s' => execs (trace s') = execs (trace s) +++ [EvExec cmd (Some t)]).
Proof.
  intros Hn Hpick.
  unfold V12.action_logcat_lab, V12.logcat_branch, V12.logcat_finish, Common.adb_base.
  cbn [serial dry_run truthy_opt fmt_opt]. rewrite Hsn. cbn [negb].
  prefix. apply wp_input. cbn [stdin log]. rewrite Hin, Hin2, Hpick.
  destruct (prompted_cmd_cases _ Hn) as [[-> [Ha [-> ->]]]|[[-> [Ha [-> ->]]]|[-> [Ha [-> ->]]]]];
    cbn [String.append String.eqb Ascii.eqb Bool.eqb andb negb];
    prefix; apply wp_input; cbn [stdin]; rewrite Ha; cbn [negb];
    unfold dump_cmd; sym; execs_done.
Qed.

End DryRunLogcat.

(** C1, where the code departs from it.  With a device bound and the
    dry-run flag set, choosing the dump, crashes-only, SELinux or
    save-to-file sub-mode of the log handler of [android_workbench_ai.py]
    or [android-workbench-v1.2.py] starts the adb child process all the
    same: the flag is tested after the command has run.  The handler of
    [android_workbench.py] starts nothing in that state. *)
Theorem dry_run_log_dump_starts_adb :
  forall (e : env) (s : state) (sn : string) (v : bool)
         (n pick : string) (rest : list string) (args : list string),
    Py.truthy sn = true ->
    dump_args n = Some args ->
    stdin s = pick :: rest ->
    let c := mkCtx (Some sn) true v in
    let started := [EvExec (["adb"; "-s"; sn] +++ args) (Some 60%Z)] in
    (Py.lower (Py.strip pick) = "l" ++ n ->
     execs (trace (snd (Ai.action_logcat_lab c e s))) = execs (trace s) +++ started)
    /\ (Py.lower (Py.strip pick) = n ->
        execs (trace (snd (V12.action_logcat_lab c e s))) = execs (trace s) +++ started)
    /\ execs (trace (snd (V01.action_logcat_lab c e s))) = execs (trace s).
Proof.
  intros e s sn v n pick rest args Hsn Hn Hin c started. split; [|split].
  - intros Hp. eapply ai_dry_dump; eauto.
  - intros Hp. eapply v12_dry_dump; eauto.
  - apply (keeps_quiet (v01_logcat_dry_quiet (Some sn) v e s)).
Qed.

(** The dump sub-mode under dry-run, on a device that answers. *)
Lemma dry_run_log_dump_starts_adb_witness :
  execs (trace (snd (Ai.action_logcat_lab (bound true)
                       (env_with (all_exit 0 "log" ""))
                       (state_of (bound true) ["l1"; ""]))))
  = [EvExec ["adb"; "-s"; "ABC123"; "logcat"; "-b"; "all"; "-d"; "-t"; "200"; "-v"; "time"]
            (Some 60%Z)].
Proof.
  exact (proj1 (@dry_run_log_dump_starts_adb
                  (env_with (all_exit 0 "log" "")) (state_of (bound true) ["l1"; ""])
                  "ABC123" true "1" "l1" [""]
                  ["logcat"; "-b"; "all"; "-d"; "-t"; "200"; "-v"; "time"]
                  eq_refl eq_refl eq_refl) eq_refl).
Defined.

(** ** C2: a pattern that does not compile *)

Section BadRegex.

Variables (e : env) (s : state) (sn : string) (dry v : bool).
Variables (pick raw enter : string) (rest : list string) (msg : string).
Hypothesis Hsn : Py.truthy sn = true.
Hypothesis Hin : stdin s = pick :: raw :: enter :: rest.
Hypothesis Hraw : Py.truthy (Py.strip raw) = true.
Hypothesis Hbad : re_compile e (Py.strip raw) = inl msg.

Ltac post_done :=
  unfold bad_regex_post; simp_state;
  split; [rewrite ?writes_snoc; cbn [is_write]; now rewrite ?app_nil_r|];
  split; [rewrite ?execs_snoc; cbn [is_exec]; now rewrite ?app_nil_r|];
  intros cp';
  match goal with
  | Hp : proc _ _ _ = _ |- _ => rewrite Hp
  end;
  intros Hcp' Hrc';
  first [ discriminate Hcp' | injection Hcp' as <- ];
  try match goal with
      | H : negb (returncode _ =? 0)%Z = true |- _ =>
          rewrite Hrc' in H; discriminate H
      end.

Ltac regex_mode Hpick :=
  unfold Common.adb_base;
  cbn [serial dry_run truthy_opt fmt_opt]; rewrite Hsn; cbn [negb];
  prefix; apply wp_input; simp_state; rewrite Hin, Hpick;
  cbn [String.eqb Ascii.eqb Bool.eqb andb negb];
  prefix; apply wp_input; simp_state; rewrite Hraw; cbn [negb];
  prefix; apply wp_run; cbv zeta; simp_state;
  rewrite !execs_snoc; cbn [is_exec]; rewrite !app_nil_r;
  fold (dump_cmd sn);
  destruct (proc e (List.length (execs (trace s))) (dump_cmd sn)) as [cp|] eqn:Hp;
  [ cbn [andb]; destruct (negb (returncode cp =? 0)%Z) eqn:Hrc;
    [ post_done
    | prefix; rewrite Hbad; prefix; apply wp_pause; simp_state; prefix;
      post_done; split; [reflexivity|];
      rewrite <- !app_assoc; reflexivity ]
  | post_done ].

Lemma ai_bad_regex :
  Py.lower (Py.strip pick) = "l6" ->
  wp (Ai.action_logcat_lab (mkCtx (Some sn) dry v)) e s
     (bad_regex_post e s sn
        (Common.box Ai.logcat_menu (Common.NEON_PINK ++ "LOGCAT LAB" ++ Common.RESET))
        pick raw enter msg).
Proof.
  intros Hpick.
  unfold Ai.action_logcat_lab, Ai.logcat_branch, Ai.logcat_finish.
  regex_mode Hpick.
Qed.

Lemma v12_bad_regex :
  Py.lower (Py.strip pick) = "6" ->
  wp (V12.action_logcat_lab (mkCtx (Some sn) dry v)) e s
     (bad_regex_post e s sn
        (Common.box V12.logcat_menu (Common.NEON_PINK ++ "LOGCAT LAB" ++ Common.RESET))
        pick raw enter msg).
Proof.
  intros Hpick.
  unfold V12.action_logcat_lab, V12.logcat_branch, V12.logcat_finish.
  regex_mode Hpick.
Qed.

End BadRegex.

(** C2, as the code has it.  When the pattern given to the regex sub-mode
    of [android_workbench_ai.py] or [android-workbench-v1.2.py] does not
    compile, no file is written and the dump command is started exactly
    once, before the pattern is compiled; when that command succeeds, the
    bad pattern is reported right after it and the handler returns after
    the pause, printing nothing of the log. *)
Theorem bad_regex_reported_after_dump :
  forall (e : env) (s : state) (sn : string) (dry v : bool)
         (pick raw enter : string) (rest : list string) (msg : string),
    Py.truthy sn = true ->
    stdin s = pick :: raw :: enter :: rest ->
    Py.truthy (Py.strip raw) = true ->
    re_compile e (Py.strip raw) = inl msg ->
    (Py.lower (Py.strip pick) = "l6" ->
     wp (Ai.action_logcat_lab (mkCtx (Some sn) dry v)) e s
        (bad_regex_post e s sn
           (Common.box Ai.logcat_menu (Common.NEON_PINK ++ "LOGCAT LAB" ++ Common.RESET))
           pick raw enter msg))
    /\ (Py.lower (Py.strip pick) = "6" ->
        wp (V12.action_logcat_lab (mkCtx (Some sn) dry v)) e s
           (bad_regex_post e s sn
              (Common.box V12.logcat_menu (Common.NEON_PINK ++ "LOGCAT LAB" ++ Common.RESET))
              pick raw enter msg)).
Proof.
  intros e s sn dry v pick raw enter rest msg Hsn Hin Hraw Hbad. split; intros Hp.
  - eapply ai_bad_regex; eauto.
  - eapply v12_bad_regex; eauto.
Qed.

Lemma bad_regex_reported_after_dump_witness :
  wp (Ai.action_logcat_lab (bound false)) regex_case_env regex_case_state
     (bad_regex_post regex_case_env regex_case_state "ABC123"
        (Common.box Ai.logcat_menu (Common.NEON_PINK ++ "LOGCAT LAB" ++ Common.RESET))
        "l6" "(" "" "missing ), unterminated subpattern at position 0").
Proof.
  exact (proj1 (@bad_regex_reported_after_dump
                  regex_case_env regex_case_state "ABC123" false true
                  "l6" "(" "" [] "missing ), unterminated subpattern at position 0"
                  eq_refl eq_refl eq_refl eq_refl) eq_refl).
Defined.

(** C2 as stated fails: the pattern "(" does not compile, and yet the
    dump command has been started, before the report. *)
Lemma bad_regex_runs_dump_first :
  re_compile regex_case_env (Py.strip "(")
    = inl "missing ), unterminated subpattern at position 0"
  /\ execs (trace (snd (Ai.action_logcat_lab (bound false) regex_case_env regex_case_state)))
     = [EvExec (dump_cmd "ABC123") (Some 60%Z)]
  /\ exists before after,
       trace (snd (Ai.action_logcat_lab (bound false) regex_case_env regex_case_state))
       = before
         +++ EvExec (dump_cmd "ABC123") (Some 60%Z)
             :: EvPrint ((Common.NEON_RED
                          ++ "Bad regex: missing ), unterminated subpattern at position 0"
                          ++ Common.RESET) ++ LF)
             :: after.
Proof.
  split; [reflexivity|]. split; [vm_compute; reflexivity|].
  eexists [_; _; _; _], [_]. vm_compute. reflexivity.
Qed.

(** ** C6: the property report *)

Section Report.

Variables (e : env) (s : state) (sn : string) (dry v : bool).
Hypothesis Hsn : Py.truthy sn = true.
Hypothesis Hall : all_succeed e.

(** One successful query: the index is brought to successor form, the
    result is named, and the step is taken. *)
Ltac query :=
  prefix; apply wp_run; cbv zeta; simp_state;
  rewrite ?execs_snoc; cbn [is_exec]; rewrite ?app_nil_r, ?List.length_app;
  cbn [List.length]; rewrite ?Nat.add_1_r;
  match goal with
  | |- match proc ?e ?k ?c with _ => _ end =>
      let cp := fresh "cp" in
      let Hp := fresh "Hp" in
      let Hrc := fresh "Hrc" in
      destruct (Hall k c) as [cp [Hp Hrc]]; rewrite Hp, Hrc; cbn [andb negb Z.eqb]
  end.

Ltac report_done :=
  prefix; unfold report_written; simp_state; split; [reflexivity|]; split;
  [ rewrite ?writes_snoc; cbn [is_write]; rewrite ?app_nil_r;
    unfold report_text, report_path; cbn [report_body ai_props v12_props];
    unfold answer, getprop_cmd, id_cmd;
    repeat match goal with
           | H : proc _ _ _ = Exited _ |- _ => rewrite H; clear H
           end;
    reflexivity
  | rewrite ?execs_snoc; cbn [is_exec]; rewrite ?app_nil_r, <- ?app_assoc;
    reflexivity ].

Lemma ai_report_written :
  wp (Ai.action_report (mkCtx (Some sn) dry v)) e s
     (report_written e s sn "when: " ai_props).
Proof.
  unfold Ai.action_report, Common.adb_base.
  cbn [serial truthy_opt fmt_opt]. rewrite Hsn. cbn [negb].
  do 6 query. report_done.
Qed.

Lemma v12_report_written :
  wp (V12.action_report (mkCtx (Some sn) dry v)) e s
     (report_written e s sn "when: " v12_props).
Proof.
  unfold V12.action_report, Common.adb_base.
  cbn [serial truthy_opt fmt_opt]. rewrite Hsn. cbn [negb].
  do 7 query. report_done.
Qed.

Lemma v01_report_written :
  wp (V01.action_report (mkCtx (Some sn) dry v)) e s
     (report_written e s sn "when:   " v12_props).
Proof.
  unfold V01.action_report, Common.adb_base.
  cbn [serial truthy_opt fmt_opt]. rewrite Hsn. cbn [negb].
  do 7 query. report_done.
Qed.

End Report.

Section ReportFailure.

Variables (e : env) (s : state) (c : Ctx).

Ltac failure_done :=
  unfold no_file_on_failure;
  let x := fresh "x" in
  let Hx := fresh "Hx" in
  intros x Hx;
  first [ discriminate Hx
        | simp_state; rewrite ?writes_snoc; cbn [is_write];
          rewrite ?app_nil_r; reflexivity ].

Lemma ai_report_failure : wp (Ai.action_report c) e s (no_file_on_failure s).
Proof. unfold Ai.action_report. sym; failure_done. Qed.

Lemma v12_report_failure : wp (V12.action_report c) e s (no_file_on_failure s).
Proof. unfold V12.action_report. sym; failure_done. Qed.

Lemma v01_report_failure : wp (V01.action_report c) e s (no_file_on_failure s).
Proof. unfold V01.action_report. sym; failure_done. Qed.

End ReportFailure.


Lemma silent_env_succeeds : all_succeed silent_env.
Proof. intros k cmd. eexists. split; reflexivity. Qed.



(** ** C3: errors of the command runner and the main loop *)

Section Contained.

Lemma contained_ret {A} (a : A) : contained (ret a).
Proof. intros e s x H. discriminate H. Qed.

Lemma contained_bind {A B} (m : M A) (k : A -> M B) :
  contained m -> (forall a, contained (k a)) -> contained (bind m k).
Proof.
  intros Hm Hk e s x. unfold bind. specialize (Hm e s).
  destruct (m e s) as [[a|y] s1]; cbn [fst] in *.
  - apply Hk.
  - intros [= <-]. now apply Hm.
Qed.

Lemma contained_emit (ev : event) : contained (emit ev).
Proof. intros e s x H. discriminate H. Qed.

Lemma contained_print (args : list string) : contained (print args).
Proof. apply contained_emit. Qed.

Lemma contained_clear : contained Common.clear.
Proof. apply contained_emit. Qed.

Lemma contained_input (prompt : string) : contained (input prompt).
Proof.
  intros e s x. unfold input. destruct (stdin s); cbn [fst]; [|discriminate].
  now intros [= <-].
Qed.

Lemma contained_pause (prompt : string) : contained (pause prompt).
Proof.
  apply contained_bind; [apply contained_input | intros; apply contained_ret].
Qed.

Lemma contained_now : contained now.
Proof. intros e s x H. discriminate H. Qed.

Lemma contained_get_ctx : contained get_ctx.
Proof. intros e s x H. discriminate H. Qed.

Lemma contained_set_dry_run (b : bool) : contained (set_dry_run b).
Proof. intros e s x H. discriminate H. Qed.

(** A [try] statement whose clauses cover the two errors, and raise none
    themselves, lets none of them out. *)
Lemma contained_try_except {A} (m : M A) (h : exn -> option (M A)) :
  (forall x, match h x with
             | Some k => contained k
             | None => is_process_error x = false
             end) ->
  contained (try_except m h).
Proof.
  intros Hh e s x. unfold try_except.
  destruct (m e s) as [[a|y] s1]; cbn [fst]; [discriminate|].
  specialize (Hh y). destruct (h y) as [k|]; cbn [fst].
  - apply Hh.
  - now intros [= <-].
Qed.

Ltac contained_go :=
  repeat
    (cbv zeta;
     match goal with
     | |- contained (bind _ _) => apply contained_bind; [|intros]
     | |- contained (if ?b then _ else _) => destruct b
     | |- contained (ret _) => apply contained_ret
     | |- contained (print _) => apply contained_print
     | |- contained (pause _) => apply contained_pause
     | |- contained (input _) => apply contained_input
     | |- contained now => apply contained_now
     | |- contained get_ctx => apply contained_get_ctx
     | |- contained (set_dry_run _) => apply contained_set_dry_run
     | |- contained Common.clear => apply contained_clear
     end).

Lemma v12_on_error_covers (x : exn) :
  match V12.on_error x with
  | Some k => contained k
  | None => is_process_error x = false
  end.
Proof. destruct x; cbn [V12.on_error is_process_error]; solve [reflexivity | contained_go]. Qed.

Lemma ai_on_error_covers (x : exn) :
  match Ai.on_error x with
  | Some k => contained k
  | None => is_process_error x = false
  end.
Proof. destruct x; cbn [Ai.on_error is_process_error]; solve [reflexivity | contained_go]. Qed.

Lemma v12_turn_contained : contained V12.menu_iteration.
Proof.
  unfold V12.menu_iteration, V12.status_line. contained_go.
  apply contained_try_except, v12_on_error_covers.
Qed.

Lemma ai_turn_contained : contained Ai.menu_iteration.
Proof.
  unfold Ai.menu_iteration, Ai.status_line. contained_go.
  apply contained_try_except, ai_on_error_covers.
Qed.

Lemma v12_loop_contained (fuel : nat) : contained (V12.menu_loop fuel).
Proof.
  induction fuel as [|n IH]; cbn [V12.menu_loop]; [apply contained_ret|].
  apply contained_bind; [apply v12_turn_contained|].
  intros [|]; [exact IH | apply contained_ret].
Qed.

Lemma ai_loop_contained (fuel : nat) : contained (Ai.menu_loop fuel).
Proof.
  induction fuel as [|n IH]; cbn [Ai.menu_loop]; [apply contained_ret|].
  apply contained_bind; [apply ai_turn_contained|].
  intros [|]; [exact IH | apply contained_ret].
Qed.

(** After a failure the clauses only print: nothing is run again. *)
Lemma v12_recovers (choice : string) (e : env) (s : state) :
  recovers (V12.dispatch choice) V12.on_error e s.
Proof.
  intros x s1 Hm Hx. unfold try_except. rewrite Hm.
  destruct x; try discriminate Hx; cbn [V12.on_error].
  - eexists tt, _. split; [reflexivity|]. apply keeps_log. reflexivity.
  - match goal with
    | |- exists a s2, ?k e s1 = _ /\ _ =>
        assert (Hq : respects quiet_event k) by respects_go;
        assert (Hc : exists s2, k e s1 = (Ok tt, s2))
    end.
    { unfold bind, print, emit, ret.
      destruct (Py.truthy out), (Py.truthy err); eexists; reflexivity. }
    destruct Hc as [s2 Hs2]. exists tt, s2. split; [exact Hs2|].
    specialize (Hq e s1). now rewrite Hs2 in Hq.
Qed.

Lemma ai_recovers (choice : string) (e : env) (s : state) :
  recovers (Ai.dispatch choice) Ai.on_error e s.
Proof.
  intros x s1 Hm Hx. unfold try_except. rewrite Hm.
  destruct x; try discriminate Hx; cbn [Ai.on_error].
  - eexists true, _. split; [reflexivity|]. apply keeps_log. reflexivity.
  - match goal with
    | |- exists a s2, ?k e s1 = _ /\ _ =>
        assert (Hq : respects quiet_event k) by respects_go;
        assert (Hc : exists s2, k e s1 = (Ok true, s2))
    end.
    { unfold bind, print, emit, ret.
      destruct (Py.truthy out), (Py.truthy err); eexists; reflexivity. }
    destruct Hc as [s2 Hs2]. exists true, s2. split; [exact Hs2|].
    specialize (Hq e s1). now rewrite Hs2 in Hq.
Qed.

End Contained.

(** X22.  In [android-workbench-v1.2.py] and [android_workbench_ai.py] no
    error of the command runner leaves a turn of the loop, or the loop; the
    [try] statement turns each into printed lines, after which the turn
    goes on without starting anything again. *)
Lemma menu_loop_contains_process_errors :
  (contained V12.menu_iteration /\ contained Ai.menu_iteration)
  /\ (forall fuel, contained (V12.menu_loop fuel) /\ contained (Ai.menu_loop fuel))
  /\ (forall choice e s,
        recovers (V12.dispatch choice) V12.on_error e s
        /\ recovers (Ai.dispatch choice) Ai.on_error e s).
Proof.
  split; [split; [apply v12_turn_contained | apply ai_turn_contained]|].
  split.
  - intros fuel. split; [apply v12_loop_contained | apply ai_loop_contained].
  - intros choice e s. split; [apply v12_recovers | apply ai_recovers].
Qed.

Section V01Escape.

Variables (e : env) (s : state) (raw : string) (rest : list string).
Hypothesis Hin : stdin s = raw :: rest.
Hypothesis Hpick : Py.lower (Py.strip raw) = "1".

(** The first command of the status action, and how it ends. *)
Lemma v01_status_turn (Q : outcome bool -> state -> Prop) :
  (proc e (List.length (execs (trace s))) ["adb"; "devices"; "-l"] = Hung ->
   forall s1, Q (Raise (TimeoutExpired ["adb"; "devices"; "-l"] 10)) s1) ->
  (forall cp,
     proc e (List.length (execs (trace s))) ["adb"; "devices"; "-l"] = Exited cp ->
     returncode cp <> 0%Z ->
     forall s1,
       Q (Raise (CalledProcessError (returncode cp) ["adb"; "devices"; "-l"]
                                    (stdout cp) (stderr cp))) s1) ->
  (forall cp,
     proc e (List.length (execs (trace s))) ["adb"; "devices"; "-l"] = Exited cp ->
     returncode cp = 0%Z ->
     forall r s1, Q r s1) ->
  wp V01.menu_iteration e s Q.
Proof.
  intros Hhung Hexit Hok.
  unfold V01.menu_iteration, Common.clear, print_end, V01.status_line.
  prefix. apply wp_input. simp_state. rewrite Hin, Hpick.
  cbn [String.eqb Ascii.eqb Bool.eqb andb negb].
  unfold Common.action_status.
  prefix. apply wp_run. cbv zeta. simp_state.
  rewrite !execs_snoc. cbn [is_exec]. rewrite !app_nil_r.
  destruct (proc e (List.length (execs (trace s))) ["adb"; "devices"; "-l"])
    as [cp|] eqn:Hp; [|now apply Hhung].
  cbn [andb]. destruct (returncode cp =? 0)%Z eqn:Hrc; cbn [negb].
  - apply Z.eqb_eq in Hrc.
    assert (HQ : forall r s1, Q r s1) by now apply (Hok cp).
    repeat first [ apply HQ | apply wp_any; intros [?|?] ?; cbv beta iota ].
  - apply Z.eqb_neq in Hrc. now apply (Hexit cp).
Qed.

End V01Escape.

(** C3, where the code departs from it.  The loop of [android_workbench.py]
    has no [try] statement.  When the operator chooses the status action
    and its first command is still running after ten seconds, the turn
    ends in [TimeoutExpired], and so does the loop; when the command ends
    with another status than zero, they end in [CalledProcessError].
    Nothing catches either, and the process ends. *)
Theorem v01_menu_lets_errors_out :
  forall (e : env) (s : state) (raw : string) (rest : list string) (fuel : nat),
    stdin s = raw :: rest ->
    Py.lower (Py.strip raw) = "1" ->
    (proc e (List.length (execs (trace s))) ["adb"; "devices"; "-l"] = Hung ->
     fst (V01.menu_iteration e s) = Raise (TimeoutExpired ["adb"; "devices"; "-l"] 10)
     /\ fst (V01.menu_loop (S fuel) e s)
        = Raise (TimeoutExpired ["adb"; "devices"; "-l"] 10))
    /\ (forall cp,
          proc e (List.length (execs (trace s))) ["adb"; "devices"; "-l"] = Exited cp ->
          returncode cp <> 0%Z ->
          fst (V01.menu_iteration e s)
          = Raise (CalledProcessError (returncode cp) ["adb"; "devices"; "-l"]
                                      (stdout cp) (stderr cp))
          /\ fst (V01.menu_loop (S fuel) e s)
             = Raise (CalledProcessError (returncode cp) ["adb"; "devices"; "-l"]
                                         (stdout cp) (stderr cp))).
Proof.
  intros e s raw rest fuel Hin Hpick. split.
  - intros Hp.
    assert (H : fst (V01.menu_iteration e s)
                = Raise (TimeoutExpired ["adb"; "devices"; "-l"] 10)).
    { apply (v01_status_turn e s Hin Hpick
               (fun r _ => r = Raise (TimeoutExpired ["adb"; "devices"; "-l"] 10))).
      - reflexivity.
      - intros cp Hcp. congruence.
      - intros cp Hcp. congruence. }
    split; [exact H|]. cbn [V01.menu_loop]. now apply bind_raise.
  - intros cp Hp Hrc.
    assert (H : fst (V01.menu_iteration e s)
                = Raise (CalledProcessError (returncode cp) ["adb"; "devices"; "-l"]
                                            (stdout cp) (stderr cp))).
    { apply (v01_status_turn e s Hin Hpick
               (fun r _ =>
                  r = Raise (CalledProcessError (returncode cp) ["adb"; "devices"; "-l"]
                                                (stdout cp) (stderr cp)))).
      - congruence.
      - intros cp' Hcp. rewrite Hp in Hcp. injection Hcp as <-. reflexivity.
      - intros cp' Hcp Hz. rewrite Hp in Hcp. injection Hcp as <-. contradiction. }
    split; [exact H|]. cbn [V01.menu_loop]. now apply bind_raise.
Qed.

(** The device does not answer and the operator asks for the status. *)
Lemma v01_menu_lets_errors_out_witness :
  fst (V01.menu_loop 5 hang_env status_then_quit)
  = Raise (TimeoutExpired ["adb"; "devices"; "-l"] 10).
Proof.
  exact (proj2 (proj1 (@v01_menu_lets_errors_out
                         hang_env status_then_quit "1" [""; "q"] 4 eq_refl eq_refl)
                      eq_refl)).
Defined.

(** The same input in the three programs: the first ends, the two others
    print the error, wait for the operator and go on to the next turn,
    where "q" ends them. *)
Example status_on_silent_device :
  fst (V01.menu (Some "ABC123") 5 hang_env status_then_quit)
    = Raise (TimeoutExpired ["adb"; "devices"; "-l"] 10)
  /\ fst (V01.menu (Some "ABC123") 5 offline_env status_then_quit)
     = Raise (CalledProcessError 1 ["adb"; "devices"; "-l"] "" "error: device offline")
  /\ fst (V12.menu (Some "ABC123") 5 hang_env status_then_quit) = Ok (Some tt)
  /\ fst (Ai.menu (Some "ABC123") 5 hang_env status_then_quit) = Ok (Some tt).
Proof. vm_compute. repeat split; reflexivity. Qed.


(* ================================================================== *)
(** * Further properties of the three programs *)
(* ================================================================== *)

(** ** The parser *)

Section Tokens.

Lemma split_cons (c : ascii) (r : string) :
  Py.split (String c r)
  = if Py.isspace c then Py.split r
    else match r with
         | EmptyString => [String c EmptyString]
         | String c' _ =>
             if Py.isspace c' then String c EmptyString :: Py.split r
             else match Py.split r with
                  | w :: ws => String c w :: ws
                  | [] => [String c EmptyString]
                  end
         end.
Proof. destruct r; reflexivity. Qed.

Lemma plain_cons (c : ascii) (w : string) :
  Py.isspace c = false ->
  (w = EmptyString \/ plain_token w = true) ->
  plain_token (String c w) = true.
Proof.
  intros Hc Hw. unfold plain_token. cbn [Py.truthy Py.all_chars andb]. rewrite Hc.
  cbn [negb andb]. destruct Hw as [->|Hw]; [reflexivity|].
  unfold plain_token in Hw. apply andb_prop in Hw. now destruct Hw.
Qed.

Lemma split_tokens_plain (s : string) :
  Forall (fun w => plain_token w = true) (Py.split s).
Proof.
  induction s as [|c r IH]; [constructor|].
  rewrite split_cons. destruct (Py.isspace c) eqn:Hc; [exact IH|].
  destruct r as [|d r']; [constructor; [now apply plain_cons; auto | constructor]|].
  destruct (Py.isspace d) eqn:Hd.
  - constructor; [apply plain_cons; auto | exact IH].
  - destruct (Py.split (String d r')) as [|w ws].
    + constructor; [apply plain_cons; auto | constructor].
    + inversion IH as [|? ? Hw Hws]; subst.
      constructor; [apply plain_cons; auto | exact Hws].
Qed.

Lemma ready_token_plain (ln : string) :
  Forall (fun w => plain_token w = true) (ready_token ln).
Proof.
  unfold ready_token. pose proof (split_tokens_plain ln) as H.
  destruct (Py.split ln) as [|a [|b r]]; try constructor.
  destruct (b =? "device"); [|constructor].
  inversion H; subst. constructor; [assumption | constructor].
Qed.

Lemma flat_map_ready_plain (lines : list string) :
  Forall (fun w => plain_token w = true) (flat_map ready_token lines).
Proof.
  induction lines as [|ln lines IH]; [constructor|].
  cbn [flat_map]. apply Forall_app. split; [apply ready_token_plain | exact IH].
Qed.

End Tokens.

(** X1.  The three versions of [parse_adb_devices] are one function: on
    every text they return the same identifiers, those of the ready lines
    among the stripped non-blank lines after the first. *)
Theorem parse_adb_devices_versions_agree :
  forall output : string,
    V01.parse_adb_devices output = Ai.parse_adb_devices output
    /\ V12.parse_adb_devices output = Ai.parse_adb_devices output
    /\ Ai.parse_adb_devices output
       = flat_map ready_token
           (tl (map Py.strip
                  (filter (fun ln => Py.truthy (Py.strip ln)) (Py.splitlines output)))).
Proof.
  intros output. rewrite ai_parse_lines, v12_parse_lines, v01_parse_lines. auto.
Qed.

(** X2.  Whatever the text, every identifier the parser returns is a
    token: it is not empty and holds no white space, so that it is a true
    value and one argument of a command. *)
Theorem parse_adb_devices_plain_tokens :
  forall output : string,
    Forall (fun w => plain_token w = true) (Ai.parse_adb_devices output)
    /\ Forall (fun w => plain_token w = true) (V12.parse_adb_devices output)
    /\ Forall (fun w => plain_token w = true) (V01.parse_adb_devices output).
Proof.
  intros output. rewrite ai_parse_lines, v12_parse_lines, v01_parse_lines.
  repeat split; apply flat_map_ready_plain.
Qed.

(** ** The device selector *)

Section Listing.

Variables (e : env) (s : state) (cp : CompletedProcess).
Hypothesis Hproc : proc e (List.length (execs (trace s))) list_cmd = Exited cp.
Hypothesis Hrc : returncode cp = 0%Z.

(** Once the listing has succeeded, the selector is [pick_among] on the
    parsed text. *)
Lemma listing_then (indent : string) (parse : string -> list string) :
  bind (Common.run list_cmd true 10)
       (fun out => Common.pick_among indent (parse out)) e s
  = Common.pick_among indent (parse (stdout cp)) e (after_listing s).
Proof.
  unfold bind at 1, Common.run, Common.run_capture, subprocess_run, bind, ret.
  cbv zeta. rewrite Hproc, Hrc. reflexivity.
Qed.

End Listing.

Lemma pick_among_few (indent : string) (serials : list string) (e : env) (s : state) :
  List.length serials <= 1 ->
  Common.pick_among indent serials e s = (Ok (nth_error serials 0), s).
Proof.
  destruct serials as [|a [|b l]]; cbn [List.length]; intros H;
    [reflexivity | reflexivity | lia].
Qed.

Lemma pick_among_in (indent : string) (serials : list string) (e : env) (s : state)
    (x : string) :
  fst (Common.pick_among indent serials e s) = Ok (Some x) -> In x serials.
Proof.
  destruct serials as [|a [|b l]].
  - discriminate.
  - cbn. intros [= ->]. now left.
  - unfold Common.pick_among. cbn [Nat.eqb List.length].
    unfold bind at 1. cbn [print emit fst snd].
    unfold bind at 1.
    destruct (print_loop e (fun i x => indent ++ Py.str_of_nat i ++ ") " ++ x)
                (a :: b :: l) 1
                (log (EvPrint (Py.join " " ["Multiple ADB devices detected:"] ++ LF)) s))
      as [evs [-> _]].
    unfold bind at 1, input. cbn [stdin log].
    destruct (stdin s) as [|raw rest]; [discriminate|].
    destruct (Py.isdigit (Py.strip raw)); cbn [negb]; [|discriminate].
    destruct (Py.int (Py.strip raw)) as [idx|]; [|discriminate].
    destruct ((1 <=? idx) && (idx <=? Z.of_nat (S (S (List.length l)))))%Z;
      [|discriminate].
    cbn [ret fst]. intros [= H]. eapply nth_error_In; eauto.
Qed.

Lemma listing_succeeded (indent : string) (parse : string -> list string)
    (e : env) (s : state) (o : option string) :
  fst (bind (Common.run list_cmd true 10)
            (fun out => Common.pick_among indent (parse out)) e s) = Ok o ->
  exists cp,
    proc e (List.length (execs (trace s))) list_cmd = Exited cp
    /\ returncode cp = 0%Z
    /\ fst (Common.pick_among indent (parse (stdout cp)) e (after_listing s)) = Ok o.
Proof.
  unfold bind at 1, Common.run, Common.run_capture, subprocess_run, bind, ret.
  cbv zeta. destruct (proc e _ list_cmd) as [cp|]; [|discriminate].
  destruct (returncode cp =? 0)%Z eqn:Hrc; cbn [andb negb fst snd]; [|discriminate].
  intros H. exists cp. apply Z.eqb_eq in Hrc. auto.
Qed.

Lemma decimal_is_digit (w : string) :
  Py.all_chars Py.isdecimal_char w = true -> Py.all_chars Py.isdigit_char w = true.
Proof.
  induction w as [|c r IH]; [reflexivity|].
  cbn [Py.all_chars]. intros H. apply andb_prop in H. destruct H as [Hc Hr].
  rewrite (IH Hr), andb_true_r. clear - Hc.
  destruct c as [[] [] [] [] [] [] [] []];
    solve [discriminate Hc | reflexivity].
Qed.

Lemma decimals_are_digits (w : string) :
  w <> EmptyString ->
  Py.all_chars Py.isdecimal_char w = true -> Py.isdigit w = true.
Proof.
  intros Hne Hdec. unfold Py.isdigit. rewrite (decimal_is_digit _ Hdec).
  destruct w; [congruence | reflexivity].
Qed.

Lemma pick_among_decimal (indent : string) (serials : list string) (e : env)
    (s : state) (raw : string) (rest : list string) :
  2 <= List.length serials ->
  stdin s = raw :: rest ->
  Py.strip raw <> "" ->
  Py.all_chars Py.isdecimal_char (Py.strip raw) = true ->
  String.length (Py.strip raw) <= 4300 ->
  exists k,
    Py.int (Py.strip raw) = Some k /\ (0 <= k)%Z
    /\ fst (Common.pick_among indent serials e s)
       = if ((1 <=? k) && (k <=? Z.of_nat (List.length serials)))%Z
         then Ok (nth_error serials (Z.to_nat (k - 1)))
         else Ok None.
Proof.
  intros Hlen Hin Hne Hdec Hcap.
  destruct (int_of_decimals Hne Hdec Hcap) as [k [Hk Hpos]].
  exists k. split; [exact Hk|]. split; [exact Hpos|].
  rewrite (pick_many indent e s serials Hlen Hin).
  now rewrite (decimals_are_digits Hne Hdec), Hk.
Qed.

Lemma pick_among_long_decimal (indent : string) (serials : list string) (e : env)
    (s : state) (raw : string) (rest : list string) :
  2 <= List.length serials ->
  stdin s = raw :: rest ->
  Py.all_chars Py.isdecimal_char (Py.strip raw) = true ->
  4300 < String.length (Py.strip raw) ->
  fst (Common.pick_among indent serials e s) = Raise ValueError.
Proof.
  intros Hlen Hin Hdec Hcap.
  assert (Hne : Py.strip raw <> "") by (intros H; rewrite H in Hcap; cbn in Hcap; lia).
  rewrite (pick_many indent e s serials Hlen Hin).
  now rewrite (decimals_are_digits Hne Hdec), (int_of_long_decimals _ Hdec Hcap).
Qed.

(** X3.  When the listing ends with status zero and shows at most one
    ready device, the selector of each program returns that device, or
    no selection when there is none, without asking anything: the
    listing is the only event, and no line is read. *)
Theorem pick_adb_serial_without_prompt :
  forall (e : env) (s : state) (cp : CompletedProcess),
    proc e (List.length (execs (trace s))) list_cmd = Exited cp ->
    returncode cp = 0%Z ->
    List.length (Ai.parse_adb_devices (stdout cp)) <= 1 ->
    let r := (Ok (nth_error (Ai.parse_adb_devices (stdout cp)) 0), after_listing s) in
    Ai.pick_adb_serial e s = r
    /\ V12.pick_adb_serial e s = r
    /\ V01.pick_adb_serial e s = r.
Proof.
  intros e s cp Hproc Hrc Hlen r. subst r.
  destruct (parsers_agree (stdout cp)) as [H01 H12].
  unfold Ai.pick_adb_serial, V12.pick_adb_serial, V01.pick_adb_serial.
  repeat split.
  - change (["adb"; "devices"; "-l"]) with list_cmd.
    rewrite (@listing_then _ _ _ Hproc Hrc). now apply pick_among_few.
  - change (["adb"; "devices"; "-l"]) with list_cmd.
    rewrite (@listing_then _ _ _ Hproc Hrc), H12. now apply pick_among_few.
  - change (["adb"; "devices"; "-l"]) with list_cmd.
    rewrite (@listing_then _ _ _ Hproc Hrc), H01. now apply pick_among_few.
Qed.

(** One ready device: it is selected, and the listing is all that happened. *)
Lemma pick_adb_serial_without_prompt_witness :
  Ai.pick_adb_serial (env_with (all_exit 0 sample_device_list ""))
                     (state_of (mkCtx None false true) [])
  = (Ok (Some "ABC123"), after_listing (state_of (mkCtx None false true) [])).
Proof.
  exact (proj1 (@pick_adb_serial_without_prompt
                  (env_with (all_exit 0 sample_device_list ""))
                  (state_of (mkCtx None false true) [])
                  (mkCP 0 sample_device_list "") eq_refl eq_refl (le_n 1))).
Defined.

(** X4.  A device returned by the selector of any of the programs is one
    of the identifiers parsed from a listing that ended with status
    zero; it is a token, so a true value that binds the session. *)
Theorem pick_adb_serial_selects_listed :
  forall (e : env) (s : state) (x : string),
    fst (Ai.pick_adb_serial e s) = Ok (Some x)
    \/ fst (V12.pick_adb_serial e s) = Ok (Some x)
    \/ fst (V01.pick_adb_serial e s) = Ok (Some x) ->
    exists cp,
      proc e (List.length (execs (trace s))) list_cmd = Exited cp
      /\ returncode cp = 0%Z
      /\ In x (Ai.parse_adb_devices (stdout cp))
      /\ plain_token x = true
      /\ truthy_opt (Some x) = true.
Proof.
  intros e s x H.
  assert (exists cp,
            proc e (List.length (execs (trace s))) list_cmd = Exited cp
            /\ returncode cp = 0%Z
            /\ In x (Ai.parse_adb_devices (stdout cp))) as [cp [Hp [Hrc Hx]]].
  { destruct H as [H|[H|H]]; apply listing_succeeded in H;
      destruct H as [cp [Hp [Hrc H]]]; apply pick_among_in in H;
      exists cp; repeat split; try assumption.
    - destruct (parsers_agree (stdout cp)) as [_ H12]. now rewrite <- H12.
    - destruct (parsers_agree (stdout cp)) as [H01 _]. now rewrite <- H01. }
  exists cp. repeat split; try assumption.
  - rewrite ai_parse_lines in Hx.
    pose proof (flat_map_ready_plain
                  (tl (map Py.strip
                         (filter (fun ln => Py.truthy (Py.strip ln))
                                 (Py.splitlines (stdout cp)))))) as Hall.
    rewrite Forall_forall in Hall. now apply Hall.
  - rewrite ai_parse_lines in Hx.
    pose proof (flat_map_ready_plain
                  (tl (map Py.strip
                         (filter (fun ln => Py.truthy (Py.strip ln))
                                 (Py.splitlines (stdout cp)))))) as Hall.
    rewrite Forall_forall in Hall. apply Hall in Hx.
    unfold plain_token in Hx. apply andb_prop in Hx. now destruct Hx.
Qed.

(** Two ready devices and the answer "2": the second one is selected. *)
Lemma pick_adb_serial_selects_listed_witness :
  exists cp,
    proc (env_with (all_exit 0 two_devices "")) 0 list_cmd = Exited cp
    /\ returncode cp = 0%Z
    /\ In "XYZ789" (Ai.parse_adb_devices (stdout cp))
    /\ plain_token "XYZ789" = true
    /\ truthy_opt (Some "XYZ789") = true.
Proof.
  exact (@pick_adb_serial_selects_listed
           (env_with (all_exit 0 two_devices ""))
           (state_of (mkCtx None false true) ["2"]) "XYZ789"
           (or_introl eq_refl)).
Defined.

(** X5.  When several devices are ready and the answer, once stripped,
    is a non-empty text of the digits 0 to 9: up to the interpreter's
    limit of 4300 digits the selector never raises, [int] reads the
    answer as a number k, and the result is the k-th device of the list
    when 1 <= k <= N, no selection otherwise; beyond that limit [int]
    raises [ValueError], which nothing catches, and the selector ends
    with it. *)
Theorem pick_adb_serial_decimal_answer :
  forall (e : env) (s : state) (cp : CompletedProcess) (raw : string) (rest : list string),
    proc e (List.length (execs (trace s))) list_cmd = Exited cp ->
    returncode cp = 0%Z ->
    2 <= List.length (Ai.parse_adb_devices (stdout cp)) ->
    stdin s = raw :: rest ->
    Py.strip raw <> "" ->
    Py.all_chars Py.isdecimal_char (Py.strip raw) = true ->
    let serials := Ai.parse_adb_devices (stdout cp) in
    let all_three (r : outcome (option string)) :=
      fst (Ai.pick_adb_serial e s) = r
      /\ fst (V12.pick_adb_serial e s) = r
      /\ fst (V01.pick_adb_serial e s) = r in
    (String.length (Py.strip raw) <= 4300 ->
     exists k,
       Py.int (Py.strip raw) = Some k /\ (0 <= k)%Z
       /\ all_three (if ((1 <=? k) && (k <=? Z.of_nat (List.length serials)))%Z
                     then Ok (nth_error serials (Z.to_nat (k - 1)))
                     else Ok None))
    /\ (4300 < String.length (Py.strip raw) ->
        Py.int (Py.strip raw) = None /\ all_three (Raise ValueError)).
Proof.
  intros e s cp raw rest Hproc Hrc Hlen Hin Hne Hdec serials all_three.
  subst serials all_three.
  destruct (parsers_agree (stdout cp)) as [H01 H12].
  unfold Ai.pick_adb_serial, V12.pick_adb_serial, V01.pick_adb_serial.
  change (["adb"; "devices"; "-l"]) with list_cmd.
  rewrite !(@listing_then _ _ _ Hproc Hrc), H12, H01.
  split; intros Hcap.
  - destruct (@pick_among_decimal " " (Ai.parse_adb_devices (stdout cp)) e
                (after_listing s) raw rest Hlen Hin Hne Hdec Hcap)
      as [k [Hk [Hpos H1]]].
    destruct (@pick_among_decimal "  " (Ai.parse_adb_devices (stdout cp)) e
                (after_listing s) raw rest Hlen Hin Hne Hdec Hcap)
      as [k' [Hk' [_ H2]]].
    assert (k' = k) as -> by congruence.
    exists k. auto.
  - split; [now apply int_of_long_decimals|].
    repeat split; eapply pick_among_long_decimal; eauto.
Qed.

(** Two ready devices and the answer "7": no selection, and no error. *)
Lemma pick_adb_serial_decimal_answer_witness :
  exists k,
    Py.int (Py.strip "7") = Some k /\ (0 <= k)%Z
    /\ fst (Ai.pick_adb_serial (env_with (all_exit 0 two_devices ""))
                               (state_of (mkCtx None false true) ["7"]))
       = Ok None.
Proof.
  destruct (proj1 (@pick_adb_serial_decimal_answer
                     (env_with (all_exit 0 two_devices ""))
                     (state_of (mkCtx None false true) ["7"])
                     (mkCP 0 two_devices "") "7" [] eq_refl eq_refl (le_n 2) eq_refl
                     (fun H => match H in _ = y
                                     return match y with
                                            | EmptyString => False
                                            | _ => True
                                            end
                               with eq_refl => I end)
                     eq_refl)
                  (proj1 (Nat.leb_le 1 4300) eq_refl))
    as [k [Hk [Hpos [H _]]]].
  exists k. split; [exact Hk|]. split; [exact Hpos|].
  assert (k = 7%Z) as -> by (vm_compute in Hk; congruence).
  exact H.
Defined.

(** ** Handlers without a device *)

Section Unbound.

Variable c : Ctx.
Hypothesis Hnone : truthy_opt (serial c) = false.

(** [require_serial] without a device: the message, the pause, and the
    caller goes on with [False]. *)
Lemma require_serial_unbound {A} (k : bool -> M A) (e : env) (s : state) :
  bind (Ai.require_serial c) k e s
  = bind (print [Common.NEON_RED ++ "No ADB serial selected." ++ Common.RESET])
         (fun _ => bind (pause (Common.GRAY ++ "Press Enter..." ++ Common.RESET))
                        (fun _ => k false)) e s.
Proof.
  unfold Ai.require_serial. rewrite Hnone.
  unfold bind, print, emit, pause, input, bind, ret. cbn [log stdin].
  destruct (stdin s); reflexivity.
Qed.

Lemma guarded_unbound (body : M unit) :
  respects terminal_event
    (bind (Ai.require_serial c) (fun ok => if negb ok then ret tt else body)).
Proof.
  intros e s. rewrite require_serial_unbound. cbn [negb].
  revert e s.
  change (respects terminal_event
            (bind (print [Common.NEON_RED ++ "No ADB serial selected." ++ Common.RESET])
                  (fun _ => bind (pause (Common.GRAY ++ "Press Enter..." ++ Common.RESET))
                                 (fun _ => ret tt)))).
  respects_go.
Qed.

End Unbound.

(** X6.  With no device bound to the session (no serial, or an empty
    one), every device-scoped handler only talks to the terminal: it
    starts no child process, writes no file and creates no directory,
    and it leaves the session context as it found it. *)
Theorem unbound_device_only_terminal :
  forall c : Ctx,
    truthy_opt (serial c) = false ->
    respects terminal_event (Ai.action_report c)
    /\ respects terminal_event (V12.action_report c)
    /\ respects terminal_event (V01.action_report c)
    /\ respects terminal_event (Ai.action_logcat_lab c)
    /\ respects terminal_event (V12.action_logcat_lab c)
    /\ respects terminal_event (V01.action_logcat_lab c)
    /\ respects terminal_event (Ai.action_device_summary c)
    /\ respects terminal_event (Ai.action_foreground_app c)
    /\ respects terminal_event (Ai.action_install_apk c)
    /\ respects terminal_event (Ai.action_clear_app_data c)
    /\ respects terminal_event (Ai.action_open_url c)
    /\ respects terminal_event (Ai.action_screenshot c)
    /\ respects terminal_event (Ai.action_screenrecord c).
Proof.
  intros c Hnone.
  unfold Ai.action_report, V12.action_report, V01.action_report,
    Ai.action_logcat_lab, V12.action_logcat_lab, V01.action_logcat_lab.
  rewrite Hnone. cbn [negb].
  repeat match goal with |- _ /\ _ => split end;
    try (now apply guarded_unbound); respects_go.
Qed.

Lemma unbound_device_only_terminal_witness :
  respects terminal_event (Ai.action_screenshot (mkCtx (Some "") false true)).
Proof.
  exact (proj1 (proj2 (proj2 (proj2 (proj2 (proj2 (proj2 (proj2 (proj2 (proj2
           (proj2 (proj2 (@unbound_device_only_terminal
                            (mkCtx (Some "") false true) eq_refl))))))))))))).
Defined.

(** ** Dry-run in the handlers that honour it *)

Lemma wp_run_to {A} (m : M A) (e : env) (s : state) (r : outcome A) (st : state) :
  wp m e s (fun r' s' => r' = r /\ s' = st) -> m e s = (r, st).
Proof. unfold wp. destruct (m e s) as [r' s']. cbn. now intros [-> ->]. Qed.

(** The final state, once explicit, is the one announced. *)
Ltac landed :=
  cbn [log trace ctx stdin clock_reads]; split; [reflexivity|];
  unfold moved; cbn [Nat.add]; f_equal;
  rewrite <- ?app_assoc; reflexivity.

Ltac started :=
  cbn [log trace]; rewrite ?execs_snoc; cbn [is_exec];
  rewrite ?app_nil_r, <- ?app_assoc; reflexivity.

Section DryRunPrints.

Variables (e : env) (s : state) (sn : string) (v : bool).
Variables (raw enter : string) (rest : list string).
Hypothesis Hsn : Py.truthy sn = true.
Hypothesis Hin : stdin s = raw :: enter :: rest.
Hypothesis Hraw : Py.truthy (Py.strip raw) = true.

Lemma clear_dry :
  Ai.action_clear_app_data (mkCtx (Some sn) true v) e s
  = (Ok tt,
     moved s rest 0
       [EvInput "Package to clear (e.g. com.example.app): " raw;
        would_run ["adb"; "-s"; sn; "shell"; "pm"; "clear"; Py.strip raw];
        press_enter enter]).
Proof.
  apply wp_run_to.
  unfold Ai.action_clear_app_data, Ai.require_serial, Common.adb_base.
  cbn [serial dry_run truthy_opt fmt_opt]. rewrite Hsn.
  prefix. apply wp_input. rewrite Hin. rewrite Hraw. prefix.
  apply wp_pause. cbn [stdin log]. landed.
Qed.

Lemma clear_live :
  wp (Ai.action_clear_app_data (mkCtx (Some sn) false v)) e s
     (fun _ s' =>
        execs (trace s')
        = execs (trace s)
          +++ [EvExec ["adb"; "-s"; sn; "shell"; "pm"; "clear"; Py.strip raw] (Some 60%Z)]).
Proof.
  unfold Ai.action_clear_app_data, Ai.require_serial, Common.adb_base.
  cbn [serial dry_run truthy_opt fmt_opt]. rewrite Hsn.
  prefix. apply wp_input. rewrite Hin. rewrite Hraw. sym; started.
Qed.

Lemma open_url_dry :
  Ai.action_open_url (mkCtx (Some sn) true v) e s
  = (Ok tt,
     moved s rest 0
       [EvInput "URL (https://...): " raw;
        would_run ["adb"; "-s"; sn; "shell"; "am"; "start"; "-a";
                   "android.intent.action.VIEW"; "-d"; Py.strip raw];
        press_enter enter]).
Proof.
  apply wp_run_to.
  unfold Ai.action_open_url, Ai.require_serial, Common.adb_base.
  cbn [serial dry_run truthy_opt fmt_opt]. rewrite Hsn.
  prefix. apply wp_input. rewrite Hin. rewrite Hraw. prefix.
  apply wp_pause. cbn [stdin log]. landed.
Qed.

Lemma open_url_live :
  wp (Ai.action_open_url (mkCtx (Some sn) false v)) e s
     (fun _ s' =>
        execs (trace s')
        = execs (trace s)
          +++ [EvExec ["adb"; "-s"; sn; "shell"; "am"; "start"; "-a";
                       "android.intent.action.VIEW"; "-d"; Py.strip raw] (Some 30%Z)]).
Proof.
  unfold Ai.action_open_url, Ai.require_serial, Common.adb_base.
  cbn [serial dry_run truthy_opt fmt_opt]. rewrite Hsn.
  prefix. apply wp_input. rewrite Hin. rewrite Hraw. sym; started.
Qed.

Lemma install_dry :
  path_exists e (expanduser e (Py.strip raw)) = true ->
  Ai.action_install_apk (mkCtx (Some sn) true v) e s
  = (Ok tt,
     moved s rest 0
       [EvInput "Path to APK (e.g. ~/Downloads/app.apk): " raw;
        would_run ["adb"; "-s"; sn; "install"; "-r"; expanduser e (Py.strip raw)];
        press_enter enter]).
Proof.
  intros Hthere. apply wp_run_to.
  unfold Ai.action_install_apk, Ai.require_serial, Common.adb_base.
  cbn [serial dry_run truthy_opt fmt_opt]. rewrite Hsn.
  prefix. apply wp_input. rewrite Hin. rewrite Hraw. prefix. rewrite Hthere. prefix.
  apply wp_pause. cbn [stdin log]. landed.
Qed.

Lemma install_live :
  path_exists e (expanduser e (Py.strip raw)) = true ->
  wp (Ai.action_install_apk (mkCtx (Some sn) false v)) e s
     (fun _ s' =>
        execs (trace s')
        = execs (trace s)
          +++ [EvExec ["adb"; "-s"; sn; "install"; "-r"; expanduser e (Py.strip raw)]
                      (Some 300%Z)]).
Proof.
  intros Hthere.
  unfold Ai.action_install_apk, Ai.require_serial, Common.adb_base.
  cbn [serial dry_run truthy_opt fmt_opt]. rewrite Hsn.
  prefix. apply wp_input. rewrite Hin. rewrite Hraw. prefix. rewrite Hthere.
  sym; started.
Qed.

End DryRunPrints.

(** X7.  In the handlers that clear an application's data, open a URL
    and install a package, dry-run replaces the command by one line:
    with a device bound and a non-empty answer (for the package, a path
    that exists), the handler reads the answer, prints "Dry-run. Would
    run:" followed by the argument list joined by spaces, pauses, and
    starts nothing; with the flag off the same answers start exactly
    that argument list, once. *)
Theorem dry_run_prints_the_command_it_replaces :
  forall (e : env) (s : state) (sn : string) (v : bool)
         (raw enter : string) (rest : list string),
    Py.truthy sn = true ->
    stdin s = raw :: enter :: rest ->
    Py.truthy (Py.strip raw) = true ->
    let dry := mkCtx (Some sn) true v in
    let live := mkCtx (Some sn) false v in
    let shown (prompt : string) (cmd : list string) :=
      (Ok tt, moved s rest 0 [EvInput prompt raw; would_run cmd; press_enter enter]) in
    let runs (m : M unit) (cmd : list string) (t : Z) :=
      execs (trace (snd (m e s))) = execs (trace s) +++ [EvExec cmd (Some t)] in
    let clear_cmd := ["adb"; "-s"; sn; "shell"; "pm"; "clear"; Py.strip raw] in
    let url_cmd := ["adb"; "-s"; sn; "shell"; "am"; "start"; "-a";
                    "android.intent.action.VIEW"; "-d"; Py.strip raw] in
    let install_cmd := ["adb"; "-s"; sn; "install"; "-r"; expanduser e (Py.strip raw)] in
    Ai.action_clear_app_data dry e s
    = shown "Package to clear (e.g. com.example.app): " clear_cmd
    /\ runs (Ai.action_clear_app_data live) clear_cmd 60%Z
    /\ Ai.action_open_url dry e s = shown "URL (https://...): " url_cmd
    /\ runs (Ai.action_open_url live) url_cmd 30%Z
    /\ (path_exists e (expanduser e (Py.strip raw)) = true ->
        Ai.action_install_apk dry e s
        = shown "Path to APK (e.g. ~/Downloads/app.apk): " install_cmd
        /\ runs (Ai.action_install_apk live) install_cmd 300%Z).
Proof.
  intros e s sn v raw enter rest Hsn Hin Hraw. cbv zeta.
  split; [now apply clear_dry|].
  split; [now apply (@clear_live e s sn v raw enter rest)|].
  split; [now apply open_url_dry|].
  split; [now apply (@open_url_live e s sn v raw enter rest)|].
  intros Hthere.
  split; [now apply install_dry|].
  now apply (@install_live e s sn v raw enter rest).
Qed.

Lemma dry_run_prints_the_command_it_replaces_witness :
  Ai.action_clear_app_data (bound true) silent_env
    (state_of (bound true) [" com.example.app "; ""])
  = (Ok tt,
     moved (state_of (bound true) [" com.example.app "; ""]) [] 0
       [EvInput "Package to clear (e.g. com.example.app): " " com.example.app ";
        would_run ["adb"; "-s"; "ABC123"; "shell"; "pm"; "clear"; "com.example.app"];
        press_enter ""]).
Proof.
  exact (proj1 (@dry_run_prints_the_command_it_replaces
                  silent_env (state_of (bound true) [" com.example.app "; ""])
                  "ABC123" true " com.example.app " "" [] eq_refl eq_refl eq_refl)).
Defined.

(** X8.  [action_install_apk] with a device bound: when the path typed,
    once stripped and expanded, names nothing that exists, the handler
    reports "Not found:" with the expanded path, pauses and returns;
    dry-run or not, no child process is started. *)
Theorem install_apk_missing_file :
  forall (e : env) (s : state) (sn : string) (dry v : bool)
         (raw enter : string) (rest : list string),
    Py.truthy sn = true ->
    stdin s = raw :: enter :: rest ->
    Py.truthy (Py.strip raw) = true ->
    path_exists e (expanduser e (Py.strip raw)) = false ->
    Ai.action_install_apk (mkCtx (Some sn) dry v) e s
    = (Ok tt,
       moved s rest 0
         [EvInput "Path to APK (e.g. ~/Downloads/app.apk): " raw;
          EvPrint ((Common.NEON_RED ++ "Not found: " ++ expanduser e (Py.strip raw)
                    ++ Common.RESET) ++ LF);
          press_enter enter]).
Proof.
  intros e s sn dry v raw enter rest Hsn Hin Hraw Hmissing. apply wp_run_to.
  unfold Ai.action_install_apk, Ai.require_serial, Common.adb_base.
  cbn [serial dry_run truthy_opt fmt_opt]. rewrite Hsn.
  prefix. apply wp_input. rewrite Hin. rewrite Hraw. prefix. rewrite Hmissing. prefix.
  apply wp_pause. cbn [stdin log]. landed.
Qed.

Lemma install_apk_missing_file_witness :
  Ai.action_install_apk (bound false) env_no_files
    (state_of (bound false) ["app.apk"; ""])
  = (Ok tt,
     moved (state_of (bound false) ["app.apk"; ""]) [] 0
       [EvInput "Path to APK (e.g. ~/Downloads/app.apk): " "app.apk";
        EvPrint ((Common.NEON_RED ++ "Not found: " ++ "app.apk" ++ Common.RESET) ++ LF);
        press_enter ""]).
Proof.
  exact (@install_apk_missing_file env_no_files (state_of (bound false) ["app.apk"; ""])
           "ABC123" false true "app.apk" "" [] eq_refl eq_refl eq_refl eq_refl).
Defined.

(** ** Commands whose exit status is not an error *)

Section Tolerant.

Lemma tolerant_ret {A} (a : A) : tolerant (ret a).
Proof. intros e s x H. discriminate H. Qed.

Lemma tolerant_bind {A B} (m : M A) (k : A -> M B) :
  tolerant m -> (forall a, tolerant (k a)) -> tolerant (bind m k).
Proof.
  intros Hm Hk e s x. unfold bind.
  destruct (m e s) as [[a|y] s1] eqn:Hr.
  - apply Hk.
  - cbn [fst]. intros [= <-]. apply (Hm e s). now rewrite Hr.
Qed.

Lemma tolerant_emit (ev : event) : tolerant (emit ev).
Proof. intros e s x H. discriminate H. Qed.

Lemma tolerant_print (args : list string) : tolerant (print args).
Proof. apply tolerant_emit. Qed.

Lemma tolerant_input (prompt : string) : tolerant (input prompt).
Proof.
  intros e s x. unfold input. destruct (stdin s); cbn [fst]; [|discriminate].
  now intros [= <-].
Qed.

Lemma tolerant_pause (prompt : string) : tolerant (pause prompt).
Proof.
  unfold pause. apply tolerant_bind; [apply tolerant_input|].
  intros _. apply tolerant_ret.
Qed.

Lemma tolerant_now : tolerant now.
Proof. intros e s x H. discriminate H. Qed.

Lemma tolerant_ask {A} (f : env -> A) : tolerant (ask f).
Proof. intros e s x H. discriminate H. Qed.

(** [check=False]: whatever the status, the result is returned. *)
Lemma tolerant_subprocess_run (cmd : list string) (t : option Z) :
  tolerant (subprocess_run cmd false t).
Proof.
  intros e s x. unfold subprocess_run. cbv zeta.
  destruct (proc e _ cmd) as [cp|]; cbn [andb fst]; [discriminate|].
  destruct t; now intros [= <-].
Qed.

Lemma tolerant_run_capture (cmd : list string) (t : Z) :
  tolerant (Common.run_capture cmd false t).
Proof. apply tolerant_subprocess_run. Qed.

Lemma tolerant_run (cmd : list string) (t : Z) : tolerant (Common.run cmd false t).
Proof.
  unfold Common.run. apply tolerant_bind; [apply tolerant_run_capture|].
  intros cp. apply tolerant_ret.
Qed.

End Tolerant.

Ltac tolerant_prim :=
  first
    [ apply tolerant_ret
    | apply tolerant_print
    | apply tolerant_pause
    | apply tolerant_input
    | apply tolerant_now
    | apply tolerant_ask
    | apply tolerant_run
    | apply tolerant_run_capture
    | apply tolerant_subprocess_run
    | apply tolerant_emit ].

Ltac tolerant_go :=
  repeat
    (cbv beta iota zeta delta [dry_run serial verbose];
     match goal with
     | |- tolerant (bind _ _) => apply tolerant_bind; [|intros]
     | |- tolerant (if ?b then _ else _) => destruct b
     | |- tolerant (match ?x with _ => _ end) => destruct x
     | |- tolerant (mkdir _) => apply tolerant_emit
     | |- tolerant (write_text _ _) => apply tolerant_emit
     | |- tolerant _ => tolerant_prim
     end).

(** X9.  The handlers of [android_workbench_ai.py] that run their
    command with [check=False] never end in [CalledProcessError]: for
    every context, every answer of the operator and every exit status of
    the child processes, a failed command is shown, not raised. *)
Theorem lenient_handlers_never_raise_on_status :
  forall c : Ctx,
    tolerant (Ai.action_install_apk c)
    /\ tolerant (Ai.action_clear_app_data c)
    /\ tolerant (Ai.action_open_url c)
    /\ tolerant (Ai.action_screenshot c)
    /\ tolerant (Ai.action_screenrecord c)
    /\ tolerant (Ai.action_fastboot_getvar_all c)
    /\ tolerant (Ai.action_fastboot_reboot_menu c).
Proof.
  intros c.
  unfold Ai.action_install_apk, Ai.action_clear_app_data, Ai.action_open_url,
    Ai.action_screenshot, Ai.action_screenrecord, Ai.action_fastboot_getvar_all,
    Ai.action_fastboot_reboot_menu, Ai.require_serial.
  repeat match goal with |- _ /\ _ => split end; tolerant_go.
Qed.

(** ** Screenshot and screen recording *)

(** A child process whose result is known: the index is brought to
    successor form and the result is put in its place. *)
Ltac proc_index :=
  cbv zeta; simp_state;
  rewrite ?execs_snoc; cbn [is_exec]; rewrite ?app_nil_r, ?List.length_app;
  cbn [List.length]; rewrite ?Nat.add_1_r.

Ltac known_proc :=
  proc_index;
  match goal with
  | H : proc ?e ?k ?c = _ |- context [proc ?e ?k ?c] => rewrite H
  end;
  cbn [andb negb].

Ltac traces_agree :=
  simp_state; rewrite ?execs_snoc, ?writes_snoc; cbn [is_exec is_write];
  rewrite ?app_nil_r, <- ?app_assoc; reflexivity.

(** X10.  [action_screenshot] on a bound device, dry-run off: the
    capture command is started once, without a time limit, and the
    handler ends normally whatever its exit status.  With status zero
    exactly one file is written, [screenshot-<device>-<timestamp>.png]
    in the media directory, holding the bytes captured; with any other
    status no file is written. *)
Theorem screenshot_written_on_success :
  forall (e : env) (s : state) (sn : string) (v : bool)
         (enter : string) (rest : list string) (cp : CompletedProcess),
    Py.truthy sn = true ->
    stdin s = enter :: rest ->
    proc e (List.length (execs (trace s)))
         ["adb"; "-s"; sn; "exec-out"; "screencap"; "-p"] = Exited cp ->
    wp (Ai.action_screenshot (mkCtx (Some sn) false v)) e s
       (fun r s' =>
          r = Ok tt
          /\ execs (trace s')
             = execs (trace s)
               +++ [EvExec ["adb"; "-s"; sn; "exec-out"; "screencap"; "-p"] None]
          /\ writes (trace s')
             = writes (trace s)
               +++ (if (returncode cp =? 0)%Z
                    then [EvWrite (path_join (Ai.MEDIA_DIR e)
                                     ("screenshot-" ++ sn ++ "-"
                                      ++ stamp (clock e (clock_reads s)) ++ ".png"))
                                  (stdout cp)]
                    else [])).
Proof.
  intros e s sn v enter rest cp Hsn Hin Hp.
  unfold Ai.action_screenshot, Ai.require_serial, Common.adb_base.
  cbn [serial dry_run truthy_opt fmt_opt]. rewrite Hsn.
  prefix. apply wp_subprocess_run. known_proc.
  destruct (returncode cp =? 0)%Z; cbn [negb].
  - prefix. apply wp_pause. simp_state. rewrite Hin.
    repeat split; traces_agree.
  - prefix. destruct (Py.truthy (stderr cp)); prefix;
      apply wp_pause; simp_state; rewrite Hin;
      repeat split; traces_agree.
Qed.

Lemma screenshot_written_on_success_witness :
  writes (trace (snd (Ai.action_screenshot (bound false)
                        (env_with (all_exit 0 "PNG" ""))
                        (state_of (bound false) [""]))))
  = [EvWrite "/home/op/scripts/android_media/screenshot-ABC123-20240102-030405.png"
             "PNG"].
Proof.
  exact (proj2 (proj2 (@screenshot_written_on_success
                         (env_with (all_exit 0 "PNG" ""))
                         (state_of (bound false) [""]) "ABC123" true "" []
                         (mkCP 0 "PNG" "") eq_refl eq_refl eq_refl))).
Defined.

(** X11.  [action_screenrecord] on a bound device, dry-run off, when the
    recording and the pull both end: the recording is started first,
    then the pull of the recorded file to the host, whatever the status
    of the recording; the file on the device is removed only when the
    pull ended with status zero.  The host writes no file itself. *)
Theorem screenrecord_pulls_then_removes :
  forall (e : env) (s : state) (sn : string) (v : bool)
         (raw enter : string) (rest : list string) (cp1 cp2 : CompletedProcess),
    let d := Ai.screenrecord_duration (Py.strip raw) in
    let device_path :=
      "/sdcard/workbench-record-" ++ stamp (clock e (clock_reads s)) ++ ".mp4" in
    let host_path :=
      path_join (Ai.MEDIA_DIR e)
        ("screenrecord-" ++ sn ++ "-" ++ stamp (clock e (clock_reads s)) ++ ".mp4") in
    let rec_cmd :=
      ["adb"; "-s"; sn; "shell"; "screenrecord"; "--time-limit"; Py.str_of_Z d;
       device_path] in
    let pull_cmd := ["adb"; "-s"; sn; "pull"; device_path; host_path] in
    let rm_cmd := ["adb"; "-s"; sn; "shell"; "rm"; "-f"; device_path] in
    Py.truthy sn = true ->
    stdin s = raw :: enter :: rest ->
    proc e (List.length (execs (trace s))) rec_cmd = Exited cp1 ->
    proc e (S (List.length (execs (trace s)))) pull_cmd = Exited cp2 ->
    wp (Ai.action_screenrecord (mkCtx (Some sn) false v)) e s
       (fun r s' =>
          writes (trace s') = writes (trace s)
          /\ execs (trace s')
             = execs (trace s)
               +++ [EvExec rec_cmd (Some (d + 30)%Z); EvExec pull_cmd (Some 300%Z)]
               +++ (if (returncode cp2 =? 0)%Z
                    then [EvExec rm_cmd (Some 30%Z)] else [])).
Proof.
  intros e s sn v raw enter rest cp1 cp2
         d device_path host_path rec_cmd pull_cmd rm_cmd Hsn Hin Hp1 Hp2.
  subst d device_path host_path rec_cmd pull_cmd rm_cmd.
  unfold Ai.action_screenrecord, Ai.require_serial, Common.adb_base.
  cbn [serial dry_run truthy_opt fmt_opt]. rewrite Hsn.
  prefix. apply wp_input. simp_state. rewrite Hin.
  prefix. apply wp_subprocess_run. known_proc.
  prefix. apply wp_subprocess_run. known_proc.
  prefix. destruct (returncode cp2 =? 0)%Z; sym; split; traces_agree.
Qed.

(** A pull that fails: the recording stays on the device. *)
Lemma screenrecord_pulls_then_removes_witness :
  List.length (execs (trace (snd (Ai.action_screenrecord (bound false)
                                    (env_with (all_exit 1 "" "no device"))
                                    (state_of (bound false) ["5"; ""])))))
  = 2.
Proof.
  exact (f_equal (@List.length event)
           (proj2 (@screenrecord_pulls_then_removes
                     (env_with (all_exit 1 "" "no device"))
                     (state_of (bound false) ["5"; ""]) "ABC123" true "5" "" []
                     (mkCP 1 "" "no device") (mkCP 1 "" "no device")
                     eq_refl eq_refl eq_refl eq_refl))).
Defined.

(** ** The log handler *)

Section LogChoices.

(** The facts asked of the final state, once it is explicit. *)
Ltac nothing_done :=
  cbn [log trace ctx stdin];
  repeat split;
  [ rewrite ?execs_snoc; cbn [is_exec]; now rewrite ?app_nil_r
  | rewrite ?writes_snoc; cbn [is_write]; now rewrite ?app_nil_r
  | eexists; eexists; reflexivity ].

Ltac chosen Hpick :=
  rewrite Hpick; cbn [String.eqb Ascii.eqb Bool.eqb andb negb].

Ltac no_token H :=
  unfold known_log_choice, log_choices in H;
  cbn [map existsb String.append] in H;
  repeat match goal with
         | H : (_ || _) = false |- _ =>
             apply orb_false_iff in H; let H1 := fresh in destruct H as [H1 H]
         end;
  repeat match goal with
         | H : (_ =? _) = false |- _ => rewrite H; clear H
         end.

Variables (e : env) (c : Ctx).
Hypothesis Hdev : truthy_opt (serial c) = true.

Lemma ai_logcat_unknown s pick rest :
  stdin s = pick :: rest ->
  known_log_choice "l" (Py.lower (Py.strip pick)) = false ->
  returns_at_once (Ai.action_logcat_lab c) e s pick.
Proof.
  intros Hin Hk.
  unfold returns_at_once, Ai.action_logcat_lab, Ai.logcat_branch, Ai.logcat_finish.
  rewrite Hdev. cbn [negb]. prefix. apply wp_input. cbn [stdin log]. rewrite Hin.
  destruct (Py.lower (Py.strip pick) =? "b"); [prefix; nothing_done|].
  no_token Hk. prefix. nothing_done.
Qed.

Lemma v12_logcat_unknown s pick rest :
  stdin s = pick :: rest ->
  known_log_choice "" (Py.lower (Py.strip pick)) = false ->
  returns_at_once (V12.action_logcat_lab c) e s pick.
Proof.
  intros Hin Hk.
  unfold returns_at_once, V12.action_logcat_lab, V12.logcat_branch, V12.logcat_finish.
  rewrite Hdev. cbn [negb]. prefix. apply wp_input. cbn [stdin log]. rewrite Hin.
  destruct (Py.lower (Py.strip pick) =? "b"); [prefix; nothing_done|].
  no_token Hk. prefix. nothing_done.
Qed.

Lemma v01_logcat_unknown s pick rest :
  stdin s = pick :: rest ->
  known_log_choice "" (Py.lower (Py.strip pick)) = false ->
  returns_at_once (V01.action_logcat_lab c) e s pick.
Proof.
  intros Hin Hk.
  unfold returns_at_once, V01.action_logcat_lab, V01.logcat_command.
  rewrite Hdev. cbn [negb]. prefix. apply wp_input. cbn [stdin log]. rewrite Hin.
  destruct (Py.lower (Py.strip pick) =? "b"); [prefix; nothing_done|].
  no_token Hk. prefix. nothing_done.
Qed.

Variable ans : string.
Hypothesis Hno : (Py.strip ans =? "YES") = false.

Lemma ai_logcat_unconfirmed s pick rest :
  stdin s = pick :: ans :: rest ->
  Py.lower (Py.strip pick) = "l8" ->
  returns_at_once (Ai.action_logcat_lab c) e s ans.
Proof.
  intros Hin Hpick.
  unfold returns_at_once, Ai.action_logcat_lab, Ai.logcat_branch, Ai.logcat_finish.
  rewrite Hdev. cbn [negb]. prefix. apply wp_input. cbn [stdin log]. rewrite Hin.
  chosen Hpick. prefix. apply wp_input. cbn [stdin]. rewrite Hno. cbn [negb].
  prefix. nothing_done.
Qed.

Lemma v12_logcat_unconfirmed s pick rest :
  stdin s = pick :: ans :: rest ->
  Py.lower (Py.strip pick) = "8" ->
  returns_at_once (V12.action_logcat_lab c) e s ans.
Proof.
  intros Hin Hpick.
  unfold returns_at_once, V12.action_logcat_lab, V12.logcat_branch, V12.logcat_finish.
  rewrite Hdev. cbn [negb]. prefix. apply wp_input. cbn [stdin log]. rewrite Hin.
  chosen Hpick. prefix. apply wp_input. cbn [stdin]. rewrite Hno. cbn [negb].
  prefix. nothing_done.
Qed.

Lemma v01_logcat_unconfirmed s pick rest :
  stdin s = pick :: ans :: rest ->
  Py.lower (Py.strip pick) = "8" ->
  returns_at_once (V01.action_logcat_lab c) e s ans.
Proof.
  intros Hin Hpick.
  unfold returns_at_once, V01.action_logcat_lab, V01.logcat_command.
  rewrite Hdev. cbn [negb]. prefix. apply wp_input. cbn [stdin log]. rewrite Hin.
  chosen Hpick. prefix. apply wp_input. cbn [stdin]. rewrite Hno. cbn [negb].
  prefix. nothing_done.
Qed.

End LogChoices.

(** X12.  In the log handler of each program, with a device bound, a
    choice that is none of the eight sub-mode tokens ("b", the empty
    line, anything else) makes the handler return right after reading
    it: no child process, no file, no pause. *)
Theorem logcat_other_choice_goes_back :
  forall (e : env) (c : Ctx) (s : state) (pick : string) (rest : list string),
    truthy_opt (serial c) = true ->
    stdin s = pick :: rest ->
    (known_log_choice "l" (Py.lower (Py.strip pick)) = false ->
     returns_at_once (Ai.action_logcat_lab c) e s pick)
    /\ (known_log_choice "" (Py.lower (Py.strip pick)) = false ->
        returns_at_once (V12.action_logcat_lab c) e s pick
        /\ returns_at_once (V01.action_logcat_lab c) e s pick).
Proof.
  intros e c s pick rest Hdev Hin. split.
  - intros Hk. eapply ai_logcat_unknown; eauto.
  - intros Hk. split; [eapply v12_logcat_unknown | eapply v01_logcat_unknown]; eauto.
Qed.

(** The token of [android_workbench_ai.py] typed in the older menu. *)
Lemma logcat_other_choice_goes_back_witness :
  returns_at_once (V12.action_logcat_lab (bound false)) hang_env
                  (state_of (bound false) ["L1"]) "L1".
Proof.
  exact (proj1 (proj2 (@logcat_other_choice_goes_back
                         hang_env (bound false) (state_of (bound false) ["L1"])
                         "L1" [] eq_refl eq_refl) eq_refl)).
Defined.

(** X13.  Clearing the log buffers is guarded by the exact answer: in
    each program, with a device bound, an answer to the confirmation
    prompt that is not "YES" once stripped (so "yes", "Y" or nothing)
    makes the handler return at once, having started no child process. *)
Theorem logcat_clear_needs_exact_yes :
  forall (e : env) (c : Ctx) (s : state) (pick ans : string) (rest : list string),
    truthy_opt (serial c) = true ->
    stdin s = pick :: ans :: rest ->
    Py.strip ans <> "YES" ->
    (Py.lower (Py.strip pick) = "l8" ->
     returns_at_once (Ai.action_logcat_lab c) e s ans)
    /\ (Py.lower (Py.strip pick) = "8" ->
        returns_at_once (V12.action_logcat_lab c) e s ans
        /\ returns_at_once (V01.action_logcat_lab c) e s ans).
Proof.
  intros e c s pick ans rest Hdev Hin Hno.
  apply String.eqb_neq in Hno. split.
  - intros Hpick. eapply ai_logcat_unconfirmed; eauto.
  - intros Hpick.
    split; [eapply v12_logcat_unconfirmed | eapply v01_logcat_unconfirmed]; eauto.
Qed.

Lemma logcat_clear_needs_exact_yes_witness :
  returns_at_once (Ai.action_logcat_lab (bound false)) hang_env
                  (state_of (bound false) ["l8"; "yes"]) "yes".
Proof.
  exact (proj1 (@logcat_clear_needs_exact_yes
                  hang_env (bound false) (state_of (bound false) ["l8"; "yes"])
                  "l8" "yes" [] eq_refl eq_refl
                  (fun H => match H in _ = y
                                  return match y with
                                         | String "y" _ => True
                                         | _ => False
                                         end
                            with eq_refl => I end))
               eq_refl).
Defined.

Ltac chosen Hpick :=
  rewrite Hpick; cbn [String.eqb Ascii.eqb Bool.eqb andb negb].

(** X14.  Live follow, on a bound device with dry-run off.  The two
    later programs stream: the command is started without a time limit,
    its exit status is ignored, and the handler returns without a pause
    (only the operator's interrupt ends a command that does not end).
    [android_workbench.py] captures the same command for at most sixty
    seconds, so that a command that does not end raises
    [TimeoutExpired] out of the handler. *)
Theorem live_follow_streams_or_captures :
  forall (e : env) (s : state) (sn : string) (v : bool) (pick : string) (rest : list string),
    Py.truthy sn = true ->
    stdin s = pick :: rest ->
    let cmd := ["adb"; "-s"; sn; "logcat"; "-b"; "all"; "-v"; "time"] in
    let n := List.length (execs (trace s)) in
    let streamed (r : outcome unit) (s' : state) :=
      execs (trace s') = execs (trace s) +++ [EvExec cmd None]
      /\ writes (trace s') = writes (trace s)
      /\ stdin s' = rest
      /\ r = match proc e n cmd with
             | Exited _ => Ok tt
             | Hung => Raise KeyboardInterrupt
             end in
    let captured (r : outcome unit) (s' : state) :=
      execs (trace s') = execs (trace s) +++ [EvExec cmd (Some 60%Z)]
      /\ writes (trace s') = writes (trace s)
      /\ (proc e n cmd = Hung -> r = Raise (TimeoutExpired cmd 60)) in
    (Py.lower (Py.strip pick) = "l2" ->
     wp (Ai.action_logcat_lab (mkCtx (Some sn) false v)) e s streamed)
    /\ (Py.lower (Py.strip pick) = "2" ->
        wp (V12.action_logcat_lab (mkCtx (Some sn) false v)) e s streamed
        /\ wp (V01.action_logcat_lab (mkCtx (Some sn) false v)) e s captured).
Proof.
  intros e s sn v pick rest Hsn Hin cmd n streamed captured.
  subst cmd n streamed captured. split; [|split].
  - intros Hpick.
    unfold Ai.action_logcat_lab, Ai.logcat_branch, Ai.logcat_finish,
      Common.run_stream, Common.adb_base.
    cbn [serial dry_run truthy_opt fmt_opt]. rewrite Hsn. cbn [negb].
    prefix. apply wp_input. cbn [stdin log]. rewrite Hin. chosen Hpick.
    prefix. apply wp_subprocess_run. proc_index.
    destruct (proc e _ _); cbn [andb]; prefix; repeat split; traces_agree.
  - unfold V12.action_logcat_lab, V12.logcat_branch, V12.logcat_finish,
      Common.run_stream, Common.adb_base.
    cbn [serial dry_run truthy_opt fmt_opt]. rewrite Hsn. cbn [negb].
    prefix. apply wp_input. cbn [stdin log]. rewrite Hin. chosen H.
    prefix. apply wp_subprocess_run. proc_index.
    destruct (proc e _ _); cbn [andb]; prefix; repeat split; traces_agree.
  - unfold V01.action_logcat_lab, V01.logcat_command, Common.adb_base.
    cbn [serial dry_run truthy_opt fmt_opt]. rewrite Hsn. cbn [negb].
    prefix. apply wp_input. cbn [stdin log]. rewrite Hin. chosen H.
    prefix. apply wp_run. proc_index.
    destruct (proc e _ _) as [cp|] eqn:Hp.
    + sym; repeat split; try traces_agree; discriminate.
    + repeat split; traces_agree.
Qed.

(** A command that never ends, in the first program. *)
Lemma live_follow_streams_or_captures_witness :
  fst (V01.action_logcat_lab (bound false) hang_env (state_of (bound false) ["2"]))
  = Raise (TimeoutExpired ["adb"; "-s"; "ABC123"; "logcat"; "-b"; "all"; "-v"; "time"] 60).
Proof.
  exact (proj2 (proj2 (proj2 (proj2 (@live_follow_streams_or_captures
                  hang_env (state_of (bound false) ["2"]) "ABC123" true "2" []
                  eq_refl eq_refl) eq_refl))) eq_refl).
Defined.

(** X15.  Saving the log to a file, on a bound device with dry-run off,
    when the dump ends with status zero: each program creates the log
    directory, runs the dump, writes the text captured, unchanged, to
    [logcat-<device>-<timestamp>.txt] in that directory, prints the
    path and not the text, pauses and ends normally. *)
Theorem logcat_saved_to_file :
  forall (e : env) (s : state) (sn : string) (v : bool)
         (pick enter : string) (rest : list string) (cp : CompletedProcess),
    Py.truthy sn = true ->
    stdin s = pick :: enter :: rest ->
    proc e (List.length (execs (trace s))) (dump_cmd sn) = Exited cp ->
    returncode cp = 0%Z ->
    let path :=
      path_join (Common.LOG_DIR e)
        ("logcat-" ++ sn ++ "-" ++ stamp (clock e (clock_reads s)) ++ ".txt") in
    let saved (r : outcome unit) (s' : state) :=
      r = Ok tt
      /\ exists pre,
           trace s'
           = pre +++ [EvMkdir (Common.LOG_DIR e);
                      EvExec (dump_cmd sn) (Some 60%Z);
                      EvWrite path (stdout cp);
                      EvPrint (("Wrote: " ++ path) ++ LF);
                      press_enter enter] in
    (Py.lower (Py.strip pick) = "l7" ->
     wp (Ai.action_logcat_lab (mkCtx (Some sn) false v)) e s saved)
    /\ (Py.lower (Py.strip pick) = "7" ->
        wp (V12.action_logcat_lab (mkCtx (Some sn) false v)) e s saved
        /\ wp (V01.action_logcat_lab (mkCtx (Some sn) false v)) e s saved).
Proof.
  intros e s sn v pick enter rest cp Hsn Hin Hp Hrc path saved.
  subst path saved. unfold dump_cmd in *. split; [|split].
  - intros Hpick.
    unfold Ai.action_logcat_lab, Ai.logcat_branch, Ai.logcat_finish, Common.adb_base.
    cbn [serial dry_run truthy_opt fmt_opt]. rewrite Hsn. cbn [negb].
    prefix. apply wp_input. cbn [stdin log]. rewrite Hin. chosen Hpick.
    prefix. apply wp_run. known_proc. rewrite Hrc. cbn [Z.eqb negb].
    prefix. apply wp_pause. simp_state. split; [reflexivity|].
    rewrite <- !app_assoc. cbn [app].
    eexists. exact (app_assoc (trace s) [_; _; _] _).
  - unfold V12.action_logcat_lab, V12.logcat_branch, V12.logcat_finish, Common.adb_base.
    cbn [serial dry_run truthy_opt fmt_opt]. rewrite Hsn. cbn [negb].
    prefix. apply wp_input. cbn [stdin log]. rewrite Hin. chosen H.
    prefix. apply wp_run. known_proc. rewrite Hrc. cbn [Z.eqb negb].
    prefix. apply wp_pause. simp_state. split; [reflexivity|].
    rewrite <- !app_assoc. cbn [app].
    eexists. exact (app_assoc (trace s) [_; _; _] _).
  - unfold V01.action_logcat_lab, V01.logcat_command, Common.adb_base.
    cbn [serial dry_run truthy_opt fmt_opt]. rewrite Hsn. cbn [negb].
    prefix. apply wp_input. cbn [stdin log]. rewrite Hin. chosen H.
    prefix. apply wp_run. known_proc. rewrite Hrc. cbn [Z.eqb negb].
    prefix. apply wp_pause. simp_state. split; [reflexivity|].
    rewrite <- !app_assoc. cbn [app].
    eexists. exact (app_assoc (trace s) [_; _; _] _).
Qed.

Lemma logcat_saved_to_file_witness :
  fst (V01.action_logcat_lab (bound false) (env_with (all_exit 0 "log" ""))
         (state_of (bound false) ["7"; ""]))
  = Ok tt.
Proof.
  exact (proj1 (proj2 (proj2 (@logcat_saved_to_file
                  (env_with (all_exit 0 "log" "")) (state_of (bound false) ["7"; ""])
                  "ABC123" true "7" "" [] (mkCP 0 "log" "")
                  eq_refl eq_refl eq_refl eq_refl) eq_refl))).
Defined.

(** ** The host-side filters *)

Section Lines.

Lemma splitlines_no_break_upto (n : nat) :
  forall s : string,
    String.length s <= n ->
    Forall (fun l => no_break l = true) (Py.splitlines s).
Proof.
  induction n as [|n IH]; intros s Hl.
  - destruct s; [constructor | cbn in Hl; lia].
  - destruct s as [|c r]; [constructor|]. cbn [String.length] in Hl.
    change (Py.splitlines (String c r))
      with (if Py.is_linebreak c then
              match r with
              | String c' r' =>
                  if Py.is_cr c && Py.is_lf c' then EmptyString :: Py.splitlines r'
                  else EmptyString :: Py.splitlines r
              | EmptyString => [EmptyString]
              end
            else match Py.splitlines r with
                 | l :: ls => String c l :: ls
                 | [] => [String c EmptyString]
                 end).
    destruct (Py.is_linebreak c) eqn:Hc.
    + destruct r as [|c' r']; [repeat constructor|].
      cbn [String.length] in Hl.
      destruct (Py.is_cr c && Py.is_lf c'); constructor; try reflexivity;
        apply IH; cbn [String.length]; lia.
    + assert (Hr : Forall (fun l => no_break l = true) (Py.splitlines r))
        by (apply IH; lia).
      destruct (Py.splitlines r) as [|l ls].
      * constructor; [|constructor]. unfold no_break. cbn [Py.all_chars].
        now rewrite Hc.
      * inversion Hr as [|? ? Hl0 Hls]; subst. constructor; [|exact Hls].
        unfold no_break in *. cbn [Py.all_chars]. now rewrite Hc.
Qed.

(** No line of [splitlines] holds a line boundary. *)
Lemma splitlines_no_break (s : string) :
  Forall (fun l => no_break l = true) (Py.splitlines s).
Proof. apply (@splitlines_no_break_upto (String.length s)). lia. Qed.

Lemma filter_no_break (p : string -> bool) (s : string) :
  Forall (fun l => no_break l = true) (filter p (Py.splitlines s)).
Proof.
  apply Forall_forall. intros l Hl. apply filter_In in Hl. destruct Hl as [Hl _].
  pose proof (splitlines_no_break s) as H. rewrite Forall_forall in H. now apply H.
Qed.

(** Joining lines and splitting again loses a final empty line, and
    nothing else. *)
Lemma splitlines_join_lines (rows : list string) :
  Forall (fun l => no_break l = true) rows ->
  Py.splitlines (Py.join LF rows) = drop_final_empty rows.
Proof.
  induction rows as [|r rows IH]; [reflexivity|].
  intros H. inversion H as [|? ? Hb Hrest]; subst.
  destruct rows as [|r2 rows].
  - cbn [drop_final_empty]. destruct r as [|c r]; [reflexivity|].
    cbn [Py.truthy]. apply splitlines_one; [exact Hb | discriminate].
  - change (Py.join LF (r :: r2 :: rows)) with (r ++ LF ++ Py.join LF (r2 :: rows)).
    rewrite splitlines_line by exact Hb. now rewrite (IH Hrest).
Qed.

Lemma drop_final_empty_nonempty (rows : list string) :
  Forall (fun l => l <> EmptyString) rows -> drop_final_empty rows = rows.
Proof.
  induction rows as [|r rows IH]; [reflexivity|].
  intros H. inversion H as [|? ? Hr Hrest]; subst.
  destruct rows as [|r2 rows].
  - cbn [drop_final_empty]. destruct r; [congruence | reflexivity].
  - change (drop_final_empty (r :: r2 :: rows)) with (r :: drop_final_empty (r2 :: rows)).
    now rewrite (IH Hrest).
Qed.

Lemma avc_line_nonempty (l : string) : is_avc_line l = true -> l <> EmptyString.
Proof. intros H ->. discriminate H. Qed.

End Lines.


(** ** The status action *)

(** X17.  [action_status] asks [adb] first and [fastboot] second, each
    for at most ten seconds and without naming a device; the second
    listing is started only when the first ended with status zero.  It
    writes no file, in any of the three programs. *)
Theorem status_lists_adb_then_fastboot :
  forall (c : Ctx) (e : env) (s : state),
    wp (Common.action_status c) e s
       (fun r s' =>
          writes (trace s') = writes (trace s)
          /\ execs (trace s')
             = execs (trace s)
               +++ EvExec list_cmd (Some 10%Z)
                   :: match proc e (List.length (execs (trace s))) list_cmd with
                      | Exited cp =>
                          if (returncode cp =? 0)%Z
                          then [EvExec ["fastboot"; "devices"] (Some 10%Z)]
                          else []
                      | Hung => []
                      end).
Proof.
  intros c e s. unfold Common.action_status, list_cmd.
  prefix. apply wp_run. proc_index.
  destruct (proc e _ _) as [cp|]; [|split; traces_agree].
  cbn [andb]. destruct (returncode cp =? 0)%Z; cbn [negb]; [|split; traces_agree].
  sym; split; traces_agree.
Qed.

(** ** The main menus *)

Section WpMore.

Variables (e : env) (s : state).

Lemma wp_try_except {A} (m : M A) (h : exn -> option (M A))
    (Q : outcome A -> state -> Prop) :
  wp m e s (fun r s1 =>
              match r with
              | Ok a => Q (Ok a) s1
              | Raise x =>
                  match h x with
                  | Some k => wp k e s1 Q
                  | None => Q (Raise x) s1
                  end
              end) ->
  wp (try_except m h) e s Q.
Proof.
  unfold wp, try_except. destruct (m e s) as [[a|x] s1]; cbn [fst snd]; auto.
  destruct (h x); auto.
Qed.

Lemma wp_set_dry_run (b : bool) (Q : outcome unit -> state -> Prop) :
  Q (Ok tt) (mkState (mkCtx (serial (ctx s)) b (verbose (ctx s)))
                     (stdin s) (clock_reads s) (trace s)) ->
  wp (set_dry_run b) e s Q.
Proof. auto. Qed.

End WpMore.

(** The start of a turn, up to the choice read. *)
Ltac turn_reads_choice Hin Hpick :=
  unfold V01.menu_iteration, V12.menu_iteration, Ai.menu_iteration,
    Common.clear, print_end, V01.status_line, V12.status_line, Ai.status_line;
  prefix; apply wp_input; simp_state; rewrite Hin, Hpick;
  cbn [String.eqb Ascii.eqb Bool.eqb andb negb].

Ltac turn_done :=
  simp_state; repeat split; traces_agree.

Lemma loop_quits (step : M bool) (loop : nat -> M (option unit)) (e : env) (s : state) :
  (forall n, loop (S n) = bind step (fun again => if again then loop n else ret (Some tt))) ->
  fst (step e s) = Ok false ->
  forall fuel, fst (loop (S fuel) e s) = Ok (Some tt).
Proof.
  intros Hunfold Hstep fuel. rewrite Hunfold. unfold bind.
  destruct (step e s) as [r s']. cbn [fst] in Hstep. now subst r.
Qed.

Lemma loop_raises (step : M bool) (loop : nat -> M (option unit)) (e : env) (s : state)
    (x : exn) :
  (forall n, loop (S n) = bind step (fun again => if again then loop n else ret (Some tt))) ->
  fst (step e s) = Raise x ->
  forall fuel, fst (loop (S fuel) e s) = Raise x.
Proof.
  intros Hunfold Hstep fuel. rewrite Hunfold. now apply bind_raise.
Qed.

(** X18.  The two choices every main menu handles itself.  On "d" (in
    any case, with any white space around) the turn inverts the dry-run
    flag and goes on to the next turn; on "q" it leaves the context as
    it is and ends the loop normally.  Either way the turn reads that
    one line only, starts no child process and writes no file. *)
Theorem menu_toggle_and_quit :
  forall (e : env) (s : state) (raw : string) (rest : list string),
    stdin s = raw :: rest ->
    let quiet_turn (again : bool) (c' : Ctx) (r : outcome bool) (s' : state) :=
      r = Ok again /\ ctx s' = c' /\ stdin s' = rest
      /\ execs (trace s') = execs (trace s)
      /\ writes (trace s') = writes (trace s) in
    (Py.lower (Py.strip raw) = "d" ->
     wp V01.menu_iteration e s (quiet_turn true (toggled (ctx s)))
     /\ wp V12.menu_iteration e s (quiet_turn true (toggled (ctx s)))
     /\ wp Ai.menu_iteration e s (quiet_turn true (toggled (ctx s))))
    /\ (Py.lower (Py.strip raw) = "q" ->
        (wp V01.menu_iteration e s (quiet_turn false (ctx s))
         /\ wp V12.menu_iteration e s (quiet_turn false (ctx s))
         /\ wp Ai.menu_iteration e s (quiet_turn false (ctx s)))
        /\ forall fuel,
             fst (V01.menu_loop (S fuel) e s) = Ok (Some tt)
             /\ fst (V12.menu_loop (S fuel) e s) = Ok (Some tt)
             /\ fst (Ai.menu_loop (S fuel) e s) = Ok (Some tt)).
Proof.
  intros e s raw rest Hin quiet_turn. subst quiet_turn. split.
  - intros Hpick.
    repeat match goal with |- _ /\ _ => split end;
      turn_reads_choice Hin Hpick; prefix; apply wp_set_dry_run; prefix; turn_done.
  - intros Hpick.
    assert (H : wp V01.menu_iteration e s
                  (fun r s' => r = Ok false /\ ctx s' = ctx s /\ stdin s' = rest
                               /\ execs (trace s') = execs (trace s)
                               /\ writes (trace s') = writes (trace s))
                /\ wp V12.menu_iteration e s
                     (fun r s' => r = Ok false /\ ctx s' = ctx s /\ stdin s' = rest
                                  /\ execs (trace s') = execs (trace s)
                                  /\ writes (trace s') = writes (trace s))
                /\ wp Ai.menu_iteration e s
                     (fun r s' => r = Ok false /\ ctx s' = ctx s /\ stdin s' = rest
                                  /\ execs (trace s') = execs (trace s)
                                  /\ writes (trace s') = writes (trace s))).
    { repeat match goal with |- _ /\ _ => split end;
        turn_reads_choice Hin Hpick; prefix; turn_done. }
    split; [exact H|].
    destruct H as [[H01 _] [[H12 _] [Hai _]]].
    intros fuel. repeat split.
    + now apply (@loop_quits V01.menu_iteration V01.menu_loop).
    + now apply (@loop_quits V12.menu_iteration V12.menu_loop).
    + now apply (@loop_quits Ai.menu_iteration Ai.menu_loop).
Qed.

Lemma menu_toggle_and_quit_witness :
  fst (Ai.menu_loop 1 hang_env (state_of (bound false) [" Q "])) = Ok (Some tt).
Proof.
  exact (proj2 (proj2 (proj2 (proj2 (@menu_toggle_and_quit
                  hang_env (state_of (bound false) [" Q "]) " Q " [] eq_refl)
                  eq_refl) 0))).
Defined.

(** X19.  Standard input closed at the prompt of a main menu: the turn
    ends in [EOFError], which no [except] clause of any of the programs
    covers, so that the loop ends with it; the banner and the menu were
    shown, nothing was started or written.  And a turn that ends
    normally has always read at least one line. *)
Theorem menu_ends_when_input_closes :
  forall (e : env) (s : state),
    (stdin s = [] ->
     let closed (r : outcome bool) (s' : state) :=
       r = Raise EOFError /\ ctx s' = ctx s
       /\ execs (trace s') = execs (trace s)
       /\ writes (trace s') = writes (trace s) in
     (wp V01.menu_iteration e s closed
      /\ wp V12.menu_iteration e s closed
      /\ wp Ai.menu_iteration e s closed)
     /\ forall fuel,
          fst (V01.menu_loop (S fuel) e s) = Raise EOFError
          /\ fst (V12.menu_loop (S fuel) e s) = Raise EOFError
          /\ fst (Ai.menu_loop (S fuel) e s) = Raise EOFError)
    /\ turn_reads V01.menu_iteration e s
    /\ turn_reads V12.menu_iteration e s
    /\ turn_reads Ai.menu_iteration e s.
Proof.
  intros e s. split.
  - intros Hin closed. subst closed.
    assert (H : wp V01.menu_iteration e s
                  (fun r s' => r = Raise EOFError /\ ctx s' = ctx s
                               /\ execs (trace s') = execs (trace s)
                               /\ writes (trace s') = writes (trace s))
                /\ wp V12.menu_iteration e s
                     (fun r s' => r = Raise EOFError /\ ctx s' = ctx s
                                  /\ execs (trace s') = execs (trace s)
                                  /\ writes (trace s') = writes (trace s))
                /\ wp Ai.menu_iteration e s
                     (fun r s' => r = Raise EOFError /\ ctx s' = ctx s
                                  /\ execs (trace s') = execs (trace s)
                                  /\ writes (trace s') = writes (trace s))).
    { repeat match goal with |- _ /\ _ => split end;
        unfold V01.menu_iteration, V12.menu_iteration, Ai.menu_iteration,
          Common.clear, print_end, V01.status_line, V12.status_line, Ai.status_line;
        prefix; apply wp_input; simp_state; rewrite Hin; turn_done. }
    split; [exact H|].
    destruct H as [[H01 _] [[H12 _] [Hai _]]].
    intros fuel. repeat split.
    + now apply (@loop_raises V01.menu_iteration V01.menu_loop).
    + now apply (@loop_raises V12.menu_iteration V12.menu_loop).
    + now apply (@loop_raises Ai.menu_iteration Ai.menu_loop).
  - split; [|split].
    + apply turn_post_frame, v01_turn_post.
    + apply turn_post_frame, v12_turn_post.
    + apply turn_post_frame, ai_turn_post.
Qed.

Lemma menu_ends_when_input_closes_witness :
  fst (V12.menu_loop 1 hang_env (state_of (bound false) [])) = Raise EOFError.
Proof.
  exact (proj1 (proj2 (proj2 (proj1 (@menu_ends_when_input_closes
                  hang_env (state_of (bound false) [])) eq_refl) 0))).
Defined.

Ltac sym_try :=
  repeat (first [ wp_step | wp_io | sym_branch
                | progress cbn [V12.on_error Ai.on_error] ];
          cbn [stdin log ctx trace clock_reads andb negb]; cbv zeta).

Ltac in_context Hctx Hsn :=
  simp_state; rewrite ?Hctx;
  cbn [serial dry_run verbose truthy_opt fmt_opt String.eqb Ascii.eqb Bool.eqb andb negb];
  rewrite ?Hsn; cbn [negb].

(** X20.  The reboot option of the main menus, with a device bound.  In
    the two later programs dry-run is honoured: with the flag set the
    turn starts nothing, and with the flag off it starts the reboot
    command once, allowed thirty seconds.  [android_workbench.py] never
    reads the flag here: it starts the reboot command in both cases.
    No program writes a file. *)
Theorem reboot_option_and_dry_run :
  forall (e : env) (s : state) (sn : string) (dry v : bool)
         (raw : string) (rest : list string),
    ctx s = mkCtx (Some sn) dry v ->
    Py.truthy sn = true ->
    stdin s = raw :: rest ->
    Py.lower (Py.strip raw) = "3" ->
    let cmd := ["adb"; "-s"; sn; "reboot"; "bootloader"] in
    let starts (evs : list event) (r : outcome bool) (s' : state) :=
      execs (trace s') = execs (trace s) +++ evs
      /\ writes (trace s') = writes (trace s) in
    wp V12.menu_iteration e s (starts (if dry then [] else [EvExec cmd (Some 30%Z)]))
    /\ wp Ai.menu_iteration e s (starts (if dry then [] else [EvExec cmd (Some 30%Z)]))
    /\ wp V01.menu_iteration e s (starts [EvExec cmd (Some 30%Z)]).
Proof.
  intros e s sn dry v raw rest Hctx Hsn Hin Hpick cmd starts. subst cmd starts.
  split; [|split].
  - turn_reads_choice Hin Hpick. prefix. apply wp_try_except.
    unfold V12.dispatch, Common.adb_base. prefix. in_context Hctx Hsn.
    destruct dry; sym_try; split; traces_agree.
  - turn_reads_choice Hin Hpick. prefix. apply wp_try_except.
    unfold Ai.dispatch, Common.adb_base. prefix. in_context Hctx Hsn.
    destruct dry; sym_try; split; traces_agree.
  - turn_reads_choice Hin Hpick. unfold Common.adb_base. prefix.
    in_context Hctx Hsn. sym_try; split; traces_agree.
Qed.

(** Dry-run set, on the first program: the device is rebooted. *)
Lemma reboot_option_and_dry_run_witness :
  execs (trace (snd (V01.menu_iteration silent_env (state_of (bound true) ["3"]))))
  = [EvExec ["adb"; "-s"; "ABC123"; "reboot"; "bootloader"] (Some 30%Z)].
Proof.
  exact (proj1 (proj2 (proj2 (@reboot_option_and_dry_run
                  silent_env (state_of (bound true) ["3"]) "ABC123" true true "3" []
                  eq_refl eq_refl eq_refl eq_refl)))).
Defined.

Section Start.

Lemma wp_new_ctx (e : env) (s : state) (c : Ctx) (Q : outcome unit -> state -> Prop) :
  Q (Ok tt) (mkState c (stdin s) (clock_reads s) (trace s)) ->
  wp (new_ctx c) e s Q.
Proof. auto. Qed.

Lemma wp_set_serial (e : env) (s : state) (o : option string)
    (Q : outcome unit -> state -> Prop) :
  Q (Ok tt) (mkState (mkCtx o (dry_run (ctx s)) (verbose (ctx s)))
                     (stdin s) (clock_reads s) (trace s)) ->
  wp (set_serial o) e s Q.
Proof. auto. Qed.

(** Choosing among the devices only talks to the terminal. *)
Lemma pick_among_quiet (indent : string) (serials : list string) :
  respects quiet_event (Common.pick_among indent serials).
Proof.
  unfold Common.pick_among.
  destruct (Nat.eqb (List.length serials) 0); [apply respects_ret; side|].
  destruct (Nat.eqb (List.length serials) 1); [apply respects_ret; side|].
  apply respects_bind; [apply respects_print; side|]. intros _.
  apply respects_bind;
    [apply respects_for_enumerate; intros; first [apply respects_print; side | side]|].
  intros _. respects_go.
Qed.

End Start.

Ltac start_steps :=
  repeat first
    [ wp_step
    | lazymatch goal with
      | |- wp (new_ctx _) _ _ _ => apply wp_new_ctx
      | |- wp (set_serial _) _ _ _ => apply wp_set_serial
      end ].

Ltac start_by_listing :=
  start_steps; unfold list_cmd; apply wp_run; proc_index;
  match goal with
  | |- match proc ?e ?k ?c with _ => _ end => destruct (proc e k c) as [?cp|]
  end;
  [ cbn [andb];
    lazymatch goal with
    | |- context [(returncode ?c =? 0)%Z] => destruct (returncode c =? 0)%Z
    end;
    cbn [negb];
    [ apply wp_respects with (allowed := quiet_event);
      [ apply pick_among_quiet
      | let Hk := fresh "Hk" in
        intros [picked|x] s2 Hk; apply keeps_quiet in Hk;
        destruct Hk as [Hc [He Hw]]; cbn [trace log ctx] in Hc, He, Hw;
        start_steps; simp_state; rewrite ?Hc, ?He, ?Hw; cbn [dry_run verbose];
        (split; [traces_agree|]; split; [traces_agree|]);
        first [ intros _; split; reflexivity | intros H; discriminate H ] ]
    | split; [traces_agree|]; split; [traces_agree|]; intros H; discriminate H ]
  | split; [traces_agree|]; split; [traces_agree|]; intros H; discriminate H ].

(** X21.  How [menu] binds the device before the loop.  A non-empty
    serial given by the caller is taken as it is: the context is that
    device with dry-run off, and nothing is run, printed or asked.
    Without one (or with an empty one) the device list is asked for,
    once, and nothing else is run; when the selection ends normally the
    session starts with dry-run off. *)
Theorem menu_start_binds_the_device :
  forall (e : env) (s : state) (arg : option string),
    (truthy_opt arg = true ->
     let given := (Ok tt, mkState (mkCtx arg false true)
                                  (stdin s) (clock_reads s) (trace s)) in
     V01.menu_start arg e s = given
     /\ V12.menu_start arg e s = given
     /\ Ai.menu_start arg e s = given)
    /\ (truthy_opt arg = false ->
        let listed (r : outcome unit) (s' : state) :=
          execs (trace s') = execs (trace s) +++ [EvExec list_cmd (Some 10%Z)]
          /\ writes (trace s') = writes (trace s)
          /\ (r = Ok tt -> dry_run (ctx s') = false /\ verbose (ctx s') = true) in
        wp (V01.menu_start arg) e s listed
        /\ wp (V12.menu_start arg) e s listed
        /\ wp (Ai.menu_start arg) e s listed).
Proof.
  intros e s arg. split.
  - intros Harg given. subst given.
    unfold V01.menu_start, V12.menu_start, Ai.menu_start. rewrite Harg.
    repeat split.
  - intros Harg listed. subst listed.
    unfold V01.menu_start, V12.menu_start, Ai.menu_start,
      V01.pick_adb_serial, V12.pick_adb_serial, Ai.pick_adb_serial.
    rewrite Harg.
    repeat match goal with |- _ /\ _ => split end; start_by_listing.
Qed.

Lemma menu_start_binds_the_device_witness :
  Ai.menu_start (Some "ABC123") hang_env (state_of (mkCtx None true false) ["q"])
  = (Ok tt, state_of (bound false) ["q"]).
Proof.
  exact (proj2 (proj2 (proj1 (@menu_start_binds_the_device
                  hang_env (state_of (mkCtx None true false) ["q"]) (Some "ABC123"))
                  eq_refl))).
Defined.

(** ** Further handlers of [android_workbench_ai.py] *)





(** One query that succeeds: the index is brought to successor form,
    the result is named, and the step is taken. *)
Ltac summary_query :=
  prefix;
  lazymatch goal with
  | |- wp (Ai.adb_getprop _ _) _ _ _ =>
      unfold Ai.adb_getprop, Common.adb_base;
      cbn [serial truthy_opt fmt_opt];
      match goal with
      | H : Py.truthy _ = true |- _ => rewrite H
      end;
      prefix
  | |- _ => idtac
  end;
  apply wp_run; proc_index;
  match goal with
  | Hall : all_succeed ?e |- match proc ?e ?k ?c with _ => _ end =>
      let cp := fresh "cp" in
      let Hp := fresh "Hp" in
      let Hrc := fresh "Hrc" in
      destruct (Hall k c) as [cp [Hp Hrc]]; rewrite Hp, Hrc; cbn [andb negb Z.eqb]
  end.



(** X26.  Clearing the log buffers once confirmed, with a device bound
    and the answer "YES": the clear command is started once.  The two
    later programs allow it thirty seconds, and run it whatever the
    dry-run flag; [android_workbench.py], with the flag off, allows it
    sixty.  No file is written. *)
Theorem logcat_clear_confirmed :
  forall (e : env) (s : state) (sn : string) (dry v : bool)
         (pick ans : string) (rest : list string),
    Py.truthy sn = true ->
    stdin s = pick :: ans :: rest ->
    Py.strip ans = "YES" ->
    let cmd := ["adb"; "-s"; sn; "logcat"; "-b"; "all"; "-c"] in
    let cleared (t : Z) (r : outcome unit) (s' : state) :=
      execs (trace s') = execs (trace s) +++ [EvExec cmd (Some t)]
      /\ writes (trace s') = writes (trace s) in
    (Py.lower (Py.strip pick) = "l8" ->
     wp (Ai.action_logcat_lab (mkCtx (Some sn) dry v)) e s (cleared 30%Z))
    /\ (Py.lower (Py.strip pick) = "8" ->
        wp (V12.action_logcat_lab (mkCtx (Some sn) dry v)) e s (cleared 30%Z)
        /\ wp (V01.action_logcat_lab (mkCtx (Some sn) false v)) e s (cleared 60%Z)).
Proof.
  intros e s sn dry v pick ans rest Hsn Hin Hyes cmd cleared. subst cmd cleared.
  split; [|split].
  - intros Hpick.
    unfold Ai.action_logcat_lab, Ai.logcat_branch, Ai.logcat_finish, Common.adb_base.
    cbn [serial dry_run truthy_opt fmt_opt]. rewrite Hsn. cbn [negb].
    prefix. apply wp_input. cbn [stdin log]. rewrite Hin. chosen Hpick.
    prefix. apply wp_input. cbn [stdin]. rewrite Hyes.
    cbn [String.eqb Ascii.eqb Bool.eqb andb negb].
    sym; split; traces_agree.
  - unfold V12.action_logcat_lab, V12.logcat_branch, V12.logcat_finish, Common.adb_base.
    cbn [serial dry_run truthy_opt fmt_opt]. rewrite Hsn. cbn [negb].
    prefix. apply wp_input. cbn [stdin log]. rewrite Hin. chosen H.
    prefix. apply wp_input. cbn [stdin]. rewrite Hyes.
    cbn [String.eqb Ascii.eqb Bool.eqb andb negb].
    sym; split; traces_agree.
  - unfold V01.action_logcat_lab, V01.logcat_command, Common.adb_base.
    cbn [serial dry_run truthy_opt fmt_opt]. rewrite Hsn. cbn [negb].
    prefix. apply wp_input. cbn [stdin log]. rewrite Hin. chosen H.
    prefix. apply wp_input. cbn [stdin]. rewrite Hyes.
    cbn [String.eqb Ascii.eqb Bool.eqb andb negb].
    sym; split; traces_agree.
Qed.

Lemma logcat_clear_confirmed_witness :
  execs (trace (snd (V01.action_logcat_lab (bound false) silent_env
                       (state_of (bound false) ["8"; " YES "; ""]))))
  = [EvExec ["adb"; "-s"; "ABC123"; "logcat"; "-b"; "all"; "-c"] (Some 60%Z)].
Proof.
  exact (proj1 (proj2 (proj2 (@logcat_clear_confirmed
                  silent_env (state_of (bound false) ["8"; " YES "; ""])
                  "ABC123" false true "8" " YES " [""] eq_refl eq_refl eq_refl)
                  eq_refl))).
Defined.

Ltac no_choice H :=
  unfold known_choice, main_choices_ai, main_choices in H;
  cbn [app existsb] in H;
  repeat match goal with
         | H : (_ || _) = false |- _ =>
             apply orb_false_iff in H; let H1 := fresh in destruct H as [H1 H]
         end;
  repeat match goal with
         | H : (_ =? _) = false |- _ => rewrite H; clear H
         end.

(** X27.  A choice that is no token of the main menu: each program
    prints "Unknown choice.", waits for Enter and goes on to the next
    turn, with the context as it was; nothing is started or written. *)
Theorem menu_unknown_choice :
  forall (e : env) (s : state) (raw enter : string) (rest : list string),
    stdin s = raw :: enter :: rest ->
    let refused (r : outcome bool) (s' : state) :=
      r = Ok true /\ ctx s' = ctx s /\ stdin s' = rest
      /\ execs (trace s') = execs (trace s)
      /\ writes (trace s') = writes (trace s)
      /\ exists pre,
           trace s'
           = pre +++ [EvPrint ("Unknown choice." ++ LF);
                      EvInput (Common.GRAY ++ "Press Enter to continue..."
                               ++ Common.RESET) enter] in
    (known_choice main_choices (Py.lower (Py.strip raw)) = false ->
     wp V01.menu_iteration e s refused /\ wp V12.menu_iteration e s refused)
    /\ (known_choice main_choices_ai (Py.lower (Py.strip raw)) = false ->
        wp Ai.menu_iteration e s refused).
Proof.
  intros e s raw enter rest Hin refused. subst refused.
  split; [intros Hk; split | intros Hk].
  - unfold V01.menu_iteration, Common.clear, print_end, V01.status_line.
    prefix. apply wp_input. simp_state. rewrite Hin. no_choice Hk.
    prefix. apply wp_pause. simp_state. prefix.
    repeat match goal with |- _ /\ _ => split end; try traces_agree.
    eexists. symmetry. exact (app_assoc _ [_] [_]).
  - unfold V12.menu_iteration, Common.clear, print_end, V12.status_line.
    prefix. apply wp_input. simp_state. rewrite Hin. no_choice Hk.
    prefix. apply wp_try_except. unfold V12.dispatch. prefix. no_choice Hk.
    prefix. apply wp_pause. simp_state. prefix.
    repeat match goal with |- _ /\ _ => split end; try traces_agree.
    eexists. symmetry. exact (app_assoc _ [_] [_]).
  - unfold Ai.menu_iteration, Common.clear, print_end, Ai.status_line.
    prefix. apply wp_input. simp_state. rewrite Hin. no_choice Hk.
    prefix. apply wp_try_except. unfold Ai.dispatch. prefix. no_choice Hk.
    prefix. apply wp_pause. simp_state. prefix.
    repeat match goal with |- _ /\ _ => split end; try traces_agree.
    eexists. symmetry. exact (app_assoc _ [_] [_]).
Qed.

Lemma menu_unknown_choice_witness :
  fst (V12.menu_iteration hang_env (state_of (bound false) ["5"; ""])) = Ok true.
Proof.
  exact (proj1 (proj2 (proj1 (@menu_unknown_choice
                  hang_env (state_of (bound false) ["5"; ""]) "5" "" [] eq_refl)
                  eq_refl))).
Defined.

(** ** The frame as printed *)

(** The banner of [android_workbench_ai.py] is printed as its four rows. *)
Lemma box_text_lines_witness :
  Py.splitlines Ai.banner
  = Common.box_rows
      [Common.NEON_CYAN ++ Common.BOLD ++ "ANDROID WORKBENCH" ++ Common.RESET ++ " "
       ++ Common.DIM ++ "ai" ++ Common.RESET;
       Common.GRAY ++ "based on v1.2 — extra ADB/Fastboot options" ++ Common.RESET]
      (Common.NEON_PURPLE ++ "OPENCLAW" ++ Common.RESET).
Proof.
  unfold Ai.banner. apply (@box_text_lines _ _).
  repeat constructor.
Defined.

Lemma or_else_empty (t : string) : Ai.or_else t "" = t.
Proof. now destruct t. Qed.


